(** * polarity: type coercion and three-way reconciliation of tables

    A shallow embedding of [polarity/caster.py] (class [PolarsCaster]) and
    the properties of its coercion engine ([attempt_cast]), its temporal
    parser ([parse_date], [parse_datetime]) and its reconciler
    ([split_dataframe]).

    Modelling conventions.
    - Python values are the inductive [pyvalue]; a text is the sequence of
      its code points, a [string] whose characters are the code points 0 to
      255 (the Latin-1 range, which [lower] and [strip] do not leave); text
      with a code point above 255 is outside the model.
    - A Python [float] is an IEEE-754 binary64 number, [spec_float] of the
      standard library with [prec = 53] and [emax = 1024].
    - Exceptions are explicit: a function that can raise returns a [result].
    - What the interpreter and the third-party packages provide and the
      source only calls (regular expressions, [strptime], [fromisoformat],
      the [repr] of a float, the element cast of polars) is the class
      [Runtime]; a pydantic model is a [schema] record holding its JSON
      schema properties and its validation function. *)

From Stdlib Require Import ZArith List Bool Ascii String Lia.
From Stdlib Require Import Floats.SpecFloat.
From stdpp Require Import base gmap strings.

Import ListNotations.
Local Open Scope string_scope.
Local Open Scope Z_scope.

(** ** Python text *)

Module PyStr.

Definition chars (s : string) : list ascii := list_ascii_of_string s.
Definition text (cs : list ascii) : string := string_of_list_ascii cs.

Definition code (c : ascii) : Z := Z.of_N (N_of_ascii c).

Definition is_digit (c : ascii) : bool := (48 <=? code c) && (code c <=? 57).

Definition digit_value (c : ascii) : Z := code c - 48.

(** [str.isspace], the white space [strip()] removes: TAB..CR, FS..US,
    the blank, NEL (U+0085) and the no-break space (U+00A0). *)
Definition is_space (c : ascii) : bool :=
  ((9 <=? code c) && (code c <=? 13)) || ((28 <=? code c) && (code c <=? 32))
  || (code c =? 133) || (code c =? 160).

(** The letters with a lower-case form: A..Z and, above 127, U+00C0..U+00DE
    without the multiplication sign U+00D7; the lower-case form is 32
    further. *)
Definition lower_char (c : ascii) : ascii :=
  if ((65 <=? code c) && (code c <=? 90))
     || ((192 <=? code c) && (code c <=? 222) && negb (code c =? 215))
  then ascii_of_N (N_of_ascii c + 32) else c.

(** [s.lower()] *)
Definition lower (s : string) : string := text (map lower_char (chars s)).

(** The white space that [int(s)] and [float(s)] skip around a number:
    TAB..CR and the blank, and the white space above 127, which both
    builtins turn into a blank before they parse; FS..US stay as they are. *)
Definition is_blank (c : ascii) : bool :=
  ((9 <=? code c) && (code c <=? 13)) || (code c =? 32)
  || (code c =? 133) || (code c =? 160).

Fixpoint lstrip_chars (space : ascii -> bool) (cs : list ascii) : list ascii :=
  match cs with
  | c :: cs' => if space c then lstrip_chars space cs' else cs
  | [] => []
  end.

Definition strip_chars (space : ascii -> bool) (cs : list ascii) : list ascii :=
  rev (lstrip_chars space (rev (lstrip_chars space cs))).

(** [s.strip()] *)
Definition strip (s : string) : string := text (strip_chars is_space (chars s)).

(** [c in s] for a one-character [c] *)
Definition contains (c : ascii) (s : string) : bool :=
  existsb (Ascii.eqb c) (chars s).

(** [s.split(c)] for a one-character separator: the pieces between the
    occurrences of [c], always at least one piece. *)
Fixpoint split_chars (c : ascii) (cur : list ascii) (cs : list ascii)
  : list (list ascii) :=
  match cs with
  | [] => [rev cur]
  | x :: cs' =>
      if Ascii.eqb x c then rev cur :: split_chars c [] cs'
      else split_chars c (x :: cur) cs'
  end.

Definition split (c : ascii) (s : string) : list string :=
  map text (split_chars c [] (chars s)).

Definition len (s : string) : Z := Z.of_nat (String.length s).

(** [s.endswith(c)] *)
Definition endswith (c : ascii) (s : string) : bool :=
  match rev (chars s) with
  | x :: _ => Ascii.eqb x c
  | [] => false
  end.

(** [s.replace(c, t)] for a one-character [c] *)
Definition replace (c : ascii) (t : string) (s : string) : string :=
  text (flat_map (fun x => if Ascii.eqb x c then chars t else [x]) (chars s)).

Fixpoint find_from (c : ascii) (i : Z) (cs : list ascii) : Z :=
  match cs with
  | [] => -1
  | x :: cs' => if Ascii.eqb x c then i else find_from c (i + 1) cs'
  end.

(** [s.find(c, start)]; [start] may be negative, as Python allows. *)
Definition find (c : ascii) (start : Z) (s : string) : Z :=
  let n := len s in
  let st := if start <? 0 then Z.max 0 (n + start) else start in
  find_from c st (skipn (Z.to_nat st) (chars s)).

(** [s[:-k]] for [k > 0] *)
Definition drop_last (k : nat) (s : string) : string :=
  text (firstn (String.length s - k) (chars s)).

Fixpoint digits_value (acc : Z) (cs : list ascii) : Z :=
  match cs with
  | [] => acc
  | c :: cs' => digits_value (10 * acc + digit_value c) cs'
  end.

Definition all_digits (s : string) : bool :=
  match chars s with
  | [] => false
  | cs => forallb is_digit cs
  end.

(** The number a run of decimal digits denotes. *)
Definition number (s : string) : Z := digits_value 0 (chars s).

(** Underscores of a numeric literal: allowed only between two digits.
    [None] when one is misplaced. *)
Fixpoint drop_underscores (prev : option ascii) (cs : list ascii)
  : option (list ascii) :=
  match cs with
  | [] => match prev with
          | Some p => if Ascii.eqb p "_" then None else Some []
          | None => Some []
          end
  | c :: cs' =>
      if Ascii.eqb c "_" then
        match prev with
        | Some p => if is_digit p then drop_underscores (Some c) cs' else None
        | None => None
        end
      else
        let bad := match prev with
                   | Some p => Ascii.eqb p "_" && negb (is_digit c)
                   | None => false
                   end in
        if bad then None
        else option_map (cons c) (drop_underscores (Some c) cs')
  end.

Definition take_sign (cs : list ascii) : bool * list ascii :=
  match cs with
  | c :: cs' =>
      if Ascii.eqb c "-" then (true, cs')
      else if Ascii.eqb c "+" then (false, cs')
      else (false, cs)
  | [] => (false, [])
  end.

Fixpoint span_digits (cs : list ascii) : list ascii * list ascii :=
  match cs with
  | c :: cs' =>
      if is_digit c
      then let '(ds, rest) := span_digits cs' in (c :: ds, rest)
      else ([], cs)
  | [] => ([], [])
  end.

(** [sys.int_info.default_max_str_digits]: the most digits that [int(s)]
    reads and that [str(n)] writes. *)
Definition int_max_str_digits : nat := 4300.

(** [int(s)] on text: surrounding white space, an optional sign, decimal
    digits with single underscores between them, at most
    [int_max_str_digits] digits.  [None] is [ValueError]. *)
Definition to_int (s : string) : option Z :=
  match drop_underscores None (strip_chars is_blank (chars s)) with
  | None => None
  | Some cs =>
      let '(neg, body) := take_sign cs in
      match body with
      | [] => None
      | _ => if forallb is_digit body
                && (List.length body <=? int_max_str_digits)%nat
             then Some (if neg then - digits_value 0 body else digits_value 0 body)
             else None
      end
  end.

Fixpoint pos_digits (fuel : nat) (n : Z) (acc : list ascii) : list ascii :=
  match fuel with
  | O => acc
  | S fuel' =>
      let d := ascii_of_N (Z.to_N (48 + n mod 10)) in
      if n <? 10 then d :: acc else pos_digits fuel' (n / 10) (d :: acc)
  end.

(** [str(n)] of an integer *)
Definition of_int (n : Z) : string :=
  let body := text (pos_digits (S (Z.to_nat (Z.log2 (Z.abs n)))) (Z.abs n) []) in
  if n <? 0 then String "-" body else body.

(** The decimal digits of [n], padded with zeros on the left to [w]. *)
Definition zero_padded (w : nat) (n : Z) : string :=
  let ds := chars (of_int (Z.abs n)) in
  text (repeat "0"%char (w - List.length ds) ++ ds)%list.

End PyStr.

(** ** Python floats: IEEE-754 binary64 *)

Module PyFloat.

Definition prec : Z := 53.
Definition emax : Z := 1024.

(** The binary64 number nearest to [(-1)^neg * m * 10^e10], ties to even:
    what the correctly rounded [strtod] behind [float(text)] returns. *)
Definition of_decimal (neg : bool) (m : Z) (e10 : Z) : spec_float :=
  match m with
  | Zpos p =>
      if 0 <=? e10
      then binary_round prec emax neg (p * Z.to_pos (10 ^ e10))%positive 0
      else SFdiv prec emax (S754_finite neg p 0)
                 (S754_finite false (Z.to_pos (10 ^ (- e10))) 0)
  | _ => S754_zero neg
  end.

Definition word_is (w : string) (cs : list ascii) : bool :=
  String.eqb (PyStr.lower (PyStr.text cs)) w.

(** The exponent part of a literal: empty, or [e]/[E], an optional sign
    and at least one digit.  [None] when something else follows. *)
Definition exponent (cs : list ascii) : option Z :=
  match cs with
  | [] => Some 0
  | c :: cs' =>
      if Ascii.eqb (PyStr.lower_char c) "e" then
        let '(neg, ds) := PyStr.take_sign cs' in
        match ds with
        | [] => None
        | _ => if forallb PyStr.is_digit ds
               then Some (if neg then - PyStr.digits_value 0 ds
                          else PyStr.digits_value 0 ds)
               else None
        end
      else None
  end.

(** [float(s)] on text; [None] is [ValueError]. *)
Definition of_string (s : string) : option spec_float :=
  match PyStr.drop_underscores None
          (PyStr.strip_chars PyStr.is_blank (PyStr.chars s)) with
  | None => None
  | Some cs =>
      let '(neg, body) := PyStr.take_sign cs in
      if word_is "inf" body || word_is "infinity" body then Some (S754_infinity neg)
      else if word_is "nan" body then Some S754_nan
      else
        let '(ip, rest) := PyStr.span_digits body in
        let '(fp, rest') :=
          match rest with
          | c :: r => if Ascii.eqb c "." then PyStr.span_digits r else ([], rest)
          | [] => ([], [])
          end in
        match (ip ++ fp)%list with
        | [] => None
        | ds =>
            match exponent rest' with
            | Some e =>
                Some (of_decimal neg (PyStr.digits_value 0 ds)
                                 (e - Z.of_nat (List.length fp)))
            | None => None
            end
        end
  end.

(** [x.is_integer()] *)
Definition is_integer (x : spec_float) : bool :=
  match x with
  | S754_zero _ => true
  | S754_finite _ m e => (0 <=? e) || (Zpos m mod 2 ^ (- e) =? 0)
  | _ => false
  end.

(** [int(x)]: truncation towards zero; [None] is the [OverflowError] of an
    infinity or the [ValueError] of a NaN. *)
Definition to_int (x : spec_float) : option Z :=
  match x with
  | S754_zero _ => Some 0
  | S754_finite s m e =>
      let a := if 0 <=? e then Zpos m * 2 ^ e else Zpos m / 2 ^ (- e) in
      Some (if s then - a else a)
  | _ => None
  end.

(** [float(n)] of an integer; [None] is [OverflowError]. *)
Definition of_int (n : Z) : option spec_float :=
  match binary_normalize prec emax n 0 false with
  | S754_infinity _ => None
  | x => Some x
  end.

(** [math.isnan(x)] *)
Definition is_nan (x : spec_float) : bool :=
  match x with S754_nan => true | _ => false end.

(** [bool(x)]: false exactly on the two zeros. *)
Definition truth (x : spec_float) : bool :=
  match x with S754_zero _ => false | _ => true end.

(** [x == y] on floats: a NaN equals nothing, the two zeros are equal. *)
Definition eqb (x y : spec_float) : bool :=
  match x, y with
  | S754_zero _, S754_zero _ => true
  | S754_infinity s, S754_infinity s' => Bool.eqb s s'
  | S754_finite s m e, S754_finite s' m' e' =>
      Bool.eqb s s' && Pos.eqb m m' && Z.eqb e e'
  | _, _ => false
  end.

(** [x == n] for a float and an integer: exact, no rounding of [n]. *)
Definition eqb_int (x : spec_float) (n : Z) : bool :=
  match x with
  | S754_zero _ => n =? 0
  | S754_finite _ _ _ =>
      is_integer x && match to_int x with Some k => k =? n | None => false end
  | _ => false
  end.

End PyFloat.

(** ** Calendar dates and timestamps ([datetime.date], [datetime.datetime]) *)

Module PyDate.

Record date := mkdate { year : Z; month : Z; day : Z }.

(** A timestamp; [tzoffset] is the UTC offset in seconds of an aware
    timestamp and [None] for a naive one. *)
Record datetime := mkdatetime {
  dt_date : date;
  hour : Z; minute : Z; second : Z; microsecond : Z;
  tzoffset : option Z
}.

Definition is_leap (y : Z) : bool :=
  (y mod 4 =? 0) && (negb (y mod 100 =? 0) || (y mod 400 =? 0)).

Definition days_in_month (y m : Z) : Z :=
  if m =? 2 then (if is_leap y then 29 else 28)
  else if (m =? 4) || (m =? 6) || (m =? 9) || (m =? 11) then 30
  else 31.

(** The constructors [date] and [datetime] take their arguments as C
    [int]s: an integer that does not fit raises [OverflowError] before any
    range is looked at. *)
Definition c_int (n : Z) : bool := (- 2 ^ 31 <=? n) && (n <? 2 ^ 31).

(** The range check of [date(y, m, d)]. *)
Definition in_calendar (y m d : Z) : bool :=
  (1 <=? y) && (y <=? 9999) && (1 <=? m) && (m <=? 12)
  && (1 <=? d) && (d <=? days_in_month y m).

(** The range check of the time of day of [datetime(..., h, mi, s)]. *)
Definition in_day (h mi s : Z) : bool :=
  (0 <=? h) && (h <=? 23) && (0 <=? mi) && (mi <=? 59)
  && (0 <=? s) && (s <=? 59).

(** [datetime.combine(d, datetime.min.time())] *)
Definition at_midnight (d : date) : datetime := mkdatetime d 0 0 0 0 None.

Definition date_eqb (a b : date) : bool :=
  (year a =? year b) && (month a =? month b) && (day a =? day b).

Fixpoint days_before_month (y : Z) (m : nat) : Z :=
  match m with
  | O => 0
  | S m' => days_before_month y m' + days_in_month y (Z.of_nat m)
  end.

(** [d.toordinal()] *)
Definition ordinal (d : date) : Z :=
  let y := year d - 1 in
  365 * y + y / 4 - y / 100 + y / 400
  + days_before_month (year d) (Z.to_nat (month d - 1)) + day d.

Definition wall_seconds (t : datetime) : Z :=
  ((ordinal (dt_date t) * 24 + hour t) * 60 + minute t) * 60 + second t.

(** [a == b] on timestamps: naive ones by their fields, aware ones by the
    instant they denote; a naive one never equals an aware one. *)
Definition datetime_eqb (a b : datetime) : bool :=
  match tzoffset a, tzoffset b with
  | None, None =>
      (wall_seconds a =? wall_seconds b) && date_eqb (dt_date a) (dt_date b)
      && (microsecond a =? microsecond b)
  | Some oa, Some ob =>
      (wall_seconds a - oa =? wall_seconds b - ob)
      && (microsecond a =? microsecond b)
  | _, _ => false
  end.

(** [d.isoformat()], which is also [str(d)] *)
Definition isoformat (d : date) : string :=
  PyStr.zero_padded 4 (year d) ++ "-" ++ PyStr.zero_padded 2 (month d)
  ++ "-" ++ PyStr.zero_padded 2 (day d).

Definition offset_text (o : Z) : string :=
  let a := Z.abs o in
  (if o <? 0 then "-" else "+")
  ++ PyStr.zero_padded 2 (a / 3600) ++ ":" ++ PyStr.zero_padded 2 (a / 60 mod 60)
  ++ (if a mod 60 =? 0 then "" else ":" ++ PyStr.zero_padded 2 (a mod 60)).

(** [str(t)]: [t.isoformat(sep=' ')] *)
Definition datetime_str (t : datetime) : string :=
  isoformat (dt_date t) ++ " " ++ PyStr.zero_padded 2 (hour t) ++ ":"
  ++ PyStr.zero_padded 2 (minute t) ++ ":" ++ PyStr.zero_padded 2 (second t)
  ++ (if microsecond t =? 0 then "" else "." ++ PyStr.zero_padded 6 (microsecond t))
  ++ match tzoffset t with Some o => offset_text o | None => "" end.

End PyDate.

(** ** Python values *)

Import PyDate.

(** An object of any other class (bytes, a time of day, a decimal, ...),
    given by its class, its state and what the builtins [int], [float],
    [str] and [bool] answer on it; [None] stands for the [ValueError],
    [TypeError] or [OverflowError] the builtin raises. *)
Record pyobj := mkobj {
  obj_class : string;
  obj_state : string;
  obj_int : option Z;
  obj_float : option spec_float;
  obj_str : string;
  obj_bool : bool
}.

Inductive pyvalue :=
| VNone
| VBool (b : bool)
| VInt (n : Z)
| VFloat (x : spec_float)
| VStr (s : string)
| VDate (d : date)
| VDatetime (t : datetime)
| VObj (o : pyobj).

(** The type asked of [attempt_cast]: [int], [float], [str], [bool], [date]
    and [datetime], the only ones [cast_row] passes. *)
Inductive target_type := TInt | TFloat | TStr | TBool | TDate | TDatetime.

(** Column types of polars. *)
Inductive dtype :=
| Int64 | Float64 | Utf8 | Boolean | Date | Datetime | Object | Null.

#[global] Instance spec_float_eq_dec : EqDecision spec_float.
Proof. solve_decision. Defined.
#[global] Instance date_eq_dec : EqDecision date.
Proof. solve_decision. Defined.
#[global] Instance datetime_eq_dec : EqDecision datetime.
Proof. solve_decision. Defined.
#[global] Instance pyobj_eq_dec : EqDecision pyobj.
Proof. solve_decision. Defined.
#[global] Instance pyvalue_eq_dec : EqDecision pyvalue.
Proof. solve_decision. Defined.
#[global] Instance dtype_eq_dec : EqDecision dtype.
Proof. solve_decision. Defined.

(** ** Exceptions *)

Inductive exn :=
| SchemaNotFound (name : string)
    (* KeyError: No existe el schema '...' definido. *)
| EmptyPrimaryKeyList
    (* ValueError: Primary key list 'pks' cannot be empty. *)
| MissingPrimaryKeyColumn (table : string) (column : string)
    (* ValueError: Primary key '...' does not exist in <table>. *)
| NullPrimaryKeyValue (table : string) (column : string) (count : nat)
    (* ValueError: Primary key '...' contains <count> null values in <table>. *)
| RowValidationFailure (row : list (string * pyvalue))
    (* ValueError: Error validando la fila ... *)
| RecursionError
| UnboundLocalError
| IndexError
| ColumnNotFoundError (column : string)
| DuplicateError
| InvalidOperationError
| OverflowError.
    (* an argument of [date] or [datetime] that does not fit a C int *)

Inductive result (A : Type) :=
| Ok (a : A)
| Raise (e : exn).
Arguments Ok {A} a.
Arguments Raise {A} e.

Definition bind {A B : Type} (r : result A) (k : A -> result B) : result B :=
  match r with
  | Ok a => k a
  | Raise e => Raise e
  end.

#[global] Instance result_bind : MBind result := fun A B k r => bind r k.
#[global] Instance result_ret : MRet result := fun A a => Ok a.

Fixpoint mapM {A B : Type} (f : A -> result B) (l : list A) : result (list B) :=
  match l with
  | [] => Ok []
  | a :: l' => b ← f a; bs ← mapM f l'; Ok (b :: bs)
  end.

(** [date(y, m, d)].  [Ok None] is the [ValueError] of an impossible date,
    which the source catches wherever it builds a date; the
    [OverflowError] of an argument that is no C [int] it catches nowhere
    but in [attempt_cast]. *)
Definition make_date (y m d : Z) : result (option date) :=
  if c_int y && c_int m && c_int d
  then Ok (if in_calendar y m d then Some (mkdate y m d) else None)
  else Raise OverflowError.

(** [datetime(y, mo, d, h, mi, s)], naive; [Ok None] is [ValueError]. *)
Definition make_datetime (y mo d h mi s : Z) : result (option datetime) :=
  if c_int y && c_int mo && c_int d && c_int h && c_int mi && c_int s
  then Ok (if in_calendar y mo d && in_day h mi s
           then Some (mkdatetime (mkdate y mo d) h mi s 0 None) else None)
  else Raise OverflowError.

(** ** What the interpreter and the packages provide *)

Class Runtime := {
  (** [re.match(pattern, text)] finds a match *)
  re_match : string -> string -> bool;
  (** [datetime.strptime(text, format)]; [None] is [ValueError] *)
  strptime : string -> string -> option datetime;
  (** [date.fromisoformat(text)]; [None] is [ValueError] *)
  date_fromisoformat : string -> option date;
  (** [datetime.fromisoformat(text)]; [None] is [ValueError] *)
  datetime_fromisoformat : string -> option datetime;
  (** [repr(x)] of a float, which is also [str(x)] *)
  float_repr : spec_float -> string;
  (** the cast of one element of a polars column to a column type; [None]
      when the strict cast fails *)
  polars_cast : dtype -> pyvalue -> option pyvalue
}.

(** ** The builtins on values *)

(** [isinstance(v, t)]: a [bool] is an [int], a [datetime] is a [date]. *)
Definition isinstance (v : pyvalue) (t : target_type) : bool :=
  match t, v with
  | TInt, (VBool _ | VInt _) => true
  | TFloat, VFloat _ => true
  | TStr, VStr _ => true
  | TBool, VBool _ => true
  | TDate, (VDate _ | VDatetime _) => true
  | TDatetime, VDatetime _ => true
  | _, _ => false
  end.

(** [int(v)] *)
Definition py_int (v : pyvalue) : option Z :=
  match v with
  | VBool b => Some (if b then 1 else 0)
  | VInt n => Some n
  | VFloat x => PyFloat.to_int x
  | VStr s => PyStr.to_int s
  | VObj o => obj_int o
  | VNone | VDate _ | VDatetime _ => None
  end.

(** [float(v)] *)
Definition py_float (v : pyvalue) : option spec_float :=
  match v with
  | VBool b => Some (if b then S754_finite false 4503599627370496 (-52)
                     else S754_zero false)
  | VInt n => PyFloat.of_int n
  | VFloat x => Some x
  | VStr s => PyFloat.of_string s
  | VObj o => obj_float o
  | VNone | VDate _ | VDatetime _ => None
  end.

(** [bool(v)] *)
Definition py_bool (v : pyvalue) : bool :=
  match v with
  | VNone => false
  | VBool b => b
  | VInt n => negb (n =? 0)
  | VFloat x => PyFloat.truth x
  | VStr s => negb (String.eqb s "")
  | VDate _ | VDatetime _ => true
  | VObj o => obj_bool o
  end.

(** [a == b] *)
Definition py_eqb (a b : pyvalue) : bool :=
  match a, b with
  | VNone, VNone => true
  | VBool x, VBool y => Bool.eqb x y
  | VBool x, VInt n | VInt n, VBool x => (if x then 1 else 0) =? n
  | VInt n, VInt k => n =? k
  | VBool x, VFloat f | VFloat f, VBool x => PyFloat.eqb_int f (if x then 1 else 0)
  | VInt n, VFloat f | VFloat f, VInt n => PyFloat.eqb_int f n
  | VFloat f, VFloat g => PyFloat.eqb f g
  | VStr s, VStr t => String.eqb s t
  | VDate d, VDate e => date_eqb d e
  | VDatetime t, VDatetime u => datetime_eqb t u
  | VObj o, VObj p => bool_decide (o = p)
  | _, _ => false
  end.

Section Coercion.

Context {rt : Runtime}.

(** [str(v)]; [None] is the [ValueError] of an integer of more than
    [int_max_str_digits] digits. *)
Definition py_str (v : pyvalue) : option string :=
  match v with
  | VNone => Some "None"
  | VBool b => Some (if b then "True" else "False")
  | VInt n =>
      if Z.abs n <? 10 ^ Z.of_nat PyStr.int_max_str_digits
      then Some (PyStr.of_int n) else None
  | VFloat x => Some (float_repr x)
  | VStr s => Some s
  | VDate d => Some (isoformat d)
  | VDatetime t => Some (datetime_str t)
  | VObj o => Some (obj_str o)
  end.

(** *** Temporal parser *)

(** [self.date_patterns] *)
Definition date_patterns : list (string * string) :=
  [ ("^\d{4}-\d{2}-\d{2}$", "%Y-%m-%d");
    ("^\d{4}/\d{2}/\d{2}$", "%Y/%m/%d");
    ("^\d{1,2}/\d{1,2}/\d{4}$", "%m/%d/%Y");
    ("^\d{1,2}-\d{1,2}-\d{4}$", "%m-%d-%Y");
    ("^\d{1,2}/\d{1,2}/\d{2}$", "%m/%d/%y");
    ("^\d{1,2}-\d{1,2}-\d{2}$", "%m-%d-%y");
    ("^\d{1,2}/\d{1,2}/\d{4}$", "%d/%m/%Y");
    ("^\d{1,2}-\d{1,2}-\d{4}$", "%d-%m-%Y");
    ("^\d{1,2}/\d{1,2}/\d{2}$", "%d/%m/%y");
    ("^\d{1,2}-\d{1,2}-\d{2}$", "%d-%m-%y") ].

(** [self.datetime_patterns]; the format [None] is the special handling of
    an offset written without a colon. *)
Definition datetime_patterns : list (string * option string) :=
  [ ("^\d{4}-\d{2}-\d{2}T\d{2}:\d{2}:\d{2}Z$", Some "%Y-%m-%dT%H:%M:%SZ");
    ("^\d{4}-\d{2}-\d{2}T\d{2}:\d{2}:\d{2}[-+]\d{2}:\d{2}$", Some "%Y-%m-%dT%H:%M:%S%z");
    ("^\d{4}-\d{2}-\d{2}T\d{2}:\d{2}:\d{2}[-+]\d{4}$", None);
    ("^\d{4}-\d{2}-\d{2} \d{2}:\d{2}:\d{2}$", Some "%Y-%m-%d %H:%M:%S");
    ("^\d{4}/\d{2}/\d{2} \d{2}:\d{2}:\d{2}$", Some "%Y/%m/%d %H:%M:%S");
    ("^\d{1,2}/\d{1,2}/\d{4} \d{1,2}:\d{2}:\d{2} [AP]M$", Some "%m/%d/%Y %I:%M:%S %p");
    ("^\d{1,2}/\d{1,2}/\d{4} \d{2}:\d{2}:\d{2}$", Some "%m/%d/%Y %H:%M:%S");
    ("^\d{1,2}/\d{1,2}/\d{4} \d{2}:\d{2}:\d{2}$", Some "%d/%m/%Y %H:%M:%S");
    ("^\d{1,2}-\d{1,2}-\d{4} \d{2}:\d{2}:\d{2}$", Some "%d-%m-%Y %H:%M:%S") ].

(** [or_else a b]: [a] when it produced something, otherwise [b]; the
    shape of a [try: return ... except ValueError:] followed by more code. *)
Definition or_else {A : Type} (a : option A) (b : option A) : option A :=
  match a with
  | Some _ => a
  | None => b
  end.

(** The same shape when the attempt can also raise what the handler does
    not catch: that exception ends the function, [b] is not tried. *)
Definition or_try {A : Type} (a b : result (option A)) : result (option A) :=
  match a with
  | Ok None => b
  | _ => a
  end.

(** [date(int(y), int(m), int(d))]; [Ok None] is the [ValueError] of a part
    that is no integer or of an impossible date. *)
Definition date_of_parts (y m d : string) : result (option date) :=
  match PyStr.to_int y, PyStr.to_int m, PyStr.to_int d with
  | Some y', Some m', Some d' => make_date y' m' d'
  | _, _, _ => Ok None
  end.

(** Lines 149-165 of [parse_date]: the ISO fast path.  Its handler catches
    [ValueError] and [IndexError]; the [OverflowError] of line 160 leaves
    [parse_date]. *)
Definition date_fast_path (value : string) : result (option date) :=
  if PyStr.contains "T" value then
    Ok (date_fromisoformat (hd "" (PyStr.split "T" value)))
  else if PyStr.contains " " value then
    let date_part := hd "" (PyStr.split " " value) in
    if PyStr.contains "-" date_part then Ok (date_fromisoformat date_part)
    else if PyStr.contains "/" date_part then
      match PyStr.split "/" date_part with
      | [y; m; d] => date_of_parts y m d
      | _ => Ok None
      end
    else Ok None
  else Ok (date_fromisoformat value).

(** Lines 168-174: the first pattern that matches and parses. *)
Fixpoint date_by_patterns (patterns : list (string * string)) (value : string)
  : option date :=
  match patterns with
  | [] => None
  | (pattern, format_str) :: rest =>
      if re_match pattern value then
        match strptime value format_str with
        | Some dt => Some (dt_date dt)
        | None => date_by_patterns rest value
        end
      else date_by_patterns rest value
  end.

(** The body under [if len(parts) == 3:] of lines 179-194 and 198-212.
    Its handlers catch [ValueError] and [IndexError] only. *)
Definition date_of_three_parts (parts : list string) : result (option date) :=
  match parts with
  | [p0; p1; p2] =>
      if PyStr.len p0 =? 4 then date_of_parts p0 p1 p2
      else if PyStr.len p2 =? 4 then
        or_try (date_of_parts p2 p0 p1) (date_of_parts p2 p1 p0)
      else Ok None
  | _ => Ok None
  end.

(** Lines 177-194 for ["/"], lines 196-212 for ["-"]. *)
Definition manual_split (sep : ascii) (value : string) : result (option date) :=
  if PyStr.contains sep value
  then date_of_three_parts (PyStr.split sep value)
  else Ok None.

(** Lines 176-212 of [parse_date]: the manual fallback, first on slashes
    and then on dashes.  [Ok None]: no date was returned, the parser goes
    on; [Raise]: an exception left [parse_date]. *)
Definition manual_fallback (value : string) : result (option date) :=
  or_try (manual_split "/" value) (manual_split "-" value).

(** [re.search(r'([-+])(\d{2})(\d{2})$', value)]: the sign, the hours and
    the minutes of an offset without a colon at the end of the text (or
    just before a final newline, where [$] also matches). *)
Definition tz_suffix (value : string) : option (string * string * string) :=
  let cs := rev (PyStr.chars value) in
  let core := match cs with
              | c :: cs' => if Ascii.eqb c "010" then cs' else cs
              | [] => []
              end in
  match core with
  | m2 :: m1 :: h2 :: h1 :: sg :: _ =>
      if forallb PyStr.is_digit [m2; m1; h2; h1]
         && (Ascii.eqb sg "-" || Ascii.eqb sg "+")
      then Some (PyStr.text [sg], PyStr.text [h1; h2], PyStr.text [m1; m2])
      else None
  | _ => None
  end.

(** [value[:-5] + f"{sign}{hours}:{minutes}"] when the search succeeds. *)
Definition fix_tz (value : string) : option string :=
  match tz_suffix value with
  | Some (sign, hours, minutes) =>
      Some (PyStr.drop_last 5 value ++ sign ++ hours ++ ":" ++ minutes)
  | None => None
  end.

(** Lines 234-261 of [parse_datetime]: ISO text, with or without ["T"]. *)
Definition datetime_fast_path (value : string) : option datetime :=
  if PyStr.contains "T" value then
    if PyStr.endswith "Z" value then
      datetime_fromisoformat (PyStr.replace "Z" "+00:00" value)
    else if PyStr.contains "+" value
            || (PyStr.contains "-" value
                && (PyStr.find "T" 0 value
                    <? PyStr.find "-" (PyStr.find "T" 0 value) value)) then
      or_else (datetime_fromisoformat value)
              (match fix_tz value with
               | Some value_fixed => datetime_fromisoformat value_fixed
               | None => None
               end)
    else datetime_fromisoformat value
  else datetime_fromisoformat value.

(** Lines 264-279. *)
Fixpoint datetime_by_patterns (patterns : list (string * option string))
  (value : string) : option datetime :=
  match patterns with
  | [] => None
  | (pattern, format_str) :: rest =>
      if re_match pattern value then
        match format_str with
        | None =>
            or_else (match fix_tz value with
                     | Some value_mod => datetime_fromisoformat value_mod
                     | None => None
                     end)
                    (datetime_by_patterns rest value)
        | Some fmt =>
            or_else (strptime value fmt) (datetime_by_patterns rest value)
        end
      else datetime_by_patterns rest value
  end.

(** The time of day of lines 304-309; [None] is [ValueError]. *)
Definition time_of_part (time_part : string) : option (Z * Z * Z) :=
  if PyStr.contains ":" time_part then
    match PyStr.split ":" time_part with
    | h :: m :: rest =>
        match PyStr.to_int h, PyStr.to_int m with
        | Some h', Some m' =>
            match rest with
            | s :: _ => option_map (fun s' => (h', m', s')) (PyStr.to_int s)
            | [] => Some (h', m', 0)
            end
        | _, _ => None
        end
    | _ => None
    end
  else Some (0, 0, 0).

(** Lines 303-311: the time of day, then [datetime(...)] on the date [d]
    that lines 294-301 assigned. *)
Definition datetime_on (d : option date) (time_part : string)
  : result (option datetime) :=
  match d with
  | None => Ok None
  | Some d =>
      match time_of_part time_part with
      | Some (h, m, s) => make_datetime (year d) (month d) (day d) h m s
      | None => Ok None
      end
  end.

(** Lines 287-313 of [parse_datetime].  The result is [Ok None] when the
    block returns nothing; when neither the first nor the last part has
    four characters, [d] was never assigned and reading it raises. *)
Definition datetime_manual (value : string) : result (option datetime) :=
  if PyStr.contains "/" value then
    let has_space := PyStr.contains " " value in
    let date_part := if has_space then hd "" (PyStr.split " " value) else value in
    let time_part := if has_space then nth 1 (PyStr.split " " value) ""
                     else "00:00:00" in
    match PyStr.split "/" date_part with
    | [p0; p1; p2] =>
        if PyStr.len p0 =? 4 then
          d ← date_of_parts p0 p1 p2; datetime_on d time_part
        else if PyStr.len p2 =? 4 then
          d ← or_try (date_of_parts p2 p0 p1) (date_of_parts p2 p1 p0);
          datetime_on d time_part
        else
          match time_of_part time_part with
          | Some _ => Raise UnboundLocalError
          | None => Ok None
          end
    | _ => Ok None
    end
  else Ok None.

(** [parse_date] and [parse_datetime] on text call each other; [depth] is
    the number of frames left before the interpreter raises
    [RecursionError]. *)
Fixpoint parse_date_text (depth : nat) (value : string) {struct depth}
  : result (option date) :=
  match depth with
  | O => Raise RecursionError
  | S depth' =>
      fast ← date_fast_path value;
      match or_else fast (date_by_patterns date_patterns value) with
      | Some d => Ok (Some d)
      | None =>
          manual ← manual_fallback value;
          match manual with
          | Some d => Ok (Some d)
          | None =>
              dt ← parse_datetime_text depth' value;
              match dt with
              | Some t => Ok (Some (dt_date t))
              | None => Ok None
              end
          end
      end
  end
with parse_datetime_text (depth : nat) (value : string) {struct depth}
  : result (option datetime) :=
  match depth with
  | O => Raise RecursionError
  | S depth' =>
      match or_else (datetime_fast_path value)
                    (datetime_by_patterns datetime_patterns value) with
      | Some t => Ok (Some t)
      | None =>
          date_val ← parse_date_text depth' value;
          match date_val with
          | Some d => Ok (Some (at_midnight d))
          | None => datetime_manual value
          end
      end
  end.

(** [sys.getrecursionlimit()] *)
Definition recursion_limit : nat := 1000.

Definition opt_value {A : Type} (inj : A -> pyvalue) (o : option A) : pyvalue :=
  match o with
  | Some a => inj a
  | None => VNone
  end.

(** [parse_date(value)] *)
Definition parse_date (value : pyvalue) : result pyvalue :=
  match value with
  | VNone => Ok VNone
  | VDate _ | VDatetime _ => Ok value
  | VStr s => d ← parse_date_text recursion_limit s; Ok (opt_value VDate d)
  | _ => Ok VNone
  end.

(** [parse_datetime(value)] *)
Definition parse_datetime (value : pyvalue) : result pyvalue :=
  match value with
  | VNone => Ok VNone
  | VDatetime _ => Ok value
  | VDate d => Ok (VDatetime (at_midnight d))
  | VStr s => t ← parse_datetime_text recursion_limit s; Ok (opt_value VDatetime t)
  | _ => Ok VNone
  end.

(** *** [attempt_cast] *)

(** The text rule of the [bool] target, lines 112-117. *)
Definition bool_of_text (value : string) : bool :=
  let value_lower := PyStr.strip (PyStr.lower value) in
  if existsb (String.eqb value_lower) ["true"; "yes"; "1"; "t"; "y"] then true
  else if existsb (String.eqb value_lower) ["false"; "no"; "0"; "f"; "n"; ""] then false
  else py_bool (VStr value_lower).

(** [int(x)] of a float that [is_integer()] accepted, else [null]. *)
Definition int_of_integral (x : spec_float) : pyvalue :=
  if PyFloat.is_integer x then opt_value VInt (PyFloat.to_int x) else VNone.

(** [except (ValueError, TypeError, OverflowError): return None], lines
    133-134, for what the parsers let out: [OverflowError] is caught here,
    [RecursionError] is not. *)
Definition swallow (r : result pyvalue) : result pyvalue :=
  match r with
  | Raise OverflowError => Ok VNone
  | _ => r
  end.

Definition attempt_cast (value : pyvalue) (target : target_type) : result pyvalue :=
  match value with
  | VNone => Ok VNone
  | _ =>
      if isinstance value target then Ok value
      else
        match target with
        | TInt =>
            match value with
            | VStr s =>
                match PyFloat.of_string s with
                | Some float_val => Ok (int_of_integral float_val)
                | None => Ok VNone
                end
            | VFloat x => Ok (int_of_integral x)
            | _ => Ok (opt_value VInt (py_int value))
            end
        | TFloat => Ok (opt_value VFloat (py_float value))
        | TStr => Ok (opt_value VStr (py_str value))
        | TBool =>
            match value with
            | VStr s => Ok (VBool (bool_of_text s))
            | VBool _ | VInt _ => Ok (VBool (py_bool value))
            | VFloat x =>
                if PyFloat.is_nan x then Ok VNone else Ok (VBool (py_bool value))
            | _ => Ok (VBool (py_bool value))
            end
        | TDate => swallow (parse_date value)
        | TDatetime => swallow (parse_datetime value)
        end
  end.

End Coercion.

(** ** Rows, tables and schemas *)

(** A row as [to_dicts()] gives it: a dict from column name to value, in
    column order. *)
Definition row := list (string * pyvalue).

Fixpoint lookup_key {A : Type} (r : list (string * A)) (key : string) : option A :=
  match r with
  | [] => None
  | (k, v) :: r' => if String.eqb k key then Some v else lookup_key r' key
  end.

(** [key in r] *)
Definition has_key {A : Type} (r : list (string * A)) (key : string) : bool :=
  match lookup_key r key with
  | Some _ => true
  | None => false
  end.

(** [r[key]] for a key of [r]; a cell that a row lacks is null in a table. *)
Definition cell (r : row) (key : string) : pyvalue :=
  match lookup_key r key with
  | Some v => v
  | None => VNone
  end.

(** [r[key] = v] for a key of [r] *)
Fixpoint row_set (r : row) (key : string) (v : pyvalue) : row :=
  match r with
  | [] => []
  | (k, w) :: r' =>
      if String.eqb k key then (k, v) :: r' else (k, w) :: row_set r' key v
  end.

(** A polars [DataFrame]: its schema (column names with their types, in
    order) and its rows. *)
Record DataFrame := mkframe {
  df_schema : list (string * dtype);
  df_rows : list row
}.

Definition columns (df : DataFrame) : list string := map fst (df_schema df).

(** [df.is_empty()] *)
Definition is_empty (df : DataFrame) : bool :=
  match df_rows df with
  | [] => true
  | _ => false
  end.

(** [pl.DataFrame(schema=s)] *)
Definition empty_frame (s : list (string * dtype)) : DataFrame := mkframe s [].

(** [df.filter(p)] *)
Definition frame_filter (p : row -> bool) (df : DataFrame) : DataFrame :=
  mkframe (df_schema df) (List.filter p (df_rows df)).

(** Comparison of two elements by polars ([==], [is_in]): a null matches
    nothing, other values compare as Python compares them.  That polars
    refuses to compare columns of unrelated types, and that it holds a NaN
    equal to a NaN, is not modelled. *)
Definition polars_eqb (a b : pyvalue) : bool :=
  match a, b with
  | VNone, _ | _, VNone => false
  | _, _ => py_eqb a b
  end.

(** [pl.col(c).is_in(ids)] on one element *)
Definition is_in (x : pyvalue) (ids : list pyvalue) : bool :=
  existsb (polars_eqb x) ids.

(** [df.select(pl.col(pk).is_null().sum()).item()] *)
Definition null_count (df : DataFrame) (pk : string) : nat :=
  List.length (List.filter (fun r => bool_decide (cell r pk = VNone)) (df_rows df)).

Definition mem (x : string) (l : list string) : bool := existsb (String.eqb x) l.

Fixpoint nodupb (l : list string) : bool :=
  match l with
  | [] => true
  | x :: l' => negb (mem x l') && nodupb l'
  end.

(** The values of column [c], top to bottom. *)
Definition key_column (df : DataFrame) (c : string) : list pyvalue :=
  map (fun r => cell r c) (df_rows df).

(** [df.select(cols).to_dict(as_series=False)[c]]: the values of column [c],
    after polars has accepted the selection. *)
Definition select_column (df : DataFrame) (cols : list string) (c : string)
  : result (list pyvalue) :=
  match List.find (fun x => negb (mem x (columns df))) cols with
  | Some missing => Raise (ColumnNotFoundError missing)
  | None =>
      if nodupb cols then Ok (key_column df c)
      else Raise DuplicateError
  end.

(** One alternative of an [anyOf] of the JSON schema. *)
Record type_info := mktype { ti_type : option string; ti_format : option string }.

(** The JSON schema of one field, [model_json_schema()["properties"][name]],
    as far as the source reads it. *)
Record field_info := mkfield {
  fi_type : option string;
  fi_format : option string;
  fi_anyOf : option (list type_info)
}.

(** A pydantic model class: its JSON schema properties and its validation,
    [schema( **row ).model_dump()], where [None] is [ValidationError]. *)
Record schema := mkschema {
  properties : list (string * field_info);
  validate : row -> option row
}.

Record PolarsCaster := mkcaster { schema_mapping : gmap string schema }.

Definition is_str (o : option string) (s : string) : bool :=
  match o with
  | Some t => String.eqb t s
  | None => false
  end.

(** The loop over [anyOf] that both [_get_polars_schema] and [cast_row]
    run: the first alternative whose type is not ["null"]. *)
Fixpoint first_non_null (alts : list type_info) : option type_info :=
  match alts with
  | [] => None
  | ti :: rest => if is_str (ti_type ti) "null" then first_non_null rest else Some ti
  end.

(** [field_type] and [format_type] after the handling of optional fields. *)
Definition resolve (fi : field_info) : option string * option string :=
  match fi_anyOf fi with
  | Some alts =>
      if is_str (fi_type fi) "null" then
        match first_non_null alts with
        | Some ti => (ti_type ti, ti_format ti)
        | None => (fi_type fi, fi_format fi)
        end
      else (fi_type fi, fi_format fi)
  | None => (fi_type fi, fi_format fi)
  end.

(** The column type chosen by [_get_polars_schema] for one field. *)
Definition polars_type (fi : field_info) : dtype :=
  let '(field_type, format_type) := resolve fi in
  if is_str field_type "integer" then Int64
  else if is_str field_type "number" then Float64
  else if is_str field_type "string" then
    if is_str format_type "date-time" then Datetime
    else if is_str format_type "date" then Date
    else Utf8
  else if is_str field_type "boolean" then Boolean
  else Utf8.

Definition _get_polars_schema (s : schema) : list (string * dtype) :=
  map (fun '(field_name, fi) => (field_name, polars_type fi)) (properties s).

(** The type [cast_row] asks of [attempt_cast] for one field; [None] when
    no branch applies and the value is left as it is. *)
Definition cast_target (fi : field_info) : option target_type :=
  let '(field_type, format_type) := resolve fi in
  if is_str field_type "integer" then Some TInt
  else if is_str field_type "number" then Some TFloat
  else if is_str field_type "string" then
    if is_str format_type "date-time" then Some TDatetime
    else if is_str format_type "date" then Some TDate
    else Some TStr
  else if is_str field_type "boolean" then Some TBool
  else None.

Section Caster.

Context {rt : Runtime}.

(** The loop of [cast_row] over the fields of the schema. *)
Fixpoint cast_fields (props : list (string * field_info)) (processed_row : row)
  : result row :=
  match props with
  | [] => Ok processed_row
  | (field_name, fi) :: rest =>
      match lookup_key processed_row field_name with
      | None => cast_fields rest processed_row
      | Some field_value =>
          match cast_target fi with
          | Some t =>
              v ← attempt_cast field_value t;
              cast_fields rest (row_set processed_row field_name v)
          | None => cast_fields rest processed_row
          end
      end
  end.

Definition cast_row (s : schema) (r : row) : result row :=
  processed_row ← cast_fields (properties s) r;
  match validate s processed_row with
  | Some validated => Ok validated
  | None => Raise (RowValidationFailure processed_row)
  end.

(** The loop of [cast_dataframe]: a row whose validation fails is printed
    and skipped, any other exception goes through. *)
Fixpoint cast_rows (s : schema) (rows : list row) : result (list row) :=
  match rows with
  | [] => Ok []
  | r :: rest =>
      match cast_row s r with
      | Ok casted_row => casted_rows ← cast_rows s rest; Ok (casted_row :: casted_rows)
      | Raise (RowValidationFailure _) => cast_rows s rest
      | Raise e => Raise e
      end
  end.

Definition value_dtype (v : pyvalue) : dtype :=
  match v with
  | VNone => Null
  | VBool _ => Boolean
  | VInt _ => Int64
  | VFloat _ => Float64
  | VStr _ => Utf8
  | VDate _ => Date
  | VDatetime _ => Datetime
  | VObj _ => Object
  end.

(** The type polars infers for a column: that of its first non-null. *)
Fixpoint infer_dtype (vs : list pyvalue) : dtype :=
  match vs with
  | [] => Null
  | VNone :: vs' => infer_dtype vs'
  | v :: _ => value_dtype v
  end.

(** [pl.DataFrame(rows)] for a non-empty list of dicts that share their
    keys: the columns are the keys, in order. *)
Definition frame_of_dicts (rows : list row) : DataFrame :=
  let cols := match rows with
              | r :: _ => map fst r
              | [] => []
              end in
  mkframe (map (fun c => (c, infer_dtype (map (fun r => cell r c) rows))) cols)
          (map (fun r => map (fun c => (c, cell r c)) cols) rows).

Definition cast_cell (to_cast : list (string * dtype)) (kv : string * pyvalue)
  : result (string * pyvalue) :=
  match lookup_key to_cast (fst kv) with
  | Some t =>
      match polars_cast t (snd kv) with
      | Some v => Ok (fst kv, v)
      | None => Raise InvalidOperationError
      end
  | None => Ok kv
  end.

(** [df.cast(to_cast)] *)
Definition frame_cast (to_cast : list (string * dtype)) (df : DataFrame)
  : result DataFrame :=
  rows ← mapM (mapM (cast_cell to_cast)) (df_rows df);
  Ok (mkframe (map (fun '(c, t) => (c, match lookup_key to_cast c with
                                       | Some t' => t'
                                       | None => t
                                       end)) (df_schema df))
              rows).

Definition cast_dataframe (self : PolarsCaster) (df : DataFrame)
  (schema_name : string) : result DataFrame :=
  match schema_mapping self !! schema_name with
  | None => Raise (SchemaNotFound schema_name)
  | Some s =>
      if is_empty df then Ok (empty_frame (_get_polars_schema s))
      else
        casted_rows ← cast_rows s (df_rows df);
        match casted_rows with
        | [] => Ok (empty_frame (_get_polars_schema s))
        | _ =>
            let result_df := frame_of_dicts casted_rows in
            let columns_to_cast :=
              List.filter (fun '(col, _) => mem col (columns result_df))
                          (_get_polars_schema s) in
            match columns_to_cast with
            | [] => Ok result_df
            | _ => frame_cast columns_to_cast result_df
            end
        end
  end.

(** *** [split_dataframe] *)

(** Lines 418-422: every key column is in both tables. *)
Fixpoint check_pk_columns (pks : list string) (df_new df_db : DataFrame)
  : result unit :=
  match pks with
  | [] => Ok tt
  | pk :: rest =>
      if negb (mem pk (columns df_new)) then Raise (MissingPrimaryKeyColumn "df_new" pk)
      else if negb (mem pk (columns df_db)) then Raise (MissingPrimaryKeyColumn "df_db" pk)
      else check_pk_columns rest df_new df_db
  end.

(** Lines 425-432: no key column holds a null. *)
Fixpoint check_pk_nulls (pks : list string) (df_new df_db : DataFrame)
  : result unit :=
  match pks with
  | [] => Ok tt
  | pk :: rest =>
      let null_count_new := null_count df_new pk in
      let null_count_db := null_count df_db pk in
      if (0 <? null_count_new)%nat
      then Raise (NullPrimaryKeyValue "df_new" pk null_count_new)
      else if (0 <? null_count_db)%nat
      then Raise (NullPrimaryKeyValue "df_db" pk null_count_db)
      else check_pk_nulls rest df_new df_db
  end.

(** [isinstance(v, (date, datetime))] *)
Definition is_temporal (v : pyvalue) : bool :=
  match v with
  | VDate _ | VDatetime _ => true
  | _ => false
  end.

(** [v.date()] of a timestamp, [v] itself for a date (lines 480-488). *)
Definition date_part (v : pyvalue) : option date :=
  match v with
  | VDatetime t => Some (dt_date t)
  | VDate d => Some d
  | _ => None
  end.

Definition same_date (a b : pyvalue) : bool :=
  match date_part a, date_part b with
  | Some d, Some e => date_eqb d e
  | _, _ => false
  end.

(** Lines 468-496: the loop [for key in row_new] with its [continue] and
    [break]; the result is [is_identical]. *)
Fixpoint compare_fields (pks : list string) (row_new row_db : row)
  (keys : list string) : bool :=
  match keys with
  | [] => true
  | key :: rest =>
      if has_key row_db key && negb (mem key pks) then
        match cell row_new key, cell row_db key with
        | VNone, VNone => compare_fields pks row_new row_db rest
        | VNone, _ | _, VNone => false
        | a, b =>
            if is_temporal a && is_temporal b then
              if same_date a b then compare_fields pks row_new row_db rest
              else false
            else if py_eqb a b then compare_fields pks row_new row_db rest
            else false
        end
      else compare_fields pks row_new row_db rest
  end.

Definition is_identical (pks : list string) (row_new row_db : row) : bool :=
  compare_fields pks row_new row_db (map fst row_new).

(** [df.filter(pl.col(pk) == id_val).to_dicts()[0]] *)
Definition first_row (df : DataFrame) (pk : string) (id_val : pyvalue)
  : result row :=
  match List.filter (fun r => polars_eqb (cell r pk) id_val) (df_rows df) with
  | r :: _ => Ok r
  | [] => Raise IndexError
  end.

(** Lines 459-501: the loop over [ids_in_both]; the result is
    [(equals_ids, update_ids)]. *)
Fixpoint classify (pks : list string) (pk0 : string)
  (casted_new casted_db : DataFrame) (ids_in_both : list pyvalue)
  : result (list pyvalue * list pyvalue) :=
  match ids_in_both with
  | [] => Ok ([], [])
  | id_val :: rest =>
      row_new ← first_row casted_new pk0 id_val;
      row_db ← first_row casted_db pk0 id_val;
      '(equals_ids, update_ids) ← classify pks pk0 casted_new casted_db rest;
      if is_identical pks row_new row_db
      then Ok (id_val :: equals_ids, update_ids)
      else Ok (equals_ids, id_val :: update_ids)
  end.

(** [original.filter(pl.col(pk).is_in(ids)) if ids else
    pl.DataFrame(schema=original.schema)] *)
Definition rows_with_ids (original : DataFrame) (pk : string)
  (ids : list pyvalue) : DataFrame :=
  match ids with
  | [] => empty_frame (df_schema original)
  | _ => frame_filter (fun r => is_in (cell r pk) ids) original
  end.

Definition split_dataframe (self : PolarsCaster) (df_new df_db : DataFrame)
  (pks : list string) (schema_name : string)
  : result (DataFrame * DataFrame * DataFrame) :=
  match schema_mapping self !! schema_name with
  | None => Raise (SchemaNotFound schema_name)
  | Some s =>
      match pks with
      | [] => Raise EmptyPrimaryKeyList
      | pk0 :: _ =>
          _ ← check_pk_columns pks df_new df_db;
          _ ← check_pk_nulls pks df_new df_db;
          let original_df_new := df_new in
          if is_empty df_new then
            let empty_df := empty_frame (_get_polars_schema s) in
            Ok (empty_df, empty_df, empty_df)
          else if is_empty df_db then
            let empty_df := empty_frame (df_schema original_df_new) in
            Ok (original_df_new, empty_df, empty_df)
          else
            casted_new ← cast_dataframe self df_new schema_name;
            casted_db ← cast_dataframe self df_db schema_name;
            ids_in_db ← select_column casted_db pks pk0;
            let insert_df :=
              frame_filter (fun r => negb (is_in (cell r pk0) ids_in_db))
                           original_df_new in
            ids_in_both ←
              select_column
                (frame_filter (fun r => is_in (cell r pk0) ids_in_db) casted_new)
                pks pk0;
            '(equals_ids, update_ids) ←
              classify pks pk0 casted_new casted_db ids_in_both;
            let equals_df := rows_with_ids original_df_new pk0 equals_ids in
            let update_df := rows_with_ids original_df_new pk0 update_ids in
            Ok (insert_df, equals_df, update_df)
      end
  end.

End Caster.

(** ** The rules of §4.4 in the words of the specification *)

(** Two canonical values compare equal: both null; or both a date or a
    timestamp on the same calendar date; or, neither of these, equal by
    direct value equality.  Exactly one null never compares equal. *)
Inductive canon_equal : pyvalue -> pyvalue -> Prop :=
| both_null : canon_equal VNone VNone
| same_calendar_date a b d e :
    date_part a = Some d -> date_part b = Some e -> date_eqb d e = true ->
    canon_equal a b
| direct_equality a b :
    a <> VNone -> b <> VNone ->
    is_temporal a && is_temporal b = false ->
    py_eqb a b = true ->
    canon_equal a b.

(** Every non-key field the two coerced rows share compares equal. *)
Definition row_unchanged (pks : list string) (row_new row_db : row) : Prop :=
  forall key, has_key row_new key = true -> has_key row_db key = true ->
              ~ In key pks -> canon_equal (cell row_new key) (cell row_db key).

(** The words of the Boolean rule of §4.1. *)
Definition truthy_words : list string := ["true"; "yes"; "1"; "t"; "y"].
Definition falsy_words : list string := ["false"; "no"; "0"; "f"; "n"; ""].

(** White space: the code points below 256 that Unicode counts as white
    space. *)
Definition white_space : list Z :=
  [9; 10; 11; 12; 13; 28; 29; 30; 31; 32; 133; 160].

(** A plain character: a digit or one of a to z. *)
Definition plain_char (c : ascii) : bool :=
  ((48 <=? PyStr.code c) && (PyStr.code c <=? 57))
  || ((97 <=? PyStr.code c) && (PyStr.code c <=? 122)).

Definition all_white (cs : list ascii) : Prop :=
  Forall (fun c => In (PyStr.code c) white_space) cs.

(** [c] is the character [d] up to case: [d] itself or, when [d] is one of
    a to z, its capital. *)
Definition same_letter (c d : ascii) : Prop :=
  c = d \/ (97 <= PyStr.code d <= 122 /\ PyStr.code c = PyStr.code d - 32).

(** The text [s] is the word [w], in any case and with any white space
    before and after it. *)
Definition reads_as (s w : string) : Prop :=
  exists before v after,
    PyStr.chars s = (before ++ v ++ after)%list
    /\ all_white before /\ all_white after
    /\ Forall2 same_letter v (PyStr.chars w).

(** The column type that goes with a JSON type and format: Integer, Float,
    Boolean, Timestamp, Date and Text; a type that is none of these, or no
    type at all, is kept as text. *)
Inductive column_type : option string -> option string -> dtype -> Prop :=
| integer_column f : column_type (Some "integer") f Int64
| number_column f : column_type (Some "number") f Float64
| boolean_column f : column_type (Some "boolean") f Boolean
| timestamp_column : column_type (Some "string") (Some "date-time") Datetime
| date_column : column_type (Some "string") (Some "date") Date
| text_column f :
    f <> Some "date-time" -> f <> Some "date" ->
    column_type (Some "string") f Utf8
| other_column ty f :
    ty <> Some "integer" -> ty <> Some "number" -> ty <> Some "boolean" ->
    ty <> Some "string" ->
    column_type ty f Utf8.

(** The column type a schema declares for a field, the optional wrapper
    resolved (§4.3): that of the field's own type or, for a field that
    only has alternatives, that of the first alternative which is not
    ["null"]. *)
Definition declared_column (fi : field_info) (t : dtype) : Prop :=
  match fi_type fi with
  | Some ty => column_type (Some ty) (fi_format fi) t
  | None =>
      exists nulls ti rest,
        fi_anyOf fi = Some (nulls ++ ti :: rest)%list
        /\ Forall (fun a => ti_type a = Some "null") nulls
        /\ ti_type ti <> Some "null"
        /\ column_type (ti_type ti) (ti_format ti) t
  end.

(** [r] is the first row of [df] whose [pk] cell matches [id_val]. *)
Definition first_with_key (df : DataFrame) (pk : string) (id_val : pyvalue)
  (r : row) : Prop :=
  exists before after,
    df_rows df = (before ++ r :: after)%list
    /\ polars_eqb (cell r pk) id_val = true
    /\ forall y, In y before -> polars_eqb (cell y pk) id_val = false.

(** What one turn of the comparison loop decides about a field: [true] to
    go on with the next field, [false] to stop with a difference. *)
Definition field_verdict (a b : pyvalue) : bool :=
  match a, b with
  | VNone, VNone => true
  | VNone, _ | _, VNone => false
  | _, _ => if is_temporal a && is_temporal b then same_date a b else py_eqb a b
  end.

(** ["p0<sep>p1<sep>p2"] *)
Definition joined (sep : ascii) (p0 p1 p2 : string) : string :=
  p0 ++ String sep (p1 ++ String sep p2).

(** A numeric part: a run of decimal digits, no longer than [int] reads. *)
Definition numeric_part (p : string) : Prop :=
  PyStr.all_digits p = true
  /\ (String.length p <= PyStr.int_max_str_digits)%nat.

(** The real number a float denotes is the integer [n]. *)
Definition float_is_integer (x : spec_float) (n : Z) : Prop :=
  match x with
  | S754_zero _ => n = 0
  | S754_finite s m e =>
      if 0 <=? e then n = cond_Zopp s (Zpos m * 2 ^ e)
      else n * 2 ^ (- e) = cond_Zopp s (Zpos m)
  | _ => False
  end.

Section Outcomes.

Context {rt : Runtime}.

(** The three ways [split_dataframe] returns. *)
Inductive split_outcome (self : PolarsCaster) (df_new df_db : DataFrame)
  (pks : list string) (schema_name : string) (pk0 : string)
  : DataFrame -> DataFrame -> DataFrame -> Prop :=
| new_is_empty s :
    schema_mapping self !! schema_name = Some s ->
    df_rows df_new = [] ->
    let empty_df := empty_frame (_get_polars_schema s) in
    split_outcome self df_new df_db pks schema_name pk0 empty_df empty_df empty_df
| stored_is_empty :
    df_rows df_new <> [] -> df_rows df_db = [] ->
    let empty_df := empty_frame (df_schema df_new) in
    split_outcome self df_new df_db pks schema_name pk0 df_new empty_df empty_df
| general_case casted_new casted_db equals_ids update_ids :
    df_rows df_new <> [] -> df_rows df_db <> [] ->
    cast_dataframe self df_new schema_name = Ok casted_new ->
    cast_dataframe self df_db schema_name = Ok casted_db ->
    classify pks pk0 casted_new casted_db
      (key_column (frame_filter
                     (fun r => is_in (cell r pk0) (key_column casted_db pk0))
                     casted_new) pk0)
    = Ok (equals_ids, update_ids) ->
    split_outcome self df_new df_db pks schema_name pk0
      (frame_filter (fun r => negb (is_in (cell r pk0) (key_column casted_db pk0)))
                    df_new)
      (frame_filter (fun r => is_in (cell r pk0) equals_ids) df_new)
      (frame_filter (fun r => is_in (cell r pk0) update_ids) df_new).

(** The new-table row [r] carries a key that is in both coerced tables, and
    the first coerced rows with that key, one from each side, compare
    unchanged ([verdict = true]) or changed ([verdict = false]). *)
Definition matched (pks : list string) (pk0 : string)
  (casted_new casted_db : DataFrame) (r : row) (verdict : bool) : Prop :=
  exists id_val row_new row_db,
    In id_val (key_column casted_new pk0)
    /\ is_in id_val (key_column casted_db pk0) = true
    /\ polars_eqb (cell r pk0) id_val = true
    /\ first_with_key casted_new pk0 id_val row_new
    /\ first_with_key casted_db pk0 id_val row_db
    /\ (if verdict then row_unchanged pks row_new row_db
        else ~ row_unchanged pks row_new row_db).

(** The rows of a table that [cast_row] accepts, coerced, in table order. *)
Definition validated_rows (s : schema) (rows : list row) : list row :=
  flat_map (fun r => match cast_row s r with
                     | Ok casted_row => [casted_row]
                     | Raise _ => []
                     end) rows.

End Outcomes.

(** The column type that goes with what [cast_row] asks of [attempt_cast];
    a field it leaves alone is a text column. *)
Definition target_dtype (t : option target_type) : dtype :=
  match t with
  | Some TInt => Int64
  | Some TFloat => Float64
  | Some TStr => Utf8
  | Some TBool => Boolean
  | Some TDate => Date
  | Some TDatetime => Datetime
  | None => Utf8
  end.

(** A date that [date(y, m, d)] accepts. *)
Definition valid_date (d : date) : Prop :=
  make_date (year d) (month d) (day d) = Ok (Some d).

(** A float cell holds a binary64 number in its canonical form, as every
    float of the interpreter is; other cells are not constrained. *)
Definition float_ok (v : pyvalue) : Prop :=
  match v with
  | VFloat x => valid_binary PyFloat.prec PyFloat.emax x = true
  | _ => True
  end.

(** The cells of column [pk] are well-formed. *)
Definition keys_ok (df : DataFrame) (pk : string) : Prop :=
  forall r, In r (df_rows df) -> float_ok (cell r pk).

(** A boolean seen as the integer it is. *)
Definition unbool (v : pyvalue) : pyvalue :=
  match v with
  | VBool b => VInt (if b then 1 else 0)
  | _ => v
  end.

(** [A] is the absolute value of the number [m * 2^e]. *)
Definition magnitude (m : positive) (e : Z) (A : Z) : Prop :=
  if 0 <=? e then A = Zpos m * 2 ^ e else Zpos m = A * 2 ^ (- e).

(** ** Closed examples: a runtime and a pydantic model to evaluate on *)

Module Sample.

(** A runtime for tables of integers, text and booleans.  Its calendar
    functions accept no text and its [repr] is a placeholder: it is not to
    be used on date or float-to-text fields.  Its polars cast keeps a null
    and an element that already has the column type, renders an integer
    or a boolean as text, and fails otherwise. *)
Definition plain : Runtime := {|
  re_match := fun _ _ => false;
  strptime := fun _ _ => None;
  date_fromisoformat := fun _ => None;
  datetime_fromisoformat := fun _ => None;
  float_repr := fun _ => "<float>";
  polars_cast := fun t v =>
    match v with
    | VNone => Some VNone
    | _ =>
        if bool_decide (value_dtype v = t) then Some v
        else match t, v with
             | Utf8, VInt n => Some (VStr (PyStr.of_int n))
             | Utf8, VBool b => Some (VStr (if b then "true" else "false"))
             | _, _ => None
             end
    end
|}.

(** A pydantic model whose fields are given by name, type and whether
    they are [Optional]: a row validates when every field holds a value
    of its type, or a null where the field is optional; the dump has the
    fields of the model, in order. *)
Fixpoint dump (fields : list (string * target_type * bool)) (r : row)
  : option row :=
  match fields with
  | [] => Some []
  | (name, t, optional) :: rest =>
      let v := cell r name in
      if (if bool_decide (v = VNone) then optional else isinstance v t)
      then option_map (cons (name, v)) (dump rest r)
      else None
  end.

Definition json_type (t : target_type) : type_info :=
  match t with
  | TInt => mktype (Some "integer") None
  | TFloat => mktype (Some "number") None
  | TStr => mktype (Some "string") None
  | TBool => mktype (Some "boolean") None
  | TDate => mktype (Some "string") (Some "date")
  | TDatetime => mktype (Some "string") (Some "date-time")
  end.

(** The JSON schema pydantic emits: a plain field carries its type, an
    optional field carries [anyOf] with a ["null"] alternative and no type
    of its own. *)
Definition json_field (t : target_type) (optional : bool) : field_info :=
  if optional
  then mkfield None None (Some [json_type t; mktype (Some "null") None])
  else mkfield (ti_type (json_type t)) (ti_format (json_type t)) None.

Definition model (fields : list (string * target_type * bool)) : schema :=
  mkschema (map (fun '(name, t, optional) => (name, json_field t optional)) fields)
           (dump fields).

(** [id: int], [x: int] *)
Definition item : schema := model [("id", TInt, false); ("x", TInt, false)].

(** [id: int], [edad: Optional[int] = None] *)
Definition persona : schema := model [("id", TInt, false); ("edad", TInt, true)].

(** [a: int], [b: str], [x: int]: a model for a two-column key *)
Definition pair : schema :=
  model [("a", TInt, false); ("b", TStr, false); ("x", TInt, false)].

Definition caster : PolarsCaster :=
  mkcaster (<["item" := item]> (<["persona" := persona]> (<["pair" := pair]> ∅))).

Definition frame (s : list (string * dtype)) (rows : list (list pyvalue))
  : DataFrame :=
  mkframe s (map (fun vs => combine (map fst s) vs) rows).

(** The scenario of §8: ids 1..4 against ids 2, 3, 5. *)
Definition personas_new : DataFrame :=
  frame [("id", Int64); ("edad", Int64)]
        [[VInt 1; VInt 25]; [VInt 2; VNone]; [VInt 3; VInt 30]; [VInt 4; VInt 22]].

Definition personas_db : DataFrame :=
  frame [("id", Int64); ("edad", Int64)]
        [[VInt 2; VNone]; [VInt 3; VInt 30]; [VInt 5; VInt 28]].

(** Two new rows share the key 1; the first cannot be coerced. *)
Definition items_new : DataFrame :=
  frame [("id", Int64); ("x", Utf8)] [[VInt 1; VStr "abc"]; [VInt 1; VStr "5"]].

Definition items_db : DataFrame :=
  frame [("id", Int64); ("x", Int64)] [[VInt 1; VInt 5]].

(** One new row that cannot be coerced, its key is stored. *)
Definition lone_new : DataFrame :=
  frame [("id", Int64); ("x", Utf8)] [[VInt 1; VStr "abc"]; [VInt 2; VStr "7"]].

(** The same first key, another second key. *)
Definition pairs_new : DataFrame :=
  frame [("a", Int64); ("b", Utf8); ("x", Int64)] [[VInt 1; VStr "n"; VInt 5]].

Definition pairs_db : DataFrame :=
  frame [("a", Int64); ("b", Utf8); ("x", Int64)] [[VInt 1; VStr "s"; VInt 5]].

Definition nulls_db : DataFrame :=
  frame [("id", Int64); ("x", Int64)] [[VNone; VInt 5]; [VInt 2; VInt 6]].

Definition no_rows : DataFrame := frame [("id", Int64); ("x", Int64)] [].

(** What [split] answers on the scenario of §8. *)
Definition personas_insert : DataFrame :=
  frame [("id", Int64); ("edad", Int64)] [[VInt 1; VInt 25]; [VInt 4; VInt 22]].

Definition personas_equal : DataFrame :=
  frame [("id", Int64); ("edad", Int64)] [[VInt 2; VNone]; [VInt 3; VInt 30]].

Definition personas_update : DataFrame :=
  frame [("id", Int64); ("edad", Int64)] [].

Definition personas_db_casted : DataFrame :=
  frame [("id", Int64); ("edad", Utf8)]
        [[VInt 2; VNone]; [VInt 3; VStr "30"]; [VInt 5; VStr "28"]].

(** The row of [lone_new] and of [items_new] that cannot be coerced, and
    what [cast_row] has made of it when validation refuses it. *)
Definition bad_row : row := [("id", VInt 1); ("x", VStr "abc")].
Definition bad_row_processed : row := [("id", VInt 1); ("x", VNone)].

(** [lone_new] and [items_db] after coercion. *)
Definition lone_casted : DataFrame :=
  frame [("id", Int64); ("x", Int64)] [[VInt 2; VInt 7]].

Definition items_db_casted : DataFrame :=
  frame [("id", Int64); ("x", Int64)] [[VInt 1; VInt 5]].

Definition lone_insert : DataFrame :=
  frame [("id", Int64); ("x", Utf8)] [[VInt 2; VStr "7"]].

Definition lone_empty : DataFrame := frame [("id", Int64); ("x", Utf8)] [].

(** A new table of personas without rows, and what [split] answers on it:
    the optional field [edad] is a text column. *)
Definition personas_none : DataFrame :=
  frame [("id", Int64); ("edad", Int64)] [].

Definition personas_typed : DataFrame :=
  frame [("id", Int64); ("edad", Utf8)] [].

(** [id: int], [at: datetime], [qty: int] *)
Definition event : schema :=
  model [("id", TInt, false); ("at", TDatetime, false); ("qty", TInt, false)].

Definition events : PolarsCaster := mkcaster (<["event" := event]> ∅).

Definition moment (y m d h mi : Z) : pyvalue :=
  VDatetime (mkdatetime (mkdate y m d) h mi 0 0 None).

(** Event 1 differs from the stored one in the time of day only, event 2
    in the day, event 3 in the quantity; the new quantities are text. *)
Definition events_new : DataFrame :=
  frame [("id", Int64); ("at", Datetime); ("qty", Utf8)]
        [[VInt 1; moment 2024 1 15 10 30; VStr "5"];
         [VInt 2; moment 2024 1 16 9 0; VStr "5"];
         [VInt 3; moment 2024 1 17 8 0; VStr "8"]].

Definition events_db : DataFrame :=
  frame [("id", Int64); ("at", Datetime); ("qty", Int64)]
        [[VInt 1; moment 2024 1 15 23 59; VInt 5];
         [VInt 2; moment 2024 1 17 9 0; VInt 5];
         [VInt 3; moment 2024 1 17 8 0; VInt 7]].

Definition events_new_casted : DataFrame :=
  frame [("id", Int64); ("at", Datetime); ("qty", Int64)]
        [[VInt 1; moment 2024 1 15 10 30; VInt 5];
         [VInt 2; moment 2024 1 16 9 0; VInt 5];
         [VInt 3; moment 2024 1 17 8 0; VInt 8]].

Definition events_insert : DataFrame :=
  frame [("id", Int64); ("at", Datetime); ("qty", Utf8)] [].

Definition events_equal : DataFrame :=
  frame [("id", Int64); ("at", Datetime); ("qty", Utf8)]
        [[VInt 1; moment 2024 1 15 10 30; VStr "5"]].

Definition events_update : DataFrame :=
  frame [("id", Int64); ("at", Datetime); ("qty", Utf8)]
        [[VInt 2; moment 2024 1 16 9 0; VStr "5"];
         [VInt 3; moment 2024 1 17 8 0; VStr "8"]].

End Sample.

(** * Properties *)

(** ** Text *)

Lemma chars_text (cs : list ascii) : PyStr.chars (PyStr.text cs) = cs.
Proof. apply list_ascii_of_string_of_list_ascii. Qed.

Lemma text_chars (s : string) : PyStr.text (PyStr.chars s) = s.
Proof. apply string_of_list_ascii_of_string. Qed.

Lemma chars_append (s t : string) :
  PyStr.chars (s ++ t) = (PyStr.chars s ++ PyStr.chars t)%list.
Proof.
  induction s as [|c s IH]; simpl; [reflexivity|].
  unfold PyStr.chars in *. simpl. now rewrite IH.
Qed.

Lemma chars_length (s : string) : List.length (PyStr.chars s) = String.length s.
Proof. induction s as [|c s IH]; simpl; [reflexivity | f_equal; exact IH]. Qed.

Lemma all_digits_chars (s : string) :
  PyStr.all_digits s = true ->
  PyStr.chars s <> [] /\ forallb PyStr.is_digit (PyStr.chars s) = true.
Proof.
  unfold PyStr.all_digits. destruct (PyStr.chars s) as [|c cs] eqn:E.
  - discriminate.
  - intros H. split; [discriminate | exact H].
Qed.

Lemma digit_not_blank (c : ascii) : PyStr.is_digit c = true -> PyStr.is_blank c = false.
Proof. unfold PyStr.is_digit, PyStr.is_blank. lia. Qed.

Lemma digit_not_char (c x : ascii) :
  PyStr.is_digit c = true -> PyStr.is_digit x = false -> Ascii.eqb c x = false.
Proof.
  intros Hc Hx. destruct (Ascii.eqb_spec c x) as [->|]; [congruence | reflexivity].
Qed.

Lemma lstrip_digits (cs : list ascii) :
  forallb PyStr.is_digit cs = true -> PyStr.lstrip_chars PyStr.is_blank cs = cs.
Proof.
  destruct cs as [|c cs]; simpl; [reflexivity|].
  intros H. apply andb_prop in H as [Hc _]. now rewrite (digit_not_blank c Hc).
Qed.

Lemma forallb_rev {A : Type} (p : A -> bool) (l : list A) :
  forallb p (rev l) = forallb p l.
Proof.
  induction l as [|a l IH]; simpl; [reflexivity|].
  rewrite forallb_app, IH. simpl. rewrite andb_true_r. apply andb_comm.
Qed.

Lemma strip_digits (cs : list ascii) :
  forallb PyStr.is_digit cs = true -> PyStr.strip_chars PyStr.is_blank cs = cs.
Proof.
  intros H. unfold PyStr.strip_chars.
  rewrite (lstrip_digits cs H), lstrip_digits, rev_involutive; [reflexivity|].
  now rewrite forallb_rev.
Qed.

Lemma drop_underscores_digits (cs : list ascii) : forall prev,
  match prev with Some p => PyStr.is_digit p = true | None => True end ->
  forallb PyStr.is_digit cs = true ->
  PyStr.drop_underscores prev cs = Some cs.
Proof.
  induction cs as [|c cs IH]; intros prev Hp H; simpl.
  - destruct prev as [p|]; [|reflexivity].
    now rewrite (digit_not_char p "_" Hp eq_refl).
  - simpl in H. apply andb_prop in H as [Hc H].
    rewrite (digit_not_char c "_" Hc eq_refl).
    assert (Hbad : match prev with
                   | Some p => Ascii.eqb p "_" && negb (PyStr.is_digit c)
                   | None => false
                   end = false).
    { destruct prev as [p|]; [|reflexivity]. now rewrite Hc, andb_false_r. }
    rewrite Hbad, (IH (Some c) Hc H). reflexivity.
Qed.

(** [int(p)] of a run of digits that is not too long is the number it
    denotes. *)
Lemma to_int_digits (p : string) :
  PyStr.all_digits p = true ->
  (String.length p <= PyStr.int_max_str_digits)%nat ->
  PyStr.to_int p = Some (PyStr.number p).
Proof.
  intros H Hlen. apply all_digits_chars in H as [Hne H].
  rewrite <- chars_length in Hlen.
  unfold PyStr.to_int, PyStr.number.
  rewrite (strip_digits _ H), (drop_underscores_digits _ None I H).
  destruct (PyStr.chars p) as [|c cs]; [congruence|].
  assert (Hc : PyStr.is_digit c = true) by (simpl in H; now apply andb_prop in H).
  unfold PyStr.take_sign.
  rewrite (digit_not_char c "-" Hc eq_refl), (digit_not_char c "+" Hc eq_refl).
  rewrite H. apply Nat.leb_le in Hlen. now rewrite Hlen.
Qed.

Lemma split_chars_no_sep (c : ascii) (xs : list ascii) : forall cur,
  existsb (Ascii.eqb c) xs = false ->
  PyStr.split_chars c cur xs = [(rev cur ++ xs)%list].
Proof.
  induction xs as [|x xs IH]; intros cur H; simpl.
  - now rewrite app_nil_r.
  - simpl in H. apply orb_false_elim in H as [Hx H].
    rewrite Ascii.eqb_sym, Hx, (IH _ H). simpl. now rewrite <- app_assoc.
Qed.

Lemma split_chars_at_sep (c : ascii) (xs ys : list ascii) : forall cur,
  existsb (Ascii.eqb c) xs = false ->
  PyStr.split_chars c cur (xs ++ c :: ys)
  = (rev cur ++ xs)%list :: PyStr.split_chars c [] ys.
Proof.
  induction xs as [|x xs IH]; intros cur H; simpl.
  - now rewrite Ascii.eqb_refl, app_nil_r.
  - simpl in H. apply orb_false_elim in H as [Hx H].
    rewrite Ascii.eqb_sym, Hx, (IH _ H). simpl. now rewrite <- app_assoc.
Qed.

Lemma digits_without (c : ascii) (cs : list ascii) :
  PyStr.is_digit c = false -> forallb PyStr.is_digit cs = true ->
  existsb (Ascii.eqb c) cs = false.
Proof.
  intros Hc. induction cs as [|x cs IH]; simpl; [reflexivity|].
  intros H. apply andb_prop in H as [Hx H].
  now rewrite Ascii.eqb_sym, (digit_not_char x c Hx Hc), (IH H).
Qed.

Lemma chars_joined (sep : ascii) (p0 p1 p2 : string) :
  PyStr.chars (joined sep p0 p1 p2)
  = (PyStr.chars p0 ++ sep :: PyStr.chars p1 ++ sep :: PyStr.chars p2)%list.
Proof.
  unfold joined. rewrite chars_append. f_equal.
  change (PyStr.chars (String sep (p1 ++ String sep p2)))
    with (sep :: PyStr.chars (p1 ++ String sep p2)).
  now rewrite chars_append.
Qed.

(** Three runs of digits joined by a separator split into those runs. *)
Lemma split_joined (sep : ascii) (p0 p1 p2 : string) :
  PyStr.is_digit sep = false ->
  PyStr.all_digits p0 = true -> PyStr.all_digits p1 = true ->
  PyStr.all_digits p2 = true ->
  PyStr.split sep (joined sep p0 p1 p2) = [p0; p1; p2].
Proof.
  intros Hs H0 H1 H2.
  apply all_digits_chars in H0 as [_ H0], H1 as [_ H1], H2 as [_ H2].
  unfold PyStr.split. rewrite chars_joined.
  rewrite split_chars_at_sep by now apply digits_without.
  rewrite split_chars_at_sep by now apply digits_without.
  rewrite split_chars_no_sep by now apply digits_without.
  simpl. now rewrite !text_chars.
Qed.

Lemma contains_joined (c sep : ascii) (p0 p1 p2 : string) :
  PyStr.is_digit c = false ->
  PyStr.all_digits p0 = true -> PyStr.all_digits p1 = true ->
  PyStr.all_digits p2 = true ->
  PyStr.contains c (joined sep p0 p1 p2) = Ascii.eqb c sep.
Proof.
  intros Hc H0 H1 H2.
  apply all_digits_chars in H0 as [_ H0], H1 as [_ H1], H2 as [_ H2].
  unfold PyStr.contains. rewrite chars_joined.
  rewrite existsb_app. simpl. rewrite existsb_app. simpl.
  rewrite !(digits_without c) by assumption.
  simpl. now destruct (Ascii.eqb c sep).
Qed.

(** ** Floats *)

(** [is_integer] and [int] are right about the number a float denotes:
    the float is the integer [n] exactly when [is_integer()] holds and
    [int()] gives [n]. *)
Lemma float_is_integer_spec (x : spec_float) (n : Z) :
  float_is_integer x n <->
  PyFloat.is_integer x = true /\ PyFloat.to_int x = Some n.
Proof.
  destruct x as [s|s| |s m e]; simpl.
  - split; [intros ->; auto | intros [_ H]; congruence].
  - split; [contradiction | intros [H _]; discriminate].
  - split; [contradiction | intros [H _]; discriminate].
  - destruct (Z.leb_spec 0 e) as [He|He]; simpl.
    + split.
      * intros ->. split; [reflexivity|]. now destruct s.
      * intros [_ H]. injection H as <-. now destruct s.
    + assert (Hk : 0 < 2 ^ (- e)) by (apply Z.pow_pos_nonneg; lia).
      set (k := 2 ^ (- e)) in *.
      split.
      * intros H.
        assert (Hm : Zpos m = (if s then - n else n) * k)
          by (destruct s; simpl in H; lia).
        split.
        -- apply Z.eqb_eq. rewrite Hm. apply Z.mod_mul. lia.
        -- f_equal. rewrite Hm, Z.div_mul by lia. destruct s; lia.
      * intros [Hmod H]. apply Z.eqb_eq in Hmod. injection H as <-.
        pose proof (Z.div_mod (Zpos m) k ltac:(lia)) as Hdm.
        rewrite Hmod in Hdm. destruct s; simpl; lia.
Qed.

Lemma int_of_integral_spec (x : spec_float) (n : Z) :
  int_of_integral x = VInt n <-> float_is_integer x n.
Proof.
  rewrite float_is_integer_spec. unfold int_of_integral.
  destruct (PyFloat.is_integer x) eqn:Hi.
  - destruct (PyFloat.to_int x) as [k|] eqn:Hk; simpl.
    + split; [intros H; injection H as ->; auto | intros [_ H]; congruence].
    + split; [discriminate | intros [_ H]; discriminate].
  - split; [discriminate | intros [H _]; discriminate].
Qed.

Lemma int_of_integral_cases (x : spec_float) :
  (exists n, int_of_integral x = VInt n) \/ int_of_integral x = VNone.
Proof.
  unfold int_of_integral. destruct (PyFloat.is_integer x); [|now right].
  destruct (PyFloat.to_int x) as [k|]; simpl; [left; eauto | now right].
Qed.

(** ** The coercion engine *)

Lemma existsb_string_In (w : string) (l : list string) :
  existsb (String.eqb w) l = true <-> In w l.
Proof.
  rewrite existsb_exists. split.
  - intros (x & Hx & E). apply String.eqb_eq in E. now subst.
  - intros H. exists w. split; [exact H | apply String.eqb_refl].
Qed.

Lemma bool_of_text_cases (s : string) :
  let w := PyStr.strip (PyStr.lower s) in
  (In w truthy_words -> bool_of_text s = true)
  /\ (In w falsy_words -> bool_of_text s = false)
  /\ (~ In w truthy_words -> ~ In w falsy_words ->
      w <> "" /\ bool_of_text s = true).
Proof.
  intros w. unfold bool_of_text. fold w. clearbody w.
  change ["true"; "yes"; "1"; "t"; "y"] with truthy_words.
  change ["false"; "no"; "0"; "f"; "n"; ""] with falsy_words.
  destruct (existsb (String.eqb w) truthy_words) eqn:Ht;
    destruct (existsb (String.eqb w) falsy_words) eqn:Hf.
  - apply existsb_string_In in Ht, Hf.
    exfalso. unfold truthy_words, falsy_words in *. simpl in Ht, Hf.
    destruct Ht as [<-|[<-|[<-|[<-|[<-|[]]]]]];
      repeat (destruct Hf as [Hf|Hf]; [discriminate Hf|]); exact Hf.
  - split; [intros _; reflexivity|split].
    + intros Hw. apply (proj2 (existsb_string_In _ _)) in Hw. congruence.
    + intros Hn. exfalso. apply Hn. now apply existsb_string_In.
  - split; [|split; [intros _; reflexivity|]].
    + intros Hw. apply (proj2 (existsb_string_In _ _)) in Hw. congruence.
    + intros _ Hn. exfalso. apply Hn. now apply existsb_string_In.
  - assert (Hne : w <> "").
    { intros E. rewrite E in Hf. discriminate Hf. }
    repeat split.
    + intros Hw. apply (proj2 (existsb_string_In _ _)) in Hw. congruence.
    + intros Hw. apply (proj2 (existsb_string_In _ _)) in Hw. congruence.
    + exact Hne.
    + simpl. apply String.eqb_neq in Hne. now rewrite Hne.
Qed.

(** *** Text up to case and surrounding white space *)

Lemma code_bound (c : ascii) : 0 <= PyStr.code c < 256.
Proof.
  unfold PyStr.code. pose proof (N_ascii_bounded c). lia.
Qed.

Lemma code_inj (c d : ascii) : PyStr.code c = PyStr.code d -> c = d.
Proof.
  unfold PyStr.code. intros H.
  rewrite <- (ascii_N_embedding c), <- (ascii_N_embedding d). f_equal. lia.
Qed.

Lemma is_space_white (c : ascii) :
  PyStr.is_space c = true <-> In (PyStr.code c) white_space.
Proof.
  unfold PyStr.is_space, white_space. simpl. lia.
Qed.

(** A capital is 32 below its lower-case form; any other character is its
    own lower-case form. *)
Lemma lower_char_cases (c : ascii) :
  ((65 <= PyStr.code c <= 90
    \/ (192 <= PyStr.code c <= 222 /\ PyStr.code c <> 215))
   /\ PyStr.code (PyStr.lower_char c) = PyStr.code c + 32)
  \/ (~ (65 <= PyStr.code c <= 90
         \/ (192 <= PyStr.code c <= 222 /\ PyStr.code c <> 215))
      /\ PyStr.lower_char c = c).
Proof.
  unfold PyStr.lower_char.
  destruct ((65 <=? PyStr.code c) && (PyStr.code c <=? 90)
            || (192 <=? PyStr.code c) && (PyStr.code c <=? 222)
               && negb (PyStr.code c =? 215)) eqn:E.
  - left. split; [lia|].
    unfold PyStr.code in *. rewrite N_ascii_embedding; lia.
  - right. split; [lia | reflexivity].
Qed.

Lemma lower_char_space (c : ascii) :
  PyStr.is_space (PyStr.lower_char c) = PyStr.is_space c.
Proof.
  destruct (lower_char_cases c) as [[Hu Hc]|[_ ->]]; [|reflexivity].
  unfold PyStr.is_space. rewrite Hc. lia.
Qed.

Lemma plain_not_space (c : ascii) :
  plain_char c = true -> PyStr.is_space c = false.
Proof. unfold plain_char, PyStr.is_space. lia. Qed.

(** [c] lowers to the plain character [d] exactly when it is [d] up to
    case. *)
Lemma lower_char_plain (c d : ascii) :
  plain_char d = true -> (PyStr.lower_char c = d <-> same_letter c d).
Proof.
  intros Hd. unfold same_letter, plain_char in *. split.
  - intros <-. destruct (lower_char_cases c) as [[Hu Hc]|[_ E]].
    + right. lia.
    + left. now rewrite E.
  - intros [->|[Hr Hc]].
    + destruct (lower_char_cases d) as [[Hu _]|[_ E]]; [lia | exact E].
    + destruct (lower_char_cases c) as [[Hu E]|[Hu _]]; [|lia].
      apply code_inj. lia.
Qed.

Lemma lstrip_white (p : ascii -> bool) (l rest : list ascii) :
  forallb p l = true ->
  PyStr.lstrip_chars p (l ++ rest) = PyStr.lstrip_chars p rest.
Proof.
  induction l as [|c l IH]; simpl; [reflexivity|].
  intros H. apply andb_prop in H as [-> H]. now apply IH.
Qed.

Lemma lstrip_all_white (p : ascii -> bool) (l : list ascii) :
  forallb p l = true -> PyStr.lstrip_chars p l = [].
Proof.
  intros H. rewrite <- (app_nil_r l). now rewrite lstrip_white.
Qed.

Lemma lstrip_none (p : ascii -> bool) (v rest : list ascii) :
  v <> [] -> forallb (fun c => negb (p c)) v = true ->
  PyStr.lstrip_chars p (v ++ rest) = (v ++ rest)%list.
Proof.
  destruct v as [|c v]; [congruence|]. simpl. intros _ H.
  apply andb_prop in H as [H _]. apply negb_true_iff in H. now rewrite H.
Qed.

(** [strip] takes the white space off both ends of a padded text. *)
Lemma strip_padded (p : ascii -> bool) (l v r : list ascii) :
  forallb p l = true -> forallb p r = true ->
  forallb (fun c => negb (p c)) v = true ->
  PyStr.strip_chars p (l ++ v ++ r) = v.
Proof.
  intros Hl Hr Hv. unfold PyStr.strip_chars. rewrite (lstrip_white p l _ Hl).
  destruct v as [|c v].
  - simpl. rewrite (lstrip_all_white p r Hr). simpl. reflexivity.
  - rewrite (lstrip_none p (c :: v) r) by (congruence || assumption).
    rewrite rev_app_distr.
    rewrite (lstrip_white p (rev r)) by (now rewrite forallb_rev).
    rewrite <- (app_nil_r (rev (c :: v))).
    rewrite lstrip_none.
    + now rewrite app_nil_r, rev_involutive.
    + intros E. apply (f_equal (@List.length ascii)) in E.
      rewrite length_rev in E. discriminate E.
    + now rewrite forallb_rev.
Qed.

Lemma lstrip_decompose (p : ascii -> bool) (cs : list ascii) :
  exists l, cs = (l ++ PyStr.lstrip_chars p cs)%list /\ forallb p l = true.
Proof.
  induction cs as [|c cs (l & E & Hl)]; simpl.
  - now exists [].
  - destruct (p c) eqn:Hc.
    + exists (c :: l). simpl. rewrite Hc, Hl. split; [now f_equal | reflexivity].
    + now exists [].
Qed.

(** What [strip] takes off is white space. *)
Lemma strip_decompose (p : ascii -> bool) (cs : list ascii) :
  exists l r, cs = (l ++ PyStr.strip_chars p cs ++ r)%list
              /\ forallb p l = true /\ forallb p r = true.
Proof.
  destruct (lstrip_decompose p cs) as (l & E & Hl).
  destruct (lstrip_decompose p (rev (PyStr.lstrip_chars p cs))) as (r' & E' & Hr').
  exists l, (rev r'). split; [|split; [exact Hl | now rewrite forallb_rev]].
  unfold PyStr.strip_chars.
  rewrite <- rev_app_distr, <- E', rev_involutive. exact E.
Qed.

Lemma chars_lower (s : string) :
  PyStr.chars (PyStr.lower s) = map PyStr.lower_char (PyStr.chars s).
Proof. unfold PyStr.lower. apply chars_text. Qed.

Lemma forallb_space_white (cs : list ascii) :
  forallb PyStr.is_space cs = true <-> all_white cs.
Proof.
  unfold all_white. rewrite forallb_forall, List.Forall_forall.
  split; intros H c Hc; apply is_space_white, H, Hc.
Qed.

Lemma forallb_lower_space (cs : list ascii) :
  forallb PyStr.is_space (map PyStr.lower_char cs) = forallb PyStr.is_space cs.
Proof.
  induction cs as [|c cs IH]; simpl; [reflexivity|].
  now rewrite lower_char_space, IH.
Qed.

Lemma lower_spells (v ws : list ascii) :
  forallb plain_char ws = true ->
  (map PyStr.lower_char v = ws <-> Forall2 same_letter v ws).
Proof.
  revert ws. induction v as [|c v IH]; intros ws Hw.
  - split.
    + intros <-. constructor.
    + intros H. inversion H. reflexivity.
  - destruct ws as [|d ws].
    + split; [discriminate | intros H; inversion H].
    + simpl in Hw. apply andb_prop in Hw as [Hd Hw]. split.
      * intros H. injection H as H1 H2. constructor.
        -- now apply lower_char_plain.
        -- now apply IH.
      * intros H. inversion H as [|? ? ? ? H1 H2]; subst. simpl. f_equal.
        -- now apply lower_char_plain.
        -- now apply IH.
Qed.

(** For a word of plain characters, the lowered and stripped text is the
    word exactly when the text reads as the word. *)
Lemma reads_as_normal (s w : string) :
  forallb plain_char (PyStr.chars w) = true ->
  (reads_as s w <-> PyStr.strip (PyStr.lower s) = w).
Proof.
  intros Hw. unfold PyStr.strip. rewrite chars_lower. split.
  - intros (l & v & r & E & Hl & Hr & Hv).
    rewrite E, !map_app.
    apply (lower_spells v _ Hw) in Hv. rewrite Hv.
    rewrite strip_padded.
    + apply text_chars.
    + rewrite forallb_lower_space. now apply forallb_space_white.
    + rewrite forallb_lower_space. now apply forallb_space_white.
    + rewrite forallb_forall in *. intros c Hc.
      now rewrite (plain_not_space c (Hw c Hc)).
  - intros E.
    destruct (strip_decompose PyStr.is_space (map PyStr.lower_char (PyStr.chars s)))
      as (l' & r' & D & Hl & Hr).
    assert (Ew : PyStr.strip_chars PyStr.is_space
                   (map PyStr.lower_char (PyStr.chars s)) = PyStr.chars w).
    { rewrite <- E. now rewrite chars_text. }
    rewrite Ew in D.
    apply map_eq_app in D as (l & rest & Es & El & D).
    apply map_eq_app in D as (v & r & Erest & Ev & Er).
    exists l, v, r. subst rest.
    split; [exact Es|]. split; [|split].
    + apply forallb_space_white. rewrite <- forallb_lower_space. now rewrite El.
    + apply forallb_space_white. rewrite <- forallb_lower_space. now rewrite Er.
    + now apply lower_spells.
Qed.

Lemma listed_words_plain (w : string) :
  In w truthy_words \/ In w falsy_words ->
  forallb plain_char (PyStr.chars w) = true.
Proof.
  unfold truthy_words, falsy_words. simpl.
  intros [H|H];
    repeat (destruct H as [<-|H]; [reflexivity|]); destruct H.
Qed.

Section CoercionFacts.

Context {rt : Runtime}.

(** C10: for every boolean [b], [attempt_cast(b, Integer)] returns [b]
    itself, a boolean and not the integer 0 or 1: the pass-through check
    [isinstance(value, int)] holds of a boolean. *)
Theorem attempt_cast_bool_as_integer (b : bool) :
  isinstance (VBool b) TInt = true
  /\ attempt_cast (VBool b) TInt = Ok (VBool b)
  /\ forall n, attempt_cast (VBool b) TInt <> Ok (VInt n).
Proof.
  repeat split. intros n H. discriminate H.
Qed.

(** C5: to the Integer target, text is first parsed as a float and then
    follows the rule of a float input; a float gives the integer [n]
    exactly when it denotes [n] (no fractional part), and null when it
    denotes no integer; text that is no number gives null.  So ["123.0"]
    gives 123, ["123.55"] and ["abc"] give null. *)
Theorem attempt_cast_integer_rule :
  (forall s, attempt_cast (VStr s) TInt
             = match PyFloat.of_string s with
               | Some x => attempt_cast (VFloat x) TInt
               | None => Ok VNone
               end)
  /\ (forall x n, attempt_cast (VFloat x) TInt = Ok (VInt n)
                  <-> float_is_integer x n)
  /\ (forall x, (forall n, ~ float_is_integer x n) ->
                attempt_cast (VFloat x) TInt = Ok VNone)
  /\ attempt_cast (VStr "123.0") TInt = Ok (VInt 123)
  /\ attempt_cast (VStr "123.55") TInt = Ok VNone
  /\ attempt_cast (VStr "abc") TInt = Ok VNone.
Proof.
  split; [|split; [|split]].
  - intros s. simpl. now destruct (PyFloat.of_string s).
  - intros x n. simpl. rewrite <- int_of_integral_spec.
    split; [intros H; now injection H | intros ->; reflexivity].
  - intros x Hx. simpl.
    destruct (int_of_integral_cases x) as [[n Hn]| ->]; [|reflexivity].
    exfalso. apply (Hx n). now apply int_of_integral_spec.
  - repeat split; vm_compute; reflexivity.
Qed.

(** C6: to the Boolean target, text is read without regard to case and
    to the white space around it: the words true, yes, 1, t, y give true,
    the words false, no, 0, f, n and the empty text give false, and any
    other text, which is not empty, gives true; an integer gives false
    when zero and true otherwise, a float likewise except that NaN gives
    null; a boolean passes through. *)
Theorem attempt_cast_boolean_rule :
  (forall s w, In w truthy_words -> reads_as s w ->
               attempt_cast (VStr s) TBool = Ok (VBool true))
  /\ (forall s w, In w falsy_words -> reads_as s w ->
                  attempt_cast (VStr s) TBool = Ok (VBool false))
  /\ (forall s, (forall w, In w truthy_words \/ In w falsy_words ->
                           ~ reads_as s w) ->
                s <> "" /\ attempt_cast (VStr s) TBool = Ok (VBool true))
  /\ (forall n, attempt_cast (VInt n) TBool = Ok (VBool (negb (n =? 0))))
  /\ (forall x, attempt_cast (VFloat x) TBool
                = match x with
                  | S754_nan => Ok VNone
                  | S754_zero _ => Ok (VBool false)
                  | _ => Ok (VBool true)
                  end)
  /\ (forall b, attempt_cast (VBool b) TBool = Ok (VBool b))
  /\ attempt_cast (VStr "yes") TBool = Ok (VBool true)
  /\ attempt_cast (VStr "") TBool = Ok (VBool false)
  /\ attempt_cast (VStr "abc") TBool = Ok (VBool true)
  /\ attempt_cast (VStr " NO ") TBool = Ok (VBool false)
  /\ attempt_cast (VStr "False") TBool = Ok (VBool false)
  /\ attempt_cast (VStr (String "009" (String "160" "TrUe" ++ String "010" "")))
                  TBool = Ok (VBool true)
  /\ attempt_cast (VStr (String "160" (String "133" ""))) TBool
     = Ok (VBool false)
  /\ attempt_cast (VStr "n o") TBool = Ok (VBool true).
Proof.
  assert (Htext : forall s, attempt_cast (VStr s) TBool
                            = Ok (VBool (bool_of_text s))) by reflexivity.
  split; [|split; [|split; [|split; [|split; [|split]]]]].
  - intros s w Hw Hr. rewrite Htext.
    apply reads_as_normal in Hr; [|now apply listed_words_plain; left].
    destruct (bool_of_text_cases s) as (H1 & _ & _). rewrite Hr in H1.
    now rewrite (H1 Hw).
  - intros s w Hw Hr. rewrite Htext.
    apply reads_as_normal in Hr; [|now apply listed_words_plain; right].
    destruct (bool_of_text_cases s) as (_ & H2 & _). rewrite Hr in H2.
    now rewrite (H2 Hw).
  - intros s Hs. rewrite Htext.
    destruct (bool_of_text_cases s) as (_ & _ & H3).
    assert (Hno : forall w, In w truthy_words \/ In w falsy_words ->
                            PyStr.strip (PyStr.lower s) <> w).
    { intros w Hw E. apply (Hs w Hw).
      apply reads_as_normal; [now apply listed_words_plain | exact E]. }
    destruct H3 as [_ H3].
    + intros Hin. exact (Hno _ (or_introl Hin) eq_refl).
    + intros Hin. exact (Hno _ (or_intror Hin) eq_refl).
    + split; [|now rewrite H3].
      intros ->. apply (Hno ""); [|reflexivity].
      right. unfold falsy_words. simpl. do 5 right. now left.
  - reflexivity.
  - intros x. now destruct x.
  - reflexivity.
  - repeat split; vm_compute; reflexivity.
Qed.

(** C7: for every value [v] and every non-date target [T] (Integer,
    Float, Text, Boolean), [attempt_cast] returns a value [r], and casting
    [r] again to [T] returns [r]. *)
Theorem attempt_cast_idempotent (v : pyvalue) (T : target_type) :
  T <> TDate -> T <> TDatetime ->
  exists r, attempt_cast v T = Ok r /\ attempt_cast r T = Ok r.
Proof.
  intros Hd Ht.
  assert (Hint : forall x, attempt_cast (int_of_integral x) TInt
                           = Ok (int_of_integral x)).
  { intros x. now destruct (int_of_integral_cases x) as [[n ->]| ->]. }
  assert (Hopt : forall (A : Type) (inj : A -> pyvalue) (o : option A) U,
             (forall a, isinstance (inj a) U = true) ->
             (forall a, inj a <> VNone) ->
             attempt_cast (opt_value inj o) U = Ok (opt_value inj o)).
  { intros A inj o U Hi Hn. destruct o as [a|]; simpl; [|reflexivity].
    specialize (Hi a). specialize (Hn a).
    unfold attempt_cast. destruct (inj a); try congruence; now rewrite Hi. }
  destruct T; try congruence.
  - (* Integer *)
    destruct v; simpl; eauto.
    destruct (PyFloat.of_string s); eauto.
  - (* Float *)
    destruct v; simpl; eauto;
      (eexists; split; [reflexivity|]; now apply Hopt).
  - (* Text *)
    destruct v; simpl; eauto.
  - (* Boolean *)
    destruct v; simpl; eauto.
    destruct (PyFloat.is_nan x); eauto.
Qed.

End CoercionFacts.

(** ** The temporal parser *)

Lemma bind_ret {A B : Type} (a : A) (k : A -> result B) : Ok a ≫= k = k a.
Proof. reflexivity. Qed.

Lemma bind_raise {A B : Type} (e : exn) (k : A -> result B) :
  Raise e ≫= k = Raise e.
Proof. reflexivity. Qed.

Lemma date_of_digit_parts (y m d : string) :
  numeric_part y -> numeric_part m -> numeric_part d ->
  date_of_parts y m d = make_date (PyStr.number y) (PyStr.number m) (PyStr.number d).
Proof.
  intros [Hy Ly] [Hm Lm] [Hd Ld]. unfold date_of_parts.
  now rewrite (to_int_digits y Hy Ly), (to_int_digits m Hm Lm), (to_int_digits d Hd Ld).
Qed.

Lemma manual_split_joined (sep : ascii) (p0 p1 p2 : string) :
  PyStr.is_digit sep = false ->
  PyStr.all_digits p0 = true -> PyStr.all_digits p1 = true ->
  PyStr.all_digits p2 = true ->
  manual_split sep (joined sep p0 p1 p2) = date_of_three_parts [p0; p1; p2].
Proof.
  intros Hs H0 H1 H2. unfold manual_split.
  rewrite contains_joined, Ascii.eqb_refl by assumption.
  now rewrite split_joined.
Qed.

Lemma manual_split_other (c sep : ascii) (p0 p1 p2 : string) :
  PyStr.is_digit c = false -> c <> sep ->
  PyStr.all_digits p0 = true -> PyStr.all_digits p1 = true ->
  PyStr.all_digits p2 = true ->
  manual_split c (joined sep p0 p1 p2) = Ok None.
Proof.
  intros Hc Hne H0 H1 H2. unfold manual_split.
  rewrite contains_joined by assumption.
  apply Ascii.eqb_neq in Hne. now rewrite Hne.
Qed.

(** The fallback on three numeric parts is the rule on their numbers. *)
Lemma manual_fallback_joined (sep : ascii) (p0 p1 p2 : string) :
  sep = "/"%char \/ sep = "-"%char ->
  numeric_part p0 -> numeric_part p1 -> numeric_part p2 ->
  manual_fallback (joined sep p0 p1 p2)
  = (if PyStr.len p0 =? 4
     then make_date (PyStr.number p0) (PyStr.number p1) (PyStr.number p2)
     else if PyStr.len p2 =? 4 then
       or_try (make_date (PyStr.number p2) (PyStr.number p0) (PyStr.number p1))
              (make_date (PyStr.number p2) (PyStr.number p1) (PyStr.number p0))
     else Ok None).
Proof.
  intros Hsep N0 N1 N2.
  assert (H0 := proj1 N0). assert (H1 := proj1 N1). assert (H2 := proj1 N2).
  assert (E : manual_fallback (joined sep p0 p1 p2)
              = date_of_three_parts [p0; p1; p2]).
  { unfold manual_fallback. destruct Hsep as [-> | ->].
    - rewrite manual_split_joined by (reflexivity || assumption).
      rewrite (manual_split_other "-" "/") by (reflexivity || discriminate || assumption).
      unfold or_try. now destruct (date_of_three_parts [p0; p1; p2]) as [[d|]|e].
    - rewrite (manual_split_other "/" "-") by (reflexivity || discriminate || assumption).
      now rewrite manual_split_joined by (reflexivity || assumption). }
  rewrite E. unfold date_of_three_parts.
  now rewrite !date_of_digit_parts by assumption.
Qed.

(** What [date(y, m, d)] answers, case by case. *)
Lemma make_date_cases (y m d : Z) :
  (in_calendar y m d = true -> make_date y m d = Ok (Some (mkdate y m d)))
  /\ (c_int y && c_int m && c_int d = true -> in_calendar y m d = false ->
      make_date y m d = Ok None)
  /\ (c_int y && c_int m && c_int d = false ->
      make_date y m d = Raise OverflowError).
Proof.
  unfold make_date. split; [|split].
  - intros H. rewrite H.
    assert (Hc : c_int y && c_int m && c_int d = true).
    { unfold in_calendar, days_in_month in H. unfold c_int.
      destruct (m =? 2); [destruct (is_leap y)|destruct (_ || _)]; lia. }
    now rewrite Hc.
  - intros -> ->. reflexivity.
  - intros ->. reflexivity.
Qed.

Section TemporalFacts.

Context {rt : Runtime}.

Lemma parse_date_text_S (depth : nat) (value : string) :
  parse_date_text (S depth) value
  = (fast ← date_fast_path value;
     match or_else fast (date_by_patterns date_patterns value) with
     | Some d => Ok (Some d)
     | None =>
         manual ← manual_fallback value;
         match manual with
         | Some d => Ok (Some d)
         | None =>
             dt ← parse_datetime_text depth value;
             match dt with
             | Some t => Ok (Some (dt_date t))
             | None => Ok None
             end
         end
     end).
Proof. reflexivity. Qed.

Lemma parse_datetime_text_S (depth : nat) (value : string) :
  parse_datetime_text (S depth) value
  = match or_else (datetime_fast_path value)
                  (datetime_by_patterns datetime_patterns value) with
    | Some t => Ok (Some t)
    | None =>
        date_val ← parse_date_text depth value;
        match date_val with
        | Some d => Ok (Some (at_midnight d))
        | None => datetime_manual value
        end
    end.
Proof. reflexivity. Qed.

(** A stage of the parsers lets out no exception but [OverflowError]. *)
Lemma make_date_raise (y m d : Z) (e : exn) :
  make_date y m d = Raise e -> e = OverflowError.
Proof.
  unfold make_date. destruct (_ && _); [discriminate|]. congruence.
Qed.

Lemma date_of_parts_raise (y m d : string) (e : exn) :
  date_of_parts y m d = Raise e -> e = OverflowError.
Proof.
  unfold date_of_parts.
  destruct (PyStr.to_int y), (PyStr.to_int m), (PyStr.to_int d);
    try discriminate. apply make_date_raise.
Qed.

Lemma date_of_three_parts_raise (parts : list string) (e : exn) :
  date_of_three_parts parts = Raise e -> e = OverflowError.
Proof.
  unfold date_of_three_parts.
  destruct parts as [|p0 [|p1 [|p2 [|]]]]; try discriminate.
  destruct (PyStr.len p0 =? 4); [apply date_of_parts_raise|].
  destruct (PyStr.len p2 =? 4); [|discriminate].
  unfold or_try. destruct (date_of_parts p2 p0 p1) as [[x|]|e'] eqn:E.
  - discriminate.
  - apply date_of_parts_raise.
  - intros H. injection H as <-. exact (date_of_parts_raise _ _ _ _ E).
Qed.

Lemma manual_fallback_raise (value : string) (e : exn) :
  manual_fallback value = Raise e -> e = OverflowError.
Proof.
  assert (Hs : forall sep e', manual_split sep value = Raise e' -> e' = OverflowError).
  { intros sep e'. unfold manual_split. destruct (PyStr.contains sep value);
      [apply date_of_three_parts_raise | discriminate]. }
  unfold manual_fallback, or_try.
  destruct (manual_split "/" value) as [[x|]|e'] eqn:E.
  - discriminate.
  - apply Hs.
  - intros H. injection H as <-. exact (Hs _ _ E).
Qed.

Lemma date_fast_path_raise (value : string) (e : exn) :
  date_fast_path value = Raise e -> e = OverflowError.
Proof.
  unfold date_fast_path.
  destruct (PyStr.contains "T" value); [discriminate|].
  destruct (PyStr.contains " " value); [|discriminate].
  destruct (PyStr.contains "-" _); [discriminate|].
  destruct (PyStr.contains "/" _); [|discriminate].
  destruct (PyStr.split "/" _) as [|y [|m [|d [|]]]]; try discriminate.
  apply date_of_parts_raise.
Qed.

(** On text, [parse_date] and [parse_datetime] never come back with a
    null: they return a date (a timestamp), or an [OverflowError] of a
    date constructor leaves them, or, when every stage fails, they call
    each other until the interpreter gives up. *)
Lemma parse_text_outcomes (depth : nat) (value : string) :
  ((exists d, parse_date_text depth value = Ok (Some d))
   \/ parse_date_text depth value = Raise RecursionError
   \/ parse_date_text depth value = Raise OverflowError)
  /\ ((exists t, parse_datetime_text depth value = Ok (Some t))
      \/ parse_datetime_text depth value = Raise RecursionError
      \/ parse_datetime_text depth value = Raise OverflowError).
Proof.
  induction depth as [|depth [IHd IHt]].
  - split; right; left; reflexivity.
  - split.
    + rewrite parse_date_text_S.
      destruct (date_fast_path value) as [fast|e] eqn:Ef.
      2:{ right; right. now rewrite (date_fast_path_raise _ _ Ef). }
      rewrite bind_ret.
      destruct (or_else _ _) as [d|]; [left; eauto|].
      destruct (manual_fallback value) as [[d|]|e] eqn:Em.
      * left; eauto.
      * rewrite bind_ret.
        destruct IHt as [[t ->]|[-> | ->]]; [left; eauto | auto | auto].
      * right; right. now rewrite (manual_fallback_raise _ _ Em).
    + rewrite parse_datetime_text_S.
      destruct (or_else _ _) as [t|]; [left; eauto|].
      destruct IHd as [[d ->]|[-> | ->]]; [left; eauto | auto | auto].
Qed.

(** When every stage of both parsers fails on a text, neither returns:
    the recursion is cut by the interpreter at whatever depth is left. *)
Lemma parse_text_gives_up (value : string) :
  date_fast_path value = Ok None ->
  date_by_patterns date_patterns value = None ->
  manual_fallback value = Ok None ->
  datetime_fast_path value = None ->
  datetime_by_patterns datetime_patterns value = None ->
  forall depth,
    parse_date_text depth value = Raise RecursionError
    /\ parse_datetime_text depth value = Raise RecursionError.
Proof.
  intros H1 H2 H3 H4 H5 depth.
  induction depth as [|depth [IHd IHt]]; [split; reflexivity|].
  rewrite parse_date_text_S, parse_datetime_text_S, H1, bind_ret, H2.
  cbn [or_else]. rewrite H3, bind_ret, H4, H5, IHd, IHt.
  split; reflexivity.
Qed.

(** C8: on text made of three numeric parts joined by ["/"] or by ["-"],
    the manual fallback reads year-month-day when the first part has four
    digits; otherwise, when the last part has four digits, it takes the
    last part as the year and tries month-first (first part the month,
    middle part the day), then day-first, and gives the first of the two
    that is a valid calendar date; a date it gives is what [parse_date]
    returns once the earlier stages gave nothing.  When neither order is a
    valid date the parser does not return null: on text [parse_date] never
    returns null, and with the other stages failing too it ends in
    [RecursionError], as on ["13/13/2021"]; a part that is no C [int] makes
    [date] raise [OverflowError], which leaves the parser. *)
Theorem manual_fallback_three_parts (sep : ascii) (p0 p1 p2 : string) :
  sep = "/"%char \/ sep = "-"%char ->
  numeric_part p0 -> numeric_part p1 -> numeric_part p2 ->
  let value := joined sep p0 p1 p2 in
  let n0 := PyStr.number p0 in
  let n1 := PyStr.number p1 in
  let n2 := PyStr.number p2 in
  let fits := c_int n0 && c_int n1 && c_int n2 in
  (* year first *)
  (PyStr.len p0 = 4 ->
     (in_calendar n0 n1 n2 = true ->
      manual_fallback value = Ok (Some (mkdate n0 n1 n2)))
     /\ (fits = true -> in_calendar n0 n1 n2 = false ->
         manual_fallback value = Ok None))
  (* year last: month first, then day first *)
  /\ (PyStr.len p0 <> 4 -> PyStr.len p2 = 4 ->
        (in_calendar n2 n0 n1 = true ->
         manual_fallback value = Ok (Some (mkdate n2 n0 n1)))
        /\ (in_calendar n2 n0 n1 = false -> in_calendar n2 n1 n0 = true ->
            manual_fallback value = Ok (Some (mkdate n2 n1 n0)))
        /\ (fits = true -> in_calendar n2 n0 n1 = false ->
            in_calendar n2 n1 n0 = false ->
            manual_fallback value = Ok None))
  (* no part of four digits at either end *)
  /\ (PyStr.len p0 <> 4 -> PyStr.len p2 <> 4 -> manual_fallback value = Ok None)
  (* a part too large for [date] *)
  /\ (PyStr.len p0 = 4 \/ PyStr.len p2 = 4 -> fits = false ->
      manual_fallback value = Raise OverflowError)
  (* what the parser makes of it *)
  /\ (forall depth d,
        date_fast_path value = Ok None ->
        date_by_patterns date_patterns value = None ->
        manual_fallback value = Ok (Some d) ->
        parse_date_text (S depth) value = Ok (Some d))
  /\ (forall depth, parse_date_text depth value <> Ok None)
  /\ parse_date (VStr value) <> Ok VNone
  /\ (date_fast_path value = Ok None ->
      date_by_patterns date_patterns value = None ->
      manual_fallback value = Ok None ->
      datetime_fast_path value = None ->
      datetime_by_patterns datetime_patterns value = None ->
      parse_date (VStr value) = Raise RecursionError
      /\ attempt_cast (VStr value) TDate = Raise RecursionError).
Proof.
  intros Hsep N0 N1 N2 value n0 n1 n2 fits.
  pose proof (manual_fallback_joined sep p0 p1 p2 Hsep N0 N1 N2) as E.
  fold value n0 n1 n2 in E.
  assert (Hfits : forall a b c, in_calendar a b c = true ->
                                c_int a && c_int b && c_int c = true).
  { intros a b c H. destruct (c_int a && c_int b && c_int c) eqn:F; [reflexivity|].
    pose proof (proj1 (make_date_cases a b c) H) as G1.
    pose proof (proj2 (proj2 (make_date_cases a b c)) F) as G2. congruence. }
  assert (Hperm1 : c_int n2 && c_int n0 && c_int n1 = fits)
    by (unfold fits; destruct (c_int n0), (c_int n1), (c_int n2); reflexivity).
  assert (Hperm2 : c_int n2 && c_int n1 && c_int n0 = fits)
    by (unfold fits; destruct (c_int n0), (c_int n1), (c_int n2); reflexivity).
  assert (Hno : forall depth, parse_date_text depth value <> Ok None).
  { intros depth H.
    destruct (proj1 (parse_text_outcomes depth value)) as [[d Hd]|[Hd|Hd]];
      congruence. }
  split; [|split; [|split; [|split; [|split; [|split; [|split]]]]]].
  - intros L0. apply Z.eqb_eq in L0. rewrite L0 in E. split.
    + intros H. now rewrite E, (proj1 (make_date_cases _ _ _) H).
    + intros F H. now rewrite E, (proj1 (proj2 (make_date_cases _ _ _)) F H).
  - intros L0 L2. apply Z.eqb_neq in L0. apply Z.eqb_eq in L2.
    rewrite L0, L2 in E. split; [|split].
    + intros H. now rewrite E, (proj1 (make_date_cases _ _ _) H).
    + intros H1 H2.
      assert (F : fits = true) by (rewrite <- Hperm2; now apply Hfits).
      rewrite <- Hperm1 in F.
      rewrite E, (proj1 (proj2 (make_date_cases _ _ _)) F H1).
      simpl. exact (proj1 (make_date_cases _ _ _) H2).
    + intros F H1 H2. rewrite E.
      rewrite (proj1 (proj2 (make_date_cases n2 n0 n1)) (eq_trans Hperm1 F) H1).
      simpl. exact (proj1 (proj2 (make_date_cases n2 n1 n0)) (eq_trans Hperm2 F) H2).
  - intros L0 L2. apply Z.eqb_neq in L0, L2. now rewrite E, L0, L2.
  - intros L F. rewrite E.
    destruct (PyStr.len p0 =? 4) eqn:L0.
    + exact (proj2 (proj2 (make_date_cases n0 n1 n2)) F).
    + destruct L as [L|L]; [apply Z.eqb_neq in L0; contradiction|].
      apply Z.eqb_eq in L. rewrite L.
      rewrite (proj2 (proj2 (make_date_cases n2 n0 n1)) (eq_trans Hperm1 F)).
      reflexivity.
  - intros depth d Hf Hp Hm.
    rewrite parse_date_text_S, Hf, bind_ret, Hp. cbn [or_else]. now rewrite Hm.
  - exact Hno.
  - unfold parse_date. intros H.
    destruct (parse_date_text recursion_limit value) as [[d|]|e] eqn:Ed;
      simpl in H; try discriminate. exact (Hno _ Ed).
  - intros H1 H2 H3 H4 H5.
    destruct (parse_text_gives_up value H1 H2 H3 H4 H5 recursion_limit) as [Hd _].
    unfold attempt_cast, isinstance, parse_date. rewrite Hd. split; reflexivity.
Qed.

End TemporalFacts.

(** ** The reconciler *)

Lemma bind_Ok {A B : Type} (r : result A) (k : A -> result B) (b : B) :
  r ≫= k = Ok b -> exists a, r = Ok a /\ k a = Ok b.
Proof.
  destruct r as [a|e]; [|discriminate]. intros H. now exists a.
Qed.

Lemma lookup_key_In {A : Type} (r : list (string * A)) (key : string) :
  has_key r key = true <-> In key (map fst r).
Proof.
  unfold has_key. induction r as [|[k v] r IH]; simpl.
  - split; [discriminate | contradiction].
  - destruct (String.eqb_spec k key) as [->|Hne].
    + split; auto.
    + rewrite IH. split; [auto | intros [E|H]; [congruence | exact H]].
Qed.

Lemma mem_In (x : string) (l : list string) : mem x l = true <-> In x l.
Proof. apply existsb_string_In. Qed.

Lemma mem_false (x : string) (l : list string) : mem x l = false <-> ~ In x l.
Proof.
  rewrite <- mem_In. destruct (mem x l); split; congruence.
Qed.

(** The verdict on one field is the comparison rule of §4.4. *)
Lemma field_verdict_spec (a b : pyvalue) :
  field_verdict a b = true <-> canon_equal a b.
Proof.
  split.
  - intros H.
    destruct (is_temporal a && is_temporal b) eqn:Ht.
    + apply andb_prop in Ht as [Ha Hb].
      destruct a; try discriminate Ha; destruct b; try discriminate Hb;
        simpl in H; eapply same_calendar_date; simpl; eauto.
    + destruct a, b; simpl in H, Ht; try discriminate;
        first [ exact both_null
              | apply direct_equality; simpl; auto; discriminate ].
  - intros [ | a' b' d e Ha Hb Hde | a' b' Ha Hb Ht Heq ].
    + reflexivity.
    + destruct a'; try discriminate Ha; destruct b'; try discriminate Hb;
        simpl in *; unfold same_date; simpl; congruence.
    + destruct a', b'; simpl in *; congruence.
Qed.

(** The comparison loop, field by field. *)
Lemma compare_fields_forallb (pks : list string) (row_new row_db : row)
  (keys : list string) :
  compare_fields pks row_new row_db keys
  = forallb (fun key =>
               if has_key row_db key && negb (mem key pks)
               then field_verdict (cell row_new key) (cell row_db key)
               else true) keys.
Proof.
  induction keys as [|key keys IH]; simpl; [reflexivity|].
  rewrite <- IH.
  destruct (has_key row_db key && negb (mem key pks)); [|reflexivity].
  destruct (cell row_new key), (cell row_db key); simpl; try reflexivity;
    repeat match goal with
           | |- context [if ?c then _ else _] => destruct c; simpl
           end; reflexivity.
Qed.

(** The loop finds two coerced rows identical exactly when every non-key
    field they share compares equal under the rule of §4.4. *)
Lemma is_identical_spec (pks : list string) (row_new row_db : row) :
  is_identical pks row_new row_db = true <-> row_unchanged pks row_new row_db.
Proof.
  unfold is_identical, row_unchanged.
  rewrite compare_fields_forallb, forallb_forall. split.
  - intros H key Hn Hd Hk. apply lookup_key_In in Hn.
    specialize (H key Hn). apply mem_false in Hk.
    rewrite Hd, Hk in H. now apply field_verdict_spec.
  - intros H key Hn.
    destruct (has_key row_db key) eqn:Hd; [|reflexivity].
    destruct (mem key pks) eqn:Hk; [reflexivity|]. simpl.
    apply field_verdict_spec, H; auto.
    + now apply lookup_key_In.
    + now apply mem_false.
Qed.

Lemma filter_head {A : Type} (p : A -> bool) (l : list A) (x : A) (rest : list A) :
  List.filter p l = x :: rest ->
  exists l1 l2, l = (l1 ++ x :: l2)%list /\ p x = true
                /\ forall y, In y l1 -> p y = false.
Proof.
  induction l as [|a l IH]; simpl; [discriminate|].
  destruct (p a) eqn:Ha.
  - intros H. injection H as -> _. exists [], l. repeat split; auto.
    intros y [].
  - intros H. destruct (IH H) as (l1 & l2 & -> & Hx & Hl).
    exists (a :: l1), l2. repeat split; auto.
    intros y [<-|Hy]; auto.
Qed.

(** [first_row] gives the first row whose key matches. *)
Lemma first_row_spec (df : DataFrame) (pk : string) (id_val : pyvalue) (r : row) :
  first_row df pk id_val = Ok r ->
  exists l1 l2, df_rows df = (l1 ++ r :: l2)%list
                /\ polars_eqb (cell r pk) id_val = true
                /\ forall y, In y l1 -> polars_eqb (cell y pk) id_val = false.
Proof.
  unfold first_row.
  destruct (List.filter _ (df_rows df)) as [|x rest] eqn:E; [discriminate|].
  intros H. injection H as ->.
  exact (filter_head _ _ _ _ E).
Qed.

Lemma filter_none {A : Type} (p : A -> bool) (l : list A) :
  (forall x, In x l -> p x = false) -> List.filter p l = [].
Proof.
  induction l as [|a l IH]; simpl; intros H; [reflexivity|].
  rewrite (H a) by now left. apply IH. intros x Hx. apply H. now right.
Qed.

(** Both branches of [rows_with_ids] are the same filter of the original
    table. *)
Lemma rows_with_ids_filter (original : DataFrame) (pk : string) (ids : list pyvalue) :
  rows_with_ids original pk ids
  = frame_filter (fun r => is_in (cell r pk) ids) original.
Proof.
  destruct ids as [|i ids]; [|reflexivity].
  unfold rows_with_ids, frame_filter, empty_frame. f_equal.
  symmetry. now apply filter_none.
Qed.

Lemma is_in_spec (x : pyvalue) (ids : list pyvalue) :
  is_in x ids = true <-> exists i, In i ids /\ polars_eqb x i = true.
Proof. apply existsb_exists. Qed.

Lemma bool_eqb_sym (a b : bool) : Bool.eqb a b = Bool.eqb b a.
Proof. now destruct a, b. Qed.

Lemma bool_eqb_refl (a : bool) : Bool.eqb a a = true.
Proof. now destruct a. Qed.

Lemma float_eqb_sym (x y : spec_float) : PyFloat.eqb x y = PyFloat.eqb y x.
Proof.
  destruct x, y; simpl; try reflexivity.
  - apply bool_eqb_sym.
  - now rewrite (bool_eqb_sym s s0), (Pos.eqb_sym m m0), (Z.eqb_sym e e0).
Qed.

Lemma float_eqb_left (x y : spec_float) :
  PyFloat.eqb x y = true -> PyFloat.eqb x x = true.
Proof.
  destruct x, y; simpl; try discriminate; intros _; try reflexivity.
  - apply bool_eqb_refl.
  - now rewrite bool_eqb_refl, Pos.eqb_refl, Z.eqb_refl.
Qed.

Lemma float_eqb_int_left (x : spec_float) (n : Z) :
  PyFloat.eqb_int x n = true -> PyFloat.eqb x x = true.
Proof.
  destruct x; simpl; try discriminate; intros _; try reflexivity.
  now rewrite bool_eqb_refl, Pos.eqb_refl, Z.eqb_refl.
Qed.

Lemma date_eqb_sym (d e : date) : date_eqb d e = date_eqb e d.
Proof.
  unfold date_eqb.
  now rewrite (Z.eqb_sym (year d)), (Z.eqb_sym (month d)), (Z.eqb_sym (day d)).
Qed.

Lemma date_eqb_refl (d : date) : date_eqb d d = true.
Proof. unfold date_eqb. now rewrite !Z.eqb_refl. Qed.

Lemma datetime_eqb_sym (t u : datetime) : datetime_eqb t u = datetime_eqb u t.
Proof.
  unfold datetime_eqb. destruct (tzoffset t), (tzoffset u); try reflexivity.
  - now rewrite Z.eqb_sym, (Z.eqb_sym (microsecond t)).
  - now rewrite Z.eqb_sym, date_eqb_sym, (Z.eqb_sym (microsecond t)).
Qed.

Lemma datetime_eqb_left (t u : datetime) :
  datetime_eqb t u = true -> datetime_eqb t t = true.
Proof.
  unfold datetime_eqb. destruct (tzoffset t), (tzoffset u); try discriminate;
    intros _; now rewrite ?date_eqb_refl, !Z.eqb_refl.
Qed.

(** Equality of values is symmetric. *)
Lemma py_eqb_sym (a b : pyvalue) : py_eqb a b = py_eqb b a.
Proof.
  destruct a, b; simpl; try reflexivity.
  - apply bool_eqb_sym.
  - apply Z.eqb_sym.
  - apply float_eqb_sym.
  - apply String.eqb_sym.
  - apply date_eqb_sym.
  - apply datetime_eqb_sym.
  - apply bool_decide_ext. split; congruence.
Qed.

(** Every value equals itself, except a NaN. *)
Lemma py_eqb_refl (v : pyvalue) : v <> VFloat S754_nan -> py_eqb v v = true.
Proof.
  destruct v as [ |b|n|x|s|d|t|o]; simpl; intros Hv; try reflexivity.
  - apply bool_eqb_refl.
  - apply Z.eqb_refl.
  - destruct x; simpl; try congruence; try apply bool_eqb_refl.
    now rewrite bool_eqb_refl, Pos.eqb_refl, Z.eqb_refl.
  - apply String.eqb_refl.
  - apply date_eqb_refl.
  - unfold datetime_eqb. destruct (tzoffset t);
      now rewrite ?date_eqb_refl, !Z.eqb_refl.
  - now apply bool_decide_eq_true.
Qed.

Lemma polars_eqb_sym (a b : pyvalue) : polars_eqb a b = polars_eqb b a.
Proof.
  unfold polars_eqb. destruct a, b; try reflexivity; apply py_eqb_sym.
Qed.

(** A value that matches something matches itself. *)
Lemma polars_eqb_left (a b : pyvalue) :
  polars_eqb a b = true -> polars_eqb a a = true.
Proof.
  destruct a, b; simpl; try discriminate; intros H; try reflexivity.
  - apply bool_eqb_refl.
  - apply bool_eqb_refl.
  - apply bool_eqb_refl.
  - apply Z.eqb_refl.
  - apply Z.eqb_refl.
  - apply Z.eqb_refl.
  - now apply float_eqb_int_left in H.
  - now apply float_eqb_int_left in H.
  - now apply float_eqb_left in H.
  - apply String.eqb_refl.
  - apply date_eqb_refl.
  - now apply datetime_eqb_left in H.
  - now apply bool_decide_eq_true.
Qed.

Lemma first_row_of_match (df : DataFrame) (pk : string) (id_val : pyvalue) :
  (exists r, In r (df_rows df) /\ polars_eqb (cell r pk) id_val = true) ->
  exists r, first_row df pk id_val = Ok r.
Proof.
  intros (r & Hr & Hm). unfold first_row.
  destruct (List.filter _ (df_rows df)) as [|x rest] eqn:E; [|eauto].
  assert (Hin : In r (List.filter (fun r0 => polars_eqb (cell r0 pk) id_val)
                                  (df_rows df)))
    by (apply filter_In; auto).
  rewrite E in Hin. contradiction.
Qed.

Lemma select_column_returns (df : DataFrame) (cols : list string) (c : string) :
  (forall x, In x cols -> In x (columns df)) -> nodupb cols = true ->
  select_column df cols c = Ok (key_column df c).
Proof.
  intros Hall Hnd. unfold select_column.
  destruct (List.find _ cols) as [x|] eqn:E.
  - apply find_some in E as [Hx Hmiss]. apply negb_true_iff, mem_false in Hmiss.
    exfalso. auto.
  - now rewrite Hnd.
Qed.

Section ReconcilerFacts.

Context {rt : Runtime}.

(** What the loop over [ids_in_both] puts into each list. *)
Lemma classify_spec (pks : list string) (pk0 : string)
  (casted_new casted_db : DataFrame) (ids : list pyvalue) :
  forall equals_ids update_ids,
  classify pks pk0 casted_new casted_db ids = Ok (equals_ids, update_ids) ->
  forall id_val,
    (In id_val ids ->
     exists row_new row_db,
       first_row casted_new pk0 id_val = Ok row_new
       /\ first_row casted_db pk0 id_val = Ok row_db)
    /\ (In id_val equals_ids <->
        In id_val ids /\
        exists row_new row_db,
          first_row casted_new pk0 id_val = Ok row_new
          /\ first_row casted_db pk0 id_val = Ok row_db
          /\ is_identical pks row_new row_db = true)
    /\ (In id_val update_ids <->
        In id_val ids /\
        exists row_new row_db,
          first_row casted_new pk0 id_val = Ok row_new
          /\ first_row casted_db pk0 id_val = Ok row_db
          /\ is_identical pks row_new row_db = false).
Proof.
  induction ids as [|i ids IH]; intros eqs upds H id_val.
  - injection H as <- <-. simpl. split; [|split; split]; try tauto; intros []; tauto.
  - simpl in H.
    apply bind_Ok in H as (rn & Hn & H).
    apply bind_Ok in H as (rd & Hd & H).
    apply bind_Ok in H as ([eqs' upds'] & Hrec & H).
    specialize (IH _ _ Hrec id_val) as (IH0 & IHe & IHu).
    assert (Hfun : forall rn' rd',
               first_row casted_new pk0 i = Ok rn' ->
               first_row casted_db pk0 i = Ok rd' -> rn' = rn /\ rd' = rd).
    { intros rn' rd' H1 H2. split; congruence. }
    destruct (is_identical pks rn rd) eqn:Hid; injection H as <- <-; simpl.
    + split; [|split; split].
      * intros [<-|Hin]; eauto.
      * intros [<-|Hin]; [split; [now left | eauto 6]|].
        apply IHe in Hin as [Hin Hex]. split; [now right | exact Hex].
      * intros [[<-|Hin] Hex]; [now left | right; apply IHe; tauto].
      * intros Hin. apply IHu in Hin as [Hin Hex]. split; [now right | exact Hex].
      * intros [[<-|Hin] (rn' & rd' & H1 & H2 & H3)].
        -- destruct (Hfun _ _ H1 H2) as [-> ->]. congruence.
        -- apply IHu. eauto 6.
    + split; [|split; split].
      * intros [<-|Hin]; eauto.
      * intros Hin. apply IHe in Hin as [Hin Hex]. split; [now right | exact Hex].
      * intros [[<-|Hin] (rn' & rd' & H1 & H2 & H3)].
        -- destruct (Hfun _ _ H1 H2) as [-> ->]. congruence.
        -- apply IHe. eauto 6.
      * intros [<-|Hin]; [split; [now left | eauto 6]|].
        apply IHu in Hin as [Hin Hex]. split; [now right | exact Hex].
      * intros [[<-|Hin] Hex]; [now left | right; apply IHu; tauto].
Qed.

Lemma select_column_Ok (df : DataFrame) (cols : list string) (c : string)
  (ids : list pyvalue) :
  select_column df cols c = Ok ids -> ids = key_column df c.
Proof.
  unfold select_column. destruct (List.find _ cols); [discriminate|].
  destruct (nodupb cols); [|discriminate]. congruence.
Qed.

Lemma is_empty_rows (df : DataFrame) : is_empty df = true <-> df_rows df = [].
Proof.
  unfold is_empty. destruct (df_rows df); split; congruence.
Qed.

Lemma is_empty_false (df : DataFrame) : is_empty df = false <-> df_rows df <> [].
Proof.
  unfold is_empty. destruct (df_rows df); split; congruence.
Qed.

(** The keys the loop runs over: the keys of the coerced new table that
    are among the keys of the coerced stored table. *)
Lemma in_ids_in_both (casted_new : DataFrame) (pk0 : string)
  (ids_in_db : list pyvalue) (id_val : pyvalue) :
  In id_val (key_column (frame_filter (fun r => is_in (cell r pk0) ids_in_db)
                                      casted_new) pk0)
  <-> In id_val (key_column casted_new pk0) /\ is_in id_val ids_in_db = true.
Proof.
  unfold key_column, frame_filter. simpl. rewrite !in_map_iff. split.
  - intros (r & <- & Hr). apply filter_In in Hr as [Hr Hin]. split; eauto.
  - intros [(r & <- & Hr) Hin]. exists r. split; [reflexivity|].
    apply filter_In. auto.
Qed.

Lemma split_dataframe_inv (self : PolarsCaster) (df_new df_db : DataFrame)
  (pks : list string) (schema_name : string) (ins eq upd : DataFrame) :
  split_dataframe self df_new df_db pks schema_name = Ok (ins, eq, upd) ->
  exists pk0 rest,
    pks = pk0 :: rest
    /\ check_pk_columns pks df_new df_db = Ok tt
    /\ check_pk_nulls pks df_new df_db = Ok tt
    /\ split_outcome self df_new df_db pks schema_name pk0 ins eq upd.
Proof.
  unfold split_dataframe.
  destruct (schema_mapping self !! schema_name) as [s|] eqn:Hs; [|discriminate].
  destruct pks as [|pk0 rest] eqn:Hpks; [discriminate|]. rewrite <- Hpks.
  intros H. exists pk0, rest. split; [exact Hpks|].
  apply bind_Ok in H as ([] & Hc & H).
  apply bind_Ok in H as ([] & Hn & H).
  split; [exact Hc | split; [exact Hn|]].
  destruct (is_empty df_new) eqn:En.
  - injection H as <- <- <-. apply is_empty_rows in En.
    now apply (new_is_empty _ _ _ _ _ _ s).
  - apply is_empty_false in En.
    destruct (is_empty df_db) eqn:Ed.
    + injection H as <- <- <-. apply is_empty_rows in Ed.
      now apply stored_is_empty.
    + apply is_empty_false in Ed.
      apply bind_Ok in H as (cn & Hcn & H).
      apply bind_Ok in H as (cd & Hcd & H).
      apply bind_Ok in H as (ids_db & Hdb & H).
      apply bind_Ok in H as (ids_both & Hboth & H).
      apply bind_Ok in H as ([eqs upds] & Hcl & H).
      apply select_column_Ok in Hdb, Hboth. subst ids_db ids_both.
      injection H as <- <- <-. rewrite !rows_with_ids_filter.
      now apply (general_case _ _ _ _ _ _ cn cd eqs upds).
Qed.

Lemma null_count_pos (df : DataFrame) (pk : string) :
  (0 < null_count df pk)%nat <->
  exists r, In r (df_rows df) /\ cell r pk = VNone.
Proof.
  unfold null_count.
  induction (df_rows df) as [|r rows IH]; simpl.
  - split; [lia | intros (r & [] & _)].
  - destruct (bool_decide_reflect (cell r pk = VNone)) as [E|E]; simpl.
    + split; [eauto | lia].
    + rewrite IH. split.
      * intros (x & Hx & Ex). eauto.
      * intros (x & [<-|Hx] & Ex); [contradiction | eauto].
Qed.

(** The existence check returns normally exactly when every key column is
    in both tables; otherwise it names a key column and a table that lacks
    it. *)
Lemma check_pk_columns_spec (pks : list string) (df_new df_db : DataFrame) :
  (check_pk_columns pks df_new df_db = Ok tt
   /\ forall pk, In pk pks -> In pk (columns df_new) /\ In pk (columns df_db))
  \/ exists table c,
       check_pk_columns pks df_new df_db = Raise (MissingPrimaryKeyColumn table c)
       /\ In c pks
       /\ (table = "df_new" /\ ~ In c (columns df_new)
           \/ table = "df_db" /\ ~ In c (columns df_db)).
Proof.
  induction pks as [|pk pks IH]; simpl.
  - left. split; [reflexivity | intros pk []].
  - destruct (mem pk (columns df_new)) eqn:Hn; simpl.
    + destruct (mem pk (columns df_db)) eqn:Hd; simpl.
      * apply mem_In in Hn, Hd.
        destruct IH as [[-> IH] | (t & c & -> & Hc & Ht)].
        -- left. split; [reflexivity|]. intros x [<-|Hx]; auto.
        -- right. exists t, c. split; [reflexivity | split; [now right | exact Ht]].
      * apply mem_false in Hd. right. exists "df_db", pk.
        split; [reflexivity | split; [now left | right; now split]].
    + apply mem_false in Hn. right. exists "df_new", pk.
      split; [reflexivity | split; [now left | left; now split]].
Qed.

(** The null check returns normally exactly when no key column holds a
    null; otherwise it names a key column, a table and the number of nulls
    of that column in that table. *)
Lemma check_pk_nulls_spec (pks : list string) (df_new df_db : DataFrame) :
  (check_pk_nulls pks df_new df_db = Ok tt
   /\ forall pk, In pk pks -> null_count df_new pk = 0%nat
                              /\ null_count df_db pk = 0%nat)
  \/ exists table c n,
       check_pk_nulls pks df_new df_db = Raise (NullPrimaryKeyValue table c n)
       /\ In c pks /\ (0 < n)%nat
       /\ (table = "df_new" /\ n = null_count df_new c
           \/ table = "df_db" /\ n = null_count df_db c).
Proof.
  induction pks as [|pk pks IH]; simpl.
  - left. split; [reflexivity | intros pk []].
  - destruct (Nat.ltb_spec 0 (null_count df_new pk)) as [Hn|Hn].
    + right. exists "df_new", pk, (null_count df_new pk).
      split; [reflexivity | split; [now left | split; [exact Hn | left; now split]]].
    + destruct (Nat.ltb_spec 0 (null_count df_db pk)) as [Hd|Hd].
      * right. exists "df_db", pk, (null_count df_db pk).
        split; [reflexivity | split; [now left | split; [exact Hd | right; now split]]].
      * destruct IH as [[-> IH] | (t & c & n & -> & Hc & Hpos & Ht)].
        -- left. split; [reflexivity|].
           intros x [<-|Hx]; [split; lia | auto].
        -- right. exists t, c, n.
           split; [reflexivity | split; [now right | split; [exact Hpos | exact Ht]]].
Qed.

(** C3: [split] checks the key columns on the tables as given and fails
    before any coercion, whatever the runtime and the model registered
    under the schema name: an empty key list raises EmptyPrimaryKeyList; a
    key column missing from either table raises MissingPrimaryKeyColumn
    with that table and column; with every key column present, a null in a
    key column of either table raises NullPrimaryKeyValue with the table,
    the column and its number of nulls. *)
Theorem split_checks_primary_keys (df_new df_db : DataFrame)
  (pks : list string) (schema_name : string) :
  (pks = [] ->
   forall (rt' : Runtime) self s,
     schema_mapping self !! schema_name = Some s ->
     @split_dataframe rt' self df_new df_db pks schema_name
     = Raise EmptyPrimaryKeyList)
  /\ ((exists pk, In pk pks
                  /\ (~ In pk (columns df_new) \/ ~ In pk (columns df_db))) ->
      exists table c,
        In c pks
        /\ (table = "df_new" /\ ~ In c (columns df_new)
            \/ table = "df_db" /\ ~ In c (columns df_db))
        /\ forall (rt' : Runtime) self s,
             schema_mapping self !! schema_name = Some s ->
             @split_dataframe rt' self df_new df_db pks schema_name
             = Raise (MissingPrimaryKeyColumn table c))
  /\ ((forall pk, In pk pks -> In pk (columns df_new) /\ In pk (columns df_db)) ->
      (exists pk r, In pk pks
                    /\ (In r (df_rows df_new) \/ In r (df_rows df_db))
                    /\ cell r pk = VNone) ->
      exists table c n,
        In c pks /\ (0 < n)%nat
        /\ (table = "df_new" /\ n = null_count df_new c
            \/ table = "df_db" /\ n = null_count df_db c)
        /\ forall (rt' : Runtime) self s,
             schema_mapping self !! schema_name = Some s ->
             @split_dataframe rt' self df_new df_db pks schema_name
             = Raise (NullPrimaryKeyValue table c n)).
Proof.
  split; [|split].
  - intros -> rt' self s Hs. unfold split_dataframe. now rewrite Hs.
  - intros (pk & Hpk & Hmiss).
    destruct (check_pk_columns_spec pks df_new df_db)
      as [[_ Hall] | (t & c & Hc & Hin & Ht)].
    + exfalso. destruct (Hall pk Hpk). tauto.
    + exists t, c. split; [exact Hin | split; [exact Ht|]].
      intros rt' self s Hs. unfold split_dataframe. rewrite Hs.
      destruct pks as [|pk0 rest]; [contradiction|]. now rewrite Hc.
  - intros Hall (pk & r & Hpk & Hr & Hnull).
    destruct (check_pk_columns_spec pks df_new df_db)
      as [[Hc _] | (t & c & _ & Hin & Ht)].
    2:{ exfalso. destruct (Hall c Hin). tauto. }
    destruct (check_pk_nulls_spec pks df_new df_db)
      as [[_ Hzero] | (t & c & n & Hn & Hin & Hpos & Ht)].
    + exfalso. destruct (Hzero pk Hpk) as [Z1 Z2].
      destruct Hr as [Hr|Hr].
      * assert (0 < null_count df_new pk)%nat by (apply null_count_pos; eauto). lia.
      * assert (0 < null_count df_db pk)%nat by (apply null_count_pos; eauto). lia.
    + exists t, c, n. repeat (split; [assumption|]).
      intros rt' self s Hs. unfold split_dataframe. rewrite Hs.
      destruct pks as [|pk0 rest]; [contradiction|]. now rewrite Hc, Hn.
Qed.

(** The column type of a field is read off the field's own type and
    format; alternatives are looked at only under the type ["null"]. *)
Lemma polars_type_column (fi : field_info) :
  fi_type fi <> Some "null" ->
  column_type (fi_type fi) (fi_format fi) (polars_type fi).
Proof.
  intros Hn.
  assert (Hr : resolve fi = (fi_type fi, fi_format fi)).
  { unfold resolve. destruct (fi_anyOf fi) as [alts|]; [|reflexivity].
    destruct (fi_type fi) as [ty|]; simpl; [|reflexivity].
    destruct (String.eqb_spec ty "null") as [->|_]; [congruence | reflexivity]. }
  unfold polars_type. rewrite Hr.
  destruct (fi_type fi) as [ty|]; simpl.
  2:{ apply other_column; discriminate. }
  destruct (String.eqb_spec ty "integer") as [->|N1]; [constructor|].
  destruct (String.eqb_spec ty "number") as [->|N2]; [constructor|].
  destruct (String.eqb_spec ty "string") as [->|N3].
  - destruct (fi_format fi) as [f|]; simpl.
    + destruct (String.eqb_spec f "date-time") as [->|F1]; [constructor|].
      destruct (String.eqb_spec f "date") as [->|F2]; [constructor|].
      apply text_column; congruence.
    + apply text_column; discriminate.
  - destruct (String.eqb_spec ty "boolean") as [->|N4]; [constructor|].
    apply other_column; congruence.
Qed.

(** C4: once the key checks have passed, an empty new table gives three
    empty tables, whatever rows the stored table holds, with one column
    per field of the schema, in order, typed by the field's own JSON type
    and format; and an empty stored table with a non-empty new table gives
    the new table itself as ToInsert, with empty Unchanged and ToUpdate
    tables that carry the column types of the new table.  A field without
    a type of its own is a text column: the wrapper of an optional field
    is not resolved, so on the schema [id: int, edad: Optional[int]] the
    schema declares [edad] an integer column and the empty tables have it
    as text. *)
Theorem split_empty_inputs (self : PolarsCaster) (df_new df_db : DataFrame)
  (pks : list string) (schema_name : string) (s : schema) :
  schema_mapping self !! schema_name = Some s ->
  pks <> [] ->
  check_pk_columns pks df_new df_db = Ok tt ->
  check_pk_nulls pks df_new df_db = Ok tt ->
  (df_rows df_new = [] ->
   exists empty_df,
     split_dataframe self df_new df_db pks schema_name
     = Ok (empty_df, empty_df, empty_df)
     /\ df_rows empty_df = []
     /\ Forall2 (fun '(field_name, fi) '(column, t) =>
                   column = field_name
                   /\ (fi_type fi <> Some "null" ->
                       column_type (fi_type fi) (fi_format fi) t))
                (properties s) (df_schema empty_df))
  /\ (df_rows df_new <> [] -> df_rows df_db = [] ->
      exists empty_df,
        split_dataframe self df_new df_db pks schema_name
        = Ok (df_new, empty_df, empty_df)
        /\ df_rows empty_df = []
        /\ df_schema empty_df = df_schema df_new)
  /\ declared_column (Sample.json_field TInt true) Int64
  /\ @split_dataframe Sample.plain Sample.caster Sample.personas_none
       Sample.personas_db ["id"] "persona"
     = Ok (Sample.personas_typed, Sample.personas_typed, Sample.personas_typed)
  /\ df_schema Sample.personas_typed = [("id", Int64); ("edad", Utf8)].
Proof.
  intros Hs Hpks Hc Hn. unfold split_dataframe at 1 2. rewrite Hs.
  destruct pks as [|pk0 rest]; [congruence|]. rewrite Hc, Hn.
  rewrite !bind_ret.
  split; [|split; [|split; [|split]]].
  - intros En. apply is_empty_rows in En. rewrite En.
    eexists. split; [reflexivity|]. split; [reflexivity|].
    simpl. unfold _get_polars_schema.
    induction (properties s) as [|[field_name fi] props IH]; simpl; constructor.
    + split; [reflexivity | apply polars_type_column].
    + exact IH.
  - intros En Ed. apply is_empty_false in En. apply is_empty_rows in Ed.
    rewrite En, Ed. eexists. split; [reflexivity|]. split; reflexivity.
  - exists [], (mktype (Some "integer") None), [mktype (Some "null") None].
    split; [reflexivity|]. split; [constructor|]. split; [discriminate|].
    constructor.
  - vm_compute; reflexivity.
  - reflexivity.
Qed.

Lemma is_identical_false (pks : list string) (row_new row_db : row) :
  is_identical pks row_new row_db = false <-> ~ row_unchanged pks row_new row_db.
Proof.
  rewrite <- is_identical_spec.
  destruct (is_identical pks row_new row_db); split; congruence.
Qed.

Lemma in_frame_filter (p : row -> bool) (df : DataFrame) (r : row) :
  In r (df_rows (frame_filter p df)) <-> In r (df_rows df) /\ p r = true.
Proof. apply filter_In. Qed.

(** The loop over keys that are in both coerced tables always finds its
    two rows: it never raises. *)
Lemma classify_returns (pks : list string) (pk0 : string)
  (casted_new casted_db : DataFrame) (ids : list pyvalue) :
  (forall i, In i ids ->
             In i (key_column casted_new pk0)
             /\ is_in i (key_column casted_db pk0) = true) ->
  exists equals_ids update_ids,
    classify pks pk0 casted_new casted_db ids = Ok (equals_ids, update_ids).
Proof.
  induction ids as [|i ids IH]; intros Hids; simpl.
  - eauto.
  - destruct (Hids i (or_introl eq_refl)) as [Hn Hd].
    apply is_in_spec in Hd as (j & Hj & Hm).
    destruct (first_row_of_match casted_new pk0 i) as [rn ->].
    { unfold key_column in Hn. apply in_map_iff in Hn as (r & <- & Hr).
      exists r. split; [exact Hr|]. now apply polars_eqb_left in Hm. }
    destruct (first_row_of_match casted_db pk0 i) as [rd ->].
    { unfold key_column in Hj. apply in_map_iff in Hj as (r & <- & Hr).
      exists r. split; [exact Hr|]. now rewrite polars_eqb_sym. }
    destruct IH as (eqs & upds & ->); [intros x Hx; apply Hids; now right|].
    simpl. destruct (is_identical pks rn rd); eauto.
Qed.

(** With rows on both sides, [split] returns its three tables as soon as
    the checks pass, both coercions return and the coerced tables have the
    key columns. *)
Lemma split_general_returns (self : PolarsCaster) (df_new df_db : DataFrame)
  (pks : list string) (schema_name : string) (casted_new casted_db : DataFrame) :
  pks <> [] -> nodupb pks = true ->
  check_pk_columns pks df_new df_db = Ok tt ->
  check_pk_nulls pks df_new df_db = Ok tt ->
  df_rows df_new <> [] -> df_rows df_db <> [] ->
  cast_dataframe self df_new schema_name = Ok casted_new ->
  cast_dataframe self df_db schema_name = Ok casted_db ->
  (forall pk, In pk pks -> In pk (columns casted_new) /\ In pk (columns casted_db)) ->
  exists ins eq upd,
    split_dataframe self df_new df_db pks schema_name = Ok (ins, eq, upd).
Proof.
  intros Hpks Hnd Hc Hn En Ed Hcn Hcd Hcols.
  unfold split_dataframe.
  destruct (schema_mapping self !! schema_name) as [s|] eqn:Hs.
  2:{ unfold cast_dataframe in Hcn. rewrite Hs in Hcn. discriminate. }
  destruct pks as [|pk0 rest] eqn:Epks; [congruence|]. rewrite <- Epks in *.
  rewrite Hc, Hn. simpl.
  apply is_empty_false in En, Ed. rewrite En, Ed, Hcn, Hcd. simpl.
  rewrite (select_column_returns casted_db pks pk0)
    by (auto; intros x Hx; now apply Hcols).
  simpl.
  rewrite (select_column_returns _ pks pk0)
    by (auto; intros x Hx; now apply Hcols).
  simpl.
  destruct (classify_returns pks pk0 casted_new casted_db
              (key_column (frame_filter
                             (fun r => is_in (cell r pk0) (key_column casted_db pk0))
                             casted_new) pk0))
    as (eqs & upds & ->).
  - intros i Hi. now apply in_ids_in_both.
  - simpl. eauto.
Qed.

Lemma filter_first {A : Type} (p : A -> bool) (l1 l2 : list A) (x : A) :
  p x = true -> (forall y, In y l1 -> p y = false) ->
  List.filter p (l1 ++ x :: l2) = x :: List.filter p l2.
Proof.
  intros Hx Hl. rewrite List.filter_app, (filter_none p l1 Hl). simpl. now rewrite Hx.
Qed.

(** [to_dicts()[0]] of the filtered table is the first row that carries the
    key. *)
Lemma first_row_iff (df : DataFrame) (pk : string) (id_val : pyvalue) (r : row) :
  first_row df pk id_val = Ok r <-> first_with_key df pk id_val r.
Proof.
  split.
  - intros H. apply first_row_spec in H as (l1 & l2 & H1 & H2 & H3).
    now exists l1, l2.
  - intros (l1 & l2 & H1 & H2 & H3). unfold first_row. rewrite H1.
    now rewrite (filter_first (fun x => polars_eqb (cell x pk) id_val) l1 l2 r H2 H3).
Qed.

(** C1: when both tables have rows and [split] returns, every key value
    that is in both coerced tables has a first coerced row on each side,
    the first row of that coerced table whose key cell matches; an
    original new-table row is in Unchanged exactly when its key is such a
    value and those two first rows compare equal on every non-key field
    (both null; or both a date or timestamp on the same calendar date; or
    equal values, with exactly one null never equal), and in ToUpdate
    exactly when they do not.  The output tables hold rows of the original
    new table, in its order and with its schema. *)
Theorem split_compares_coerced_rows (self : PolarsCaster)
  (df_new df_db : DataFrame) (pks : list string) (schema_name : string)
  (ins eq upd : DataFrame) :
  split_dataframe self df_new df_db pks schema_name = Ok (ins, eq, upd) ->
  df_rows df_new <> [] -> df_rows df_db <> [] ->
  exists pk0 casted_new casted_db,
    hd_error pks = Some pk0
    /\ cast_dataframe self df_new schema_name = Ok casted_new
    /\ cast_dataframe self df_db schema_name = Ok casted_db
    /\ (forall id_val,
          In id_val (key_column casted_new pk0) ->
          is_in id_val (key_column casted_db pk0) = true ->
          exists row_new row_db,
            first_with_key casted_new pk0 id_val row_new
            /\ first_with_key casted_db pk0 id_val row_db)
    /\ (forall r, In r (df_rows eq) <->
                  In r (df_rows df_new)
                  /\ matched pks pk0 casted_new casted_db r true)
    /\ (forall r, In r (df_rows upd) <->
                  In r (df_rows df_new)
                  /\ matched pks pk0 casted_new casted_db r false)
    /\ (exists keep, eq = frame_filter keep df_new)
    /\ (exists keep, upd = frame_filter keep df_new).
Proof.
  intros H Hn Hd.
  apply split_dataframe_inv in H as (pk0 & rest & -> & _ & _ & H).
  destruct H as [s Hs E | E | cn cd eqs upds _ _ Hcn Hcd Hcl]; try contradiction.
  exists pk0, cn, cd.
  pose proof (classify_spec _ _ _ _ _ _ _ Hcl) as Hspec.
  split; [reflexivity | split; [exact Hcn | split; [exact Hcd|]]].
  split; [|split; [|split; [|split]]].
  - intros id_val H1 H2.
    destruct (proj1 (Hspec id_val)) as (rn & rd & F1 & F2);
      [apply in_ids_in_both; auto|].
    exists rn, rd. split; now apply first_row_iff.
  - intros r. rewrite in_frame_filter, is_in_spec. split.
    + intros [Hr (i & Hi & Hm)]. split; [exact Hr|].
      apply (Hspec i) in Hi as [Hi (rn & rd & H1 & H2 & H3)].
      apply in_ids_in_both in Hi as [Hi1 Hi2].
      apply first_row_iff in H1, H2.
      exists i, rn, rd. repeat (split; [assumption|]).
      now apply is_identical_spec.
    + intros [Hr (i & rn & rd & Hi1 & Hi2 & Hm & H1 & H2 & H3)].
      apply first_row_iff in H1, H2.
      split; [exact Hr|]. exists i. split; [|exact Hm].
      apply (Hspec i). split; [apply in_ids_in_both; auto|].
      exists rn, rd. repeat (split; [assumption|]). now apply is_identical_spec.
  - intros r. rewrite in_frame_filter, is_in_spec. split.
    + intros [Hr (i & Hi & Hm)]. split; [exact Hr|].
      apply (Hspec i) in Hi as [Hi (rn & rd & H1 & H2 & H3)].
      apply in_ids_in_both in Hi as [Hi1 Hi2].
      apply first_row_iff in H1, H2.
      exists i, rn, rd. repeat (split; [assumption|]).
      now apply is_identical_false.
    + intros [Hr (i & rn & rd & Hi1 & Hi2 & Hm & H1 & H2 & H3)].
      apply first_row_iff in H1, H2.
      split; [exact Hr|]. exists i. split; [|exact Hm].
      apply (Hspec i). split; [apply in_ids_in_both; auto|].
      exists rn, rd. repeat (split; [assumption|]). now apply is_identical_false.
  - eexists. reflexivity.
  - eexists. reflexivity.
Qed.

Lemma cast_dataframe_of_empty (self : PolarsCaster) (df casted : DataFrame)
  (schema_name : string) :
  df_rows df = [] -> cast_dataframe self df schema_name = Ok casted ->
  df_rows casted = [].
Proof.
  intros E. unfold cast_dataframe.
  destruct (schema_mapping self !! schema_name); [|discriminate].
  apply is_empty_rows in E. rewrite E. intros H. now injection H as <-.
Qed.

Lemma split_outputs_from_new (self : PolarsCaster) (df_new df_db : DataFrame)
  (pks : list string) (schema_name : string) (pk0 : string)
  (ins eq upd : DataFrame) (r : row) :
  split_outcome self df_new df_db pks schema_name pk0 ins eq upd ->
  In r (df_rows ins) \/ In r (df_rows eq) \/ In r (df_rows upd) ->
  In r (df_rows df_new).
Proof.
  intros [s Hs E | E1 E2 | cn cd eqs upds _ _ _ _ _].
  - simpl. tauto.
  - simpl. tauto.
  - rewrite !in_frame_filter. tauto.
Qed.

(** C2: [split] partitions by the first key column alone, while every
    column of the key list is checked for existence and nulls.  A row of
    the original new table whose first-key value is not among the
    first-key values of the coerced stored table is in ToInsert; every
    output row is a row of the new table, so a key value that the new
    table lacks is in none of the three outputs.  On a key of two columns,
    a new row that agrees with a stored row on the first column only is
    not inserted, and a second column that a table lacks is still
    reported. *)
Theorem split_partitions_by_first_key (self : PolarsCaster)
  (df_new df_db : DataFrame) (pks : list string) (schema_name : string)
  (ins eq upd : DataFrame) :
  split_dataframe self df_new df_db pks schema_name = Ok (ins, eq, upd) ->
  (exists pk0,
    hd_error pks = Some pk0
    /\ (forall pk, In pk pks ->
          In pk (columns df_new) /\ In pk (columns df_db)
          /\ null_count df_new pk = 0%nat /\ null_count df_db pk = 0%nat)
    /\ (forall casted_db r,
          cast_dataframe self df_db schema_name = Ok casted_db ->
          In r (df_rows df_new) ->
          is_in (cell r pk0) (key_column casted_db pk0) = false ->
          In r (df_rows ins))
    /\ (df_rows df_new <> [] -> df_rows df_db <> [] ->
        exists casted_db,
          cast_dataframe self df_db schema_name = Ok casted_db
          /\ forall r, In r (df_rows ins) <->
                       In r (df_rows df_new)
                       /\ is_in (cell r pk0) (key_column casted_db pk0) = false)
    /\ (forall r, In r (df_rows ins) \/ In r (df_rows eq) \/ In r (df_rows upd) ->
                  In r (df_rows df_new))
    /\ (forall key,
          (forall r, In r (df_rows df_new) -> polars_eqb (cell r pk0) key = false) ->
          forall r, In r (df_rows ins) \/ In r (df_rows eq) \/ In r (df_rows upd) ->
                    polars_eqb (cell r pk0) key = false))
  /\ @split_dataframe Sample.plain Sample.caster Sample.pairs_new Sample.pairs_db
       ["a"; "b"] "pair"
     = Ok (empty_frame (df_schema Sample.pairs_new), Sample.pairs_new,
           empty_frame (df_schema Sample.pairs_new))
  /\ @split_dataframe Sample.plain Sample.caster Sample.pairs_new Sample.pairs_db
       ["a"; "c"] "pair"
     = Raise (MissingPrimaryKeyColumn "df_new" "c").
Proof.
  intros H. split; [|split; vm_compute; reflexivity].
  apply split_dataframe_inv in H as (pk0 & rest & -> & Hc & Hn & H).
  exists pk0. split; [reflexivity|].
  assert (Hout : forall r,
             In r (df_rows ins) \/ In r (df_rows eq) \/ In r (df_rows upd) ->
             In r (df_rows df_new))
    by (intros r; now apply (split_outputs_from_new _ _ _ _ _ _ _ _ _ _ H)).
  split; [|split; [|split; [|split]]].
  - intros pk Hpk.
    destruct (check_pk_columns_spec (pk0 :: rest) df_new df_db)
      as [[_ Hall] | (t & c & E & _)]; [|congruence].
    destruct (check_pk_nulls_spec (pk0 :: rest) df_new df_db)
      as [[_ Hzero] | (t & c & n & E & _)]; [|congruence].
    destruct (Hall pk Hpk), (Hzero pk Hpk). auto.
  - intros cd r Hcd Hr Hin.
    destruct H as [s Hs E | E1 E2 | cn cd' eqs upds _ _ _ Hcd' _].
    + rewrite E in Hr. contradiction.
    + exact Hr.
    + apply in_frame_filter. split; [exact Hr|].
      assert (cd' = cd) as -> by congruence. now rewrite Hin.
  - intros En Ed.
    destruct H as [s Hs E | E1 E2 | cn cd eqs upds _ _ _ Hcd _]; try contradiction.
    exists cd. split; [exact Hcd|]. intros r.
    rewrite in_frame_filter, negb_true_iff. reflexivity.
  - exact Hout.
  - intros key Hkey r Hr. apply Hkey, Hout, Hr.
Qed.

Lemma cast_rows_skip (s : schema) (r : row) (p : list (string * pyvalue))
  (l1 l2 : list row) :
  cast_row s r = Raise (RowValidationFailure p) ->
  cast_rows s (l1 ++ r :: l2) = cast_rows s (l1 ++ l2).
Proof.
  intros Hr. induction l1 as [|x l1 IH]; simpl.
  - now rewrite Hr.
  - rewrite IH. reflexivity.
Qed.

(** A row whose validation fails leaves no trace in the coerced table: the
    table is coerced as if the row were not there. *)
Lemma cast_dataframe_skip (self : PolarsCaster) (s : schema) (schema_name : string)
  (df : DataFrame) (r : row) (p : list (string * pyvalue)) (l1 l2 : list row) :
  schema_mapping self !! schema_name = Some s ->
  cast_row s r = Raise (RowValidationFailure p) ->
  df_rows df = (l1 ++ r :: l2)%list ->
  cast_dataframe self df schema_name
  = cast_dataframe self (mkframe (df_schema df) (l1 ++ l2)) schema_name.
Proof.
  intros Hs Hr E. unfold cast_dataframe, is_empty. rewrite Hs, E. simpl.
  rewrite (cast_rows_skip s r p l1 l2 Hr).
  destruct l1 as [|x l1]; simpl; [|reflexivity].
  destruct l2 as [|y l2]; simpl; reflexivity.
Qed.

(** C9, amended: a new-table row whose validation fails is left out of the
    coerced new table, which is coerced as if the row were absent.  When
    its first-key value is not among the keys of the coerced stored table,
    the row is in ToInsert, as it was given.  When its first-key value is
    among the keys of the coerced stored table and no row of the coerced
    new table carries that key, the row is in none of the three outputs;
    so the outputs do not always partition the rows of the new table. *)
Theorem failed_row_outcome (self : PolarsCaster) (df_new df_db : DataFrame)
  (pks : list string) (schema_name : string) (s : schema) (r : row)
  (p : list (string * pyvalue)) (casted_new casted_db ins eq upd : DataFrame) :
  schema_mapping self !! schema_name = Some s ->
  In r (df_rows df_new) ->
  cast_row s r = Raise (RowValidationFailure p) ->
  cast_dataframe self df_new schema_name = Ok casted_new ->
  cast_dataframe self df_db schema_name = Ok casted_db ->
  split_dataframe self df_new df_db pks schema_name = Ok (ins, eq, upd) ->
  (exists pk0,
     hd_error pks = Some pk0
     /\ (forall l1 l2,
           df_rows df_new = (l1 ++ r :: l2)%list ->
           cast_dataframe self (mkframe (df_schema df_new) (l1 ++ l2)) schema_name
           = Ok casted_new)
     /\ (is_in (cell r pk0) (key_column casted_db pk0) = false ->
         In r (df_rows ins))
     /\ (is_in (cell r pk0) (key_column casted_db pk0) = true ->
         is_in (cell r pk0) (key_column casted_new pk0) = false ->
         ~ In r (df_rows ins) /\ ~ In r (df_rows eq) /\ ~ In r (df_rows upd)))
  /\ (In Sample.bad_row (df_rows Sample.lone_new)
      /\ exists ins' eq' upd',
           @split_dataframe Sample.plain Sample.caster Sample.lone_new
             Sample.items_db ["id"] "item" = Ok (ins', eq', upd')
           /\ ~ In Sample.bad_row (df_rows ins' ++ df_rows eq' ++ df_rows upd')%list).
Proof.
  intros Hs Hr Hfail Hcn Hcd H. split.
  - apply split_dataframe_inv in H as (pk0 & rest & -> & _ & _ & H).
    exists pk0. split; [reflexivity|]. split; [|split].
    + intros l1 l2 E. now rewrite <- (cast_dataframe_skip self s _ _ r p l1 l2 Hs Hfail E).
    + intros Hin.
      destruct H as [s' Hs' E | E1 E2 | cn cd eqs upds _ _ _ Hcd' _].
      * rewrite E in Hr. contradiction.
      * exact Hr.
      * apply in_frame_filter. split; [exact Hr|].
        assert (cd = casted_db) as -> by congruence. now rewrite Hin.
    + intros Hdb Hnew.
      destruct H as [s' Hs' E | E1 E2 | cn cd eqs upds _ _ Hcn' Hcd' Hcl].
      * rewrite E in Hr. contradiction.
      * exfalso. unfold key_column in Hdb.
        rewrite (cast_dataframe_of_empty _ _ _ _ E2 Hcd) in Hdb. discriminate Hdb.
      * assert (cd = casted_db) as -> by congruence.
        assert (cn = casted_new) as -> by congruence.
        pose proof (classify_spec _ _ _ _ _ _ _ Hcl) as Hspec.
        assert (Hno : forall ids,
                   (forall i, In i ids ->
                              In i (key_column
                                      (frame_filter
                                         (fun r0 => is_in (cell r0 pk0)
                                                      (key_column casted_db pk0))
                                         casted_new) pk0)) ->
                   is_in (cell r pk0) ids = false).
        { intros ids Hids. destruct (is_in (cell r pk0) ids) eqn:E; [|reflexivity].
          apply is_in_spec in E as (i & Hi & Hm).
          apply Hids, in_ids_in_both in Hi as [Hi _].
          assert (is_in (cell r pk0) (key_column casted_new pk0) = true)
            by (apply is_in_spec; eauto).
          congruence. }
        rewrite !in_frame_filter, Hdb. simpl.
        rewrite (Hno eqs), (Hno upds).
        -- repeat split; intros [_ F]; discriminate F.
        -- intros i Hi. now apply (Hspec i) in Hi.
        -- intros i Hi. now apply (Hspec i) in Hi.
  - split; [now left|].
    exists Sample.lone_insert, Sample.lone_empty, Sample.lone_empty.
    split; [vm_compute; reflexivity|].
    simpl. intros [F|[]]. discriminate F.
Qed.

End ReconcilerFacts.

(** ** Closed instances *)

(** C9 as stated fails: of two new rows with the key 1, the first cannot
    be coerced and fails validation, its key is among the keys of the
    coerced stored table, and yet [split] puts it into Unchanged, because
    the second row carries the same key. *)
Lemma failed_row_in_unchanged :
  In Sample.bad_row (df_rows Sample.items_new)
  /\ @cast_row Sample.plain Sample.item Sample.bad_row
     = Raise (RowValidationFailure Sample.bad_row_processed)
  /\ @cast_dataframe Sample.plain Sample.caster Sample.items_db "item"
     = Ok Sample.items_db_casted
  /\ is_in (cell Sample.bad_row "id") (key_column Sample.items_db_casted "id") = true
  /\ exists ins eq upd,
       @split_dataframe Sample.plain Sample.caster Sample.items_new
         Sample.items_db ["id"] "item" = Ok (ins, eq, upd)
       /\ In Sample.bad_row (df_rows eq).
Proof.
  split; [now left|].
  split; [vm_compute; reflexivity|].
  split; [vm_compute; reflexivity|].
  split; [vm_compute; reflexivity|].
  exists Sample.lone_empty, Sample.items_new, Sample.lone_empty.
  split; [vm_compute; reflexivity | now left].
Qed.

Lemma failed_row_outcome_witness :
  ~ In Sample.bad_row (df_rows Sample.lone_insert)
  /\ ~ In Sample.bad_row (df_rows Sample.lone_empty)
  /\ ~ In Sample.bad_row (df_rows Sample.lone_empty).
Proof.
  destruct (@failed_row_outcome Sample.plain Sample.caster Sample.lone_new
              Sample.items_db ["id"] "item" Sample.item Sample.bad_row
              Sample.bad_row_processed Sample.lone_casted Sample.items_db_casted
              Sample.lone_insert Sample.lone_empty Sample.lone_empty)
    as [(pk0 & Hpk & _ & _ & Hnone) _].
  - vm_compute; reflexivity.
  - now left.
  - vm_compute; reflexivity.
  - vm_compute; reflexivity.
  - vm_compute; reflexivity.
  - vm_compute; reflexivity.
  - injection Hpk as <-. apply Hnone; vm_compute; reflexivity.
Defined.

Lemma split_compares_coerced_rows_witness :
  matched ["id"] "id" Sample.events_new_casted Sample.events_db
    [("id", VInt 1); ("at", Sample.moment 2024 1 15 10 30); ("qty", VStr "5")]
    true
  /\ matched ["id"] "id" Sample.events_new_casted Sample.events_db
       [("id", VInt 2); ("at", Sample.moment 2024 1 16 9 0); ("qty", VStr "5")]
       false
  /\ matched ["id"] "id" Sample.events_new_casted Sample.events_db
       [("id", VInt 3); ("at", Sample.moment 2024 1 17 8 0); ("qty", VStr "8")]
       false.
Proof.
  destruct (@split_compares_coerced_rows Sample.plain Sample.events
              Sample.events_new Sample.events_db ["id"] "event"
              Sample.events_insert Sample.events_equal Sample.events_update)
    as (pk0 & cn & cd & Hpk & Hcn & Hcd & _ & Heq & Hupd & _).
  - vm_compute; reflexivity.
  - discriminate.
  - discriminate.
  - injection Hpk as <-.
    assert (cn = Sample.events_new_casted) as ->
      by (vm_compute in Hcn; injection Hcn as <-; reflexivity).
    assert (cd = Sample.events_db) as ->
      by (vm_compute in Hcd; injection Hcd as <-; reflexivity).
    split; [|split].
    + apply (proj1 (Heq _)). now left.
    + apply (proj1 (Hupd _)). now left.
    + apply (proj1 (Hupd _)). right. now left.
Defined.

Lemma split_partitions_by_first_key_witness :
  In [("id", VInt 1); ("edad", VInt 25)] (df_rows Sample.personas_insert).
Proof.
  destruct (proj1 (@split_partitions_by_first_key Sample.plain Sample.caster
              Sample.personas_new Sample.personas_db ["id"] "persona"
              Sample.personas_insert Sample.personas_equal Sample.personas_update
              ltac:(vm_compute; reflexivity)))
    as (pk0 & Hpk & _ & Hins & _).
  injection Hpk as <-.
  apply (Hins Sample.personas_db_casted).
  - vm_compute; reflexivity.
  - now left.
  - vm_compute; reflexivity.
Defined.

Lemma split_checks_primary_keys_witness :
  exists table c n,
    In c ["id"] /\ (0 < n)%nat
    /\ (table = "df_new" /\ n = null_count Sample.items_new c
        \/ table = "df_db" /\ n = null_count Sample.nulls_db c)
    /\ forall (rt' : Runtime) self s,
         schema_mapping self !! "item" = Some s ->
         @split_dataframe rt' self Sample.items_new Sample.nulls_db ["id"] "item"
         = Raise (NullPrimaryKeyValue table c n).
Proof.
  apply (proj2 (proj2 (split_checks_primary_keys Sample.items_new Sample.nulls_db
                         ["id"] "item"))).
  - intros pk [<-|[]]. split; simpl; auto.
  - exists "id", [("id", VNone); ("x", VInt 5)]. split; [now left|].
    split; [right; now left | reflexivity].
Defined.

Lemma split_empty_inputs_witness :
  exists empty_df,
    @split_dataframe Sample.plain Sample.caster Sample.personas_none
      Sample.personas_db ["id"] "persona" = Ok (empty_df, empty_df, empty_df)
    /\ df_rows empty_df = []
    /\ Forall2 (fun '(field_name, fi) '(column, t) =>
                  column = field_name
                  /\ (fi_type fi <> Some "null" ->
                      column_type (fi_type fi) (fi_format fi) t))
               (properties Sample.persona) (df_schema empty_df).
Proof.
  apply (proj1 (@split_empty_inputs Sample.plain Sample.caster
                  Sample.personas_none Sample.personas_db ["id"] "persona"
                  Sample.persona
                  ltac:(vm_compute; reflexivity) ltac:(discriminate)
                  ltac:(vm_compute; reflexivity) ltac:(vm_compute; reflexivity))).
  reflexivity.
Defined.

Lemma attempt_cast_integer_rule_witness :
  @attempt_cast Sample.plain (VFloat (S754_finite false 1 (-1))) TInt = Ok VNone.
Proof.
  apply (proj1 (proj2 (proj2 (@attempt_cast_integer_rule Sample.plain)))).
  intros n H. simpl in H. lia.
Defined.

Lemma attempt_cast_boolean_rule_witness :
  @attempt_cast Sample.plain (VStr " NO ") TBool = Ok (VBool false).
Proof.
  apply (proj1 (proj2 (@attempt_cast_boolean_rule Sample.plain)) " NO " "no").
  - right. now left.
  - exists [" "%char], ["N"%char; "O"%char], [" "%char].
    split; [reflexivity|].
    split; [apply forallb_space_white; reflexivity|].
    split; [apply forallb_space_white; reflexivity|].
    apply (proj1 (lower_spells ["N"%char; "O"%char] ["n"%char; "o"%char] eq_refl)).
    reflexivity.
Defined.

Lemma attempt_cast_idempotent_witness :
  exists r, @attempt_cast Sample.plain (VStr "12.0") TInt = Ok r
            /\ @attempt_cast Sample.plain r TInt = Ok r.
Proof.
  apply attempt_cast_idempotent; discriminate.
Defined.

Lemma manual_fallback_three_parts_witness :
  manual_fallback (joined "/" "13" "1" "2021") = Ok (Some (mkdate 2021 1 13))
  /\ @parse_date Sample.plain (VStr (joined "/" "13" "13" "2021"))
     = Raise RecursionError
  /\ @attempt_cast Sample.plain (VStr (joined "/" "13" "13" "2021")) TDate
     = Raise RecursionError.
Proof.
  assert (Hnum : forall p, PyStr.all_digits p = true ->
                           (String.length p <=? PyStr.int_max_str_digits)%nat = true ->
                           numeric_part p).
  { intros p H1 H2. split; [exact H1 | now apply Nat.leb_le]. }
  split.
  - destruct (@manual_fallback_three_parts Sample.plain "/" "13" "1" "2021"
                (or_introl eq_refl) (Hnum "13" eq_refl eq_refl)
                (Hnum "1" eq_refl eq_refl) (Hnum "2021" eq_refl eq_refl))
      as (_ & Hlast & _).
    apply Hlast; [discriminate | reflexivity | reflexivity | reflexivity].
  - destruct (@manual_fallback_three_parts Sample.plain "/" "13" "13" "2021"
                (or_introl eq_refl) (Hnum "13" eq_refl eq_refl)
                (Hnum "13" eq_refl eq_refl) (Hnum "2021" eq_refl eq_refl))
      as (_ & _ & _ & _ & _ & _ & _ & Hgive).
    apply Hgive; vm_compute; reflexivity.
Defined.

(** * Further properties of the code *)

(** ** The coercion engine, all six targets *)

Lemma isinstance_pass_through {rt : Runtime} (r : pyvalue) (T : target_type) :
  isinstance r T = true -> attempt_cast r T = Ok r.
Proof.
  intros H. unfold attempt_cast. rewrite H. now destruct r.
Qed.

Lemma opt_value_instance {A : Type} (inj : A -> pyvalue) (o : option A)
  (T : target_type) :
  (forall a, isinstance (inj a) T = true) ->
  opt_value inj o = VNone \/ isinstance (opt_value inj o) T = true.
Proof.
  intros H. destruct o as [a|]; simpl; [right; apply H | now left].
Qed.

Lemma swallow_Ok (r : result pyvalue) (x : pyvalue) :
  swallow r = Ok x -> r = Ok x \/ (x = VNone /\ r = Raise OverflowError).
Proof.
  destruct r as [a|e]; simpl; [auto|].
  destruct e; try discriminate. intros H. injection H as <-. auto.
Qed.

Lemma swallow_Raise (r : result pyvalue) (e : exn) :
  swallow r = Raise e -> r = Raise e /\ e <> OverflowError.
Proof.
  destruct r as [a|e']; simpl; [discriminate|].
  destruct e'; intros H; try discriminate; injection H as <-;
    (split; [reflexivity | discriminate]).
Qed.

(** What the two parsers make of a text. *)
Lemma parse_date_of_text {rt : Runtime} (s : string) :
  (exists d, parse_date (VStr s) = Ok (VDate d))
  \/ parse_date (VStr s) = Raise RecursionError
  \/ parse_date (VStr s) = Raise OverflowError.
Proof.
  unfold parse_date.
  destruct (proj1 (parse_text_outcomes recursion_limit s)) as [[d ->]|[-> | ->]];
    [left; eauto | auto | auto].
Qed.

Lemma parse_datetime_of_text {rt : Runtime} (s : string) :
  (exists t, parse_datetime (VStr s) = Ok (VDatetime t))
  \/ parse_datetime (VStr s) = Raise RecursionError
  \/ parse_datetime (VStr s) = Raise OverflowError.
Proof.
  unfold parse_datetime.
  destruct (proj2 (parse_text_outcomes recursion_limit s)) as [[t ->]|[-> | ->]];
    [left; eauto | auto | auto].
Qed.

Lemma attempt_cast_date_text {rt : Runtime} (s : string) :
  attempt_cast (VStr s) TDate = swallow (parse_date (VStr s)).
Proof. reflexivity. Qed.

Lemma attempt_cast_datetime_text {rt : Runtime} (s : string) :
  attempt_cast (VStr s) TDatetime = swallow (parse_datetime (VStr s)).
Proof. reflexivity. Qed.

(** Whatever [attempt_cast] returns is null or an instance of the target. *)
Lemma attempt_cast_cases {rt : Runtime} (v : pyvalue) (T : target_type) (r : pyvalue) :
  attempt_cast v T = Ok r -> r = VNone \/ isinstance r T = true.
Proof.
  destruct T.
  - destruct v; simpl; intros H; try (injection H as <-; auto; fail).
    + injection H as <-. destruct (int_of_integral_cases x) as [[n ->]| ->]; auto.
    + destruct (PyFloat.of_string s); injection H as <-; auto.
      destruct (int_of_integral_cases s0) as [[n ->]| ->]; auto.
    + injection H as <-. now apply (opt_value_instance VInt _ TInt).
  - destruct v; simpl; intros H; injection H as <-; auto;
      now apply (opt_value_instance VFloat _ TFloat).
  - destruct v; cbv [attempt_cast isinstance]; intros H; injection H as <-; auto;
      now apply (opt_value_instance VStr _ TStr).
  - destruct v; simpl; intros H; try (injection H as <-; auto; fail).
    destruct (PyFloat.is_nan x); injection H as <-; auto.
  - destruct v; try (cbv [attempt_cast isinstance parse_date swallow];
                     intros H; injection H as <-; auto; fail).
    rewrite attempt_cast_date_text. intros H.
    apply swallow_Ok in H as [H|[-> _]]; [|auto].
    destruct (parse_date_of_text s) as [[d E]|[E|E]]; rewrite E in H;
      try discriminate.
    injection H as <-. auto.
  - destruct v; try (cbv [attempt_cast isinstance parse_datetime swallow];
                     intros H; injection H as <-; auto; fail).
    rewrite attempt_cast_datetime_text. intros H.
    apply swallow_Ok in H as [H|[-> _]]; [|auto].
    destruct (parse_datetime_of_text s) as [[t E]|[E|E]]; rewrite E in H;
      try discriminate.
    injection H as <-. auto.
Qed.

(** [attempt_cast] raises on nothing but text asked to become a date or a
    timestamp, and then it raises [RecursionError]. *)
Lemma attempt_cast_raise_inv {rt : Runtime} (v : pyvalue) (T : target_type) (e : exn) :
  attempt_cast v T = Raise e ->
  e = RecursionError /\ (exists s, v = VStr s) /\ (T = TDate \/ T = TDatetime).
Proof.
  destruct T.
  - destruct v; simpl; try discriminate. destruct (PyFloat.of_string s); discriminate.
  - destruct v; simpl; discriminate.
  - destruct v; cbv [attempt_cast isinstance]; discriminate.
  - destruct v; simpl; try discriminate. destruct (PyFloat.is_nan x); discriminate.
  - destruct v; try discriminate. rewrite attempt_cast_date_text. intros H.
    apply swallow_Raise in H as [H Hne].
    destruct (parse_date_of_text s) as [[d E]|[E|E]]; rewrite E in H;
      try discriminate; injection H as <-; [eauto | congruence].
  - destruct v; try discriminate. rewrite attempt_cast_datetime_text. intros H.
    apply swallow_Raise in H as [H Hne].
    destruct (parse_datetime_of_text s) as [[t E]|[E|E]]; rewrite E in H;
      try discriminate; injection H as <-; [eauto | congruence].
Qed.

Section MoreCoercionFacts.

Context {rt : Runtime}.

#[local] Opaque recursion_limit.

(** X1: for each of the six targets, a value that [attempt_cast] returns is
    null or an instance of the target type; no other value comes back. *)
Theorem attempt_cast_result_type (v : pyvalue) (T : target_type) (r : pyvalue) :
  attempt_cast v T = Ok r -> r = VNone \/ isinstance r T = true.
Proof. apply attempt_cast_cases. Qed.

(** X2: for each of the six targets, the dates included, a value that
    [attempt_cast] has returned is returned unchanged when cast again to the
    same target. *)
Theorem attempt_cast_stable (v : pyvalue) (T : target_type) (r : pyvalue) :
  attempt_cast v T = Ok r -> attempt_cast r T = Ok r.
Proof.
  intros H. destruct (attempt_cast_cases v T r H) as [-> | Hi].
  - reflexivity.
  - now apply isinstance_pass_through.
Qed.

(** X3: [attempt_cast] raises on nothing but text asked to become a date
    or a timestamp, and then it raises [RecursionError].  On such text it
    returns a date (a timestamp), and it returns null only when a
    constructor of dates raised [OverflowError] inside the parser, which
    line 133 catches. *)
Theorem attempt_cast_failure_kind :
  (forall v T e, attempt_cast v T = Raise e ->
                 e = RecursionError
                 /\ (exists s, v = VStr s) /\ (T = TDate \/ T = TDatetime))
  /\ (forall s r, attempt_cast (VStr s) TDate = Ok r ->
                  (exists d, r = VDate d)
                  \/ (r = VNone /\ parse_date (VStr s) = Raise OverflowError))
  /\ (forall s r, attempt_cast (VStr s) TDatetime = Ok r ->
                  (exists t, r = VDatetime t)
                  \/ (r = VNone /\ parse_datetime (VStr s) = Raise OverflowError)).
Proof.
  split; [|split].
  - intros v T e. apply attempt_cast_raise_inv.
  - intros s r. rewrite attempt_cast_date_text. intros H.
    apply swallow_Ok in H as [H|H]; [|now right].
    destruct (parse_date_of_text s) as [[d E]|[E|E]]; rewrite E in H;
      try discriminate.
    injection H as <-. eauto.
  - intros s r. rewrite attempt_cast_datetime_text. intros H.
    apply swallow_Ok in H as [H|H]; [|now right].
    destruct (parse_datetime_of_text s) as [[t E]|[E|E]]; rewrite E in H;
      try discriminate.
    injection H as <-. eauto.
Qed.

(** X4: text on which the ISO fast path, the pattern table and the manual
    fallback of [parse_date] and the fast path and the pattern table of
    [parse_datetime] all fail without an exception is not reported as
    null: the two parsers call each other without end, and [attempt_cast]
    to a date or to a timestamp raises [RecursionError]. *)
Theorem attempt_cast_unparsable_date_text (value : string) :
  date_fast_path value = Ok None ->
  date_by_patterns date_patterns value = None ->
  manual_fallback value = Ok None ->
  datetime_fast_path value = None ->
  datetime_by_patterns datetime_patterns value = None ->
  attempt_cast (VStr value) TDate = Raise RecursionError
  /\ attempt_cast (VStr value) TDatetime = Raise RecursionError.
Proof.
  intros H1 H2 H3 H4 H5.
  destruct (parse_text_gives_up value H1 H2 H3 H4 H5 recursion_limit) as [Hd Ht].
  rewrite attempt_cast_date_text, attempt_cast_datetime_text.
  unfold parse_date, parse_datetime.
  now rewrite Hd, Ht.
Qed.

#[local] Transparent recursion_limit.

End MoreCoercionFacts.

(** ** The temporal parser: what it can return *)

Lemma make_date_valid (y m d : Z) (x : date) :
  make_date y m d = Ok (Some x) -> valid_date x.
Proof.
  unfold make_date, valid_date.
  destruct (c_int y && c_int m && c_int d) eqn:C; [|discriminate].
  destruct (in_calendar y m d) eqn:E; [|discriminate].
  intros H. injection H as <-. cbn [year month day].
  unfold make_date. now rewrite C, E.
Qed.

Lemma date_of_parts_valid (y m d : string) (x : date) :
  date_of_parts y m d = Ok (Some x) -> valid_date x.
Proof.
  unfold date_of_parts.
  destruct (PyStr.to_int y), (PyStr.to_int m), (PyStr.to_int d); try discriminate.
  apply make_date_valid.
Qed.

Lemma date_of_three_parts_valid (parts : list string) (x : date) :
  date_of_three_parts parts = Ok (Some x) -> valid_date x.
Proof.
  destruct parts as [|p0 [|p1 [|p2 [|]]]]; try discriminate. simpl.
  destruct (PyStr.len p0 =? 4); [apply date_of_parts_valid|].
  destruct (PyStr.len p2 =? 4); [|discriminate].
  unfold or_try. destruct (date_of_parts p2 p0 p1) as [[y|]|e] eqn:E.
  - intros H. injection H as <-. exact (date_of_parts_valid _ _ _ _ E).
  - apply date_of_parts_valid.
  - discriminate.
Qed.

(** X5: a date that the manual slash/dash fallback of [parse_date] returns
    is a date of the calendar: year 1 to 9999, month 1 to 12, a day of that
    month, whatever the text was. *)
Theorem manual_fallback_valid_date (value : string) (d : date) :
  manual_fallback value = Ok (Some d) ->
  valid_date d
  /\ 1 <= year d <= 9999 /\ 1 <= month d <= 12
  /\ 1 <= day d <= days_in_month (year d) (month d).
Proof.
  intros H.
  assert (Hv : valid_date d).
  { unfold manual_fallback, or_try, manual_split in H.
    destruct (PyStr.contains "/" value).
    - destruct (date_of_three_parts (PyStr.split "/" value)) as [[x|]|e] eqn:E.
      + injection H as <-. exact (date_of_three_parts_valid _ _ E).
      + destruct (PyStr.contains "-" value); [|discriminate].
        exact (date_of_three_parts_valid _ _ H).
      + discriminate.
    - destruct (PyStr.contains "-" value); [|discriminate].
      exact (date_of_three_parts_valid _ _ H). }
  split; [exact Hv|].
  unfold valid_date, make_date in Hv.
  destruct (c_int (year d) && c_int (month d) && c_int (day d)); [|discriminate].
  destruct (in_calendar (year d) (month d) (day d)) eqn:E; [|discriminate].
  unfold in_calendar in E. lia.
Qed.

Lemma rev_chars_append (s t : string) :
  rev (PyStr.chars (s ++ t)) = (rev (PyStr.chars t) ++ rev (PyStr.chars s))%list.
Proof. now rewrite chars_append, rev_app_distr. Qed.

(** X6: a UTC offset written without a colon at the end of a text, a sign
    and four digits, is rewritten with a colon between hours and minutes
    and nothing else of the text changes: [+0500] becomes [+05:00]. *)
Theorem fix_tz_inserts_colon (base : string) (sg h1 h2 m1 m2 : ascii) :
  sg = "+"%char \/ sg = "-"%char ->
  forallb PyStr.is_digit [h1; h2; m1; m2] = true ->
  fix_tz (base ++ String sg (String h1 (String h2 (String m1 (String m2 "")))))
  = Some (base ++ String sg (String h1 (String h2
                     (String ":" (String m1 (String m2 "")))))).
Proof.
  intros Hsg Hd. simpl in Hd.
  apply andb_prop in Hd as [D1 Hd]. apply andb_prop in Hd as [D2 Hd].
  apply andb_prop in Hd as [D3 Hd]. apply andb_prop in Hd as [D4 _].
  unfold fix_tz, tz_suffix. rewrite rev_chars_append. simpl.
  rewrite (digit_not_char m2 "010" D4 eq_refl), D1, D2, D3, D4. simpl.
  assert (Hs : (Ascii.eqb sg "-" || Ascii.eqb sg "+") = true)
    by (destruct Hsg as [-> | ->]; reflexivity).
  rewrite Hs. f_equal.
  unfold PyStr.drop_last. rewrite chars_append.
  replace (String.length (base ++ _) - 5)%nat with (List.length (PyStr.chars base)).
  - rewrite firstn_app, Nat.sub_diag, firstn_all, firstn_O, app_nil_r, text_chars.
    reflexivity.
  - rewrite <- chars_length, chars_append, length_app. simpl. lia.
Qed.

(** ** The schema *)

(** X7: [_get_polars_schema] and [cast_row] read a field alike: the column
    type chosen for a field is the one that goes with the coercion applied
    to it, and a field that [cast_row] leaves alone is a text column. *)
Theorem polars_type_matches_cast_target (fi : field_info) :
  polars_type fi = target_dtype (cast_target fi).
Proof.
  unfold polars_type, cast_target. destruct (resolve fi) as [field_type format_type].
  repeat match goal with
         | |- context [if ?c then _ else _] => destruct c
         end; reflexivity.
Qed.

(** X8: the alternatives under [anyOf] are consulted only for a field whose
    own type is ["null"].  A field without a type of its own, which is how
    pydantic describes an optional field, is therefore not coerced by
    [cast_row] and is a text column for [_get_polars_schema], whatever its
    alternatives say. *)
Theorem untyped_field_is_left_alone (fi : field_info) :
  fi_type fi = None ->
  resolve fi = (None, fi_format fi)
  /\ cast_target fi = None
  /\ polars_type fi = Utf8.
Proof.
  intros H.
  assert (R : resolve fi = (None, fi_format fi)).
  { unfold resolve. rewrite H. simpl. now destruct (fi_anyOf fi). }
  split; [exact R|]. unfold cast_target, polars_type. now rewrite R.
Qed.

(** ** Rows and tables through the coercion *)

Lemma row_set_keys (r : row) (key : string) (v : pyvalue) :
  map fst (row_set r key v) = map fst r.
Proof.
  induction r as [|[k w] r IH]; simpl; [reflexivity|].
  destruct (String.eqb k key); simpl; [reflexivity | now rewrite IH].
Qed.

Lemma lookup_row_set_same (r : row) (key : string) (v w : pyvalue) :
  lookup_key r key = Some w -> lookup_key (row_set r key v) key = Some v.
Proof.
  induction r as [|[k x] r IH]; simpl; [discriminate|].
  destruct (String.eqb k key) eqn:E; simpl; rewrite E; [reflexivity | exact IH].
Qed.

Lemma lookup_row_set_other (r : row) (key key' : string) (v : pyvalue) :
  key <> key' -> lookup_key (row_set r key v) key' = lookup_key r key'.
Proof.
  intros Hne. induction r as [|[k x] r IH]; simpl; [reflexivity|].
  destruct (String.eqb_spec k key) as [->|Hk]; simpl.
  - apply String.eqb_neq in Hne. now rewrite Hne.
  - now rewrite IH.
Qed.

Lemma mapM_length {A B : Type} (f : A -> result B) (l : list A) (l' : list B) :
  mapM f l = Ok l' -> List.length l' = List.length l.
Proof.
  revert l'. induction l as [|a l IH]; simpl; intros l' H.
  - now injection H as <-.
  - apply bind_Ok in H as (b & _ & H). apply bind_Ok in H as (bs & Hbs & H).
    injection H as <-. simpl. f_equal. now apply IH.
Qed.

Section CastFacts.

Context {rt : Runtime}.

(** X9: the field loop of [cast_row] keeps the shape of the row: the
    processed row has the keys of the row it was given, in the same order,
    and a cell whose key is no field of the schema is left as it was. *)
Theorem cast_fields_keeps_row_shape (props : list (string * field_info))
  (r processed_row : row) :
  cast_fields props r = Ok processed_row ->
  map fst processed_row = map fst r
  /\ forall key, ~ In key (map fst props) ->
                 lookup_key processed_row key = lookup_key r key.
Proof.
  revert r. induction props as [|[field_name fi] props IH]; intros r H; simpl in H.
  - injection H as <-. auto.
  - destruct (lookup_key r field_name) as [field_value|] eqn:E.
    + destruct (cast_target fi) as [t|].
      * apply bind_Ok in H as (v & _ & H). apply IH in H as [Hk Hl].
        rewrite row_set_keys in Hk. split; [exact Hk|].
        intros key Hkey. simpl in Hkey. rewrite Hl by tauto.
        apply lookup_row_set_other. tauto.
      * apply IH in H as [Hk Hl]. split; [exact Hk|].
        intros key Hkey. simpl in Hkey. apply Hl. tauto.
    + apply IH in H as [Hk Hl]. split; [exact Hk|].
      intros key Hkey. simpl in Hkey. apply Hl. tauto.
Qed.

Lemma cast_fields_untouched (props : list (string * field_info))
  (r processed_row : row) (key : string) :
  cast_fields props r = Ok processed_row -> ~ In key (map fst props) ->
  lookup_key processed_row key = lookup_key r key.
Proof.
  revert r. induction props as [|[field_name fi] props IH]; intros r H Hkey;
    simpl in H, Hkey.
  - now injection H as <-.
  - destruct (lookup_key r field_name) as [field_value|] eqn:E.
    + destruct (cast_target fi) as [t|].
      * apply bind_Ok in H as (v & _ & H). rewrite (IH _ H) by tauto.
        apply lookup_row_set_other. tauto.
      * apply IH; tauto.
    + apply IH; tauto.
Qed.

(** X10: when the schema names each field once, the field loop of
    [cast_row] leaves in each cell of a schema field the result of exactly
    one [attempt_cast] of the original cell to the type of that field, and
    the original cell where the schema gives the field no type that the
    loop knows. *)
Theorem cast_fields_casts_each_field (props : list (string * field_info))
  (r processed_row : row) :
  List.NoDup (map fst props) ->
  cast_fields props r = Ok processed_row ->
  forall field_name fi field_value,
    In (field_name, fi) props ->
    lookup_key r field_name = Some field_value ->
    match cast_target fi with
    | Some t => exists v, attempt_cast field_value t = Ok v
                          /\ lookup_key processed_row field_name = Some v
    | None => lookup_key processed_row field_name = Some field_value
    end.
Proof.
  revert r. induction props as [|[name0 fi0] props IH]; intros r Hnd H name fi v Hin Hv.
  - destruct Hin.
  - simpl in Hnd. apply List.NoDup_cons_iff in Hnd as [Hfresh Hnd]. simpl in H.
    destruct Hin as [Hin|Hin].
    + injection Hin as -> ->. rewrite Hv in H.
      destruct (cast_target fi) as [t|].
      * apply bind_Ok in H as (w & Hw & H). exists w. split; [exact Hw|].
        rewrite (cast_fields_untouched _ _ _ _ H Hfresh).
        now apply (lookup_row_set_same _ _ _ v).
      * now rewrite (cast_fields_untouched _ _ _ _ H Hfresh).
    + assert (Hne : name0 <> name).
      { intros ->. apply Hfresh, in_map_iff. now exists (name, fi). }
      destruct (lookup_key r name0) as [v0|] eqn:E0.
      * destruct (cast_target fi0) as [t0|].
        -- apply bind_Ok in H as (w0 & _ & H).
           apply (IH _ Hnd H name fi v Hin).
           now rewrite lookup_row_set_other.
        -- now apply (IH _ Hnd H name fi v Hin).
      * now apply (IH _ Hnd H name fi v Hin).
Qed.

Lemma cast_fields_raise (props : list (string * field_info)) (r : row) (e : exn) :
  cast_fields props r = Raise e -> e = RecursionError.
Proof.
  revert r. induction props as [|[field_name fi] props IH]; intros r H; simpl in H.
  - discriminate.
  - destruct (lookup_key r field_name) as [field_value|]; [|now apply (IH r)].
    destruct (cast_target fi) as [t|]; [|now apply (IH r)].
    destruct (attempt_cast field_value t) as [v|e'] eqn:E; simpl in H.
    + now apply (IH _ H).
    + injection H as <-. now apply attempt_cast_raise_inv in E.
Qed.

Lemma cast_row_raise (s : schema) (r : row) (e : exn) :
  cast_row s r = Raise e ->
  e = RecursionError \/ exists p, e = RowValidationFailure p.
Proof.
  unfold cast_row.
  destruct (cast_fields (properties s) r) as [p|e'] eqn:E; simpl.
  - destruct (validate s p); [discriminate|]. intros H. injection H as <-. eauto.
  - intros H. injection H as <-. left. exact (cast_fields_raise _ _ _ E).
Qed.

Lemma cast_rows_raise (s : schema) (rows : list row) (e : exn) :
  cast_rows s rows = Raise e -> e = RecursionError.
Proof.
  induction rows as [|r rows IH]; simpl; [discriminate|].
  destruct (cast_row s r) as [x|e'] eqn:E.
  - destruct (cast_rows s rows); simpl; [discriminate|].
    intros H. injection H as <-. now apply IH.
  - destruct (cast_row_raise _ _ _ E) as [-> | [p ->]].
    + intros H. now injection H as <-.
    + exact IH.
Qed.

Lemma cast_rows_validated (s : schema) (rows casted_rows : list row) :
  cast_rows s rows = Ok casted_rows -> casted_rows = validated_rows s rows.
Proof.
  revert casted_rows. induction rows as [|r rows IH]; simpl; intros l H.
  - now injection H as <-.
  - unfold validated_rows. simpl. fold (validated_rows s rows).
    destruct (cast_row s r) as [x|e] eqn:E.
    + apply bind_Ok in H as (l' & Hl' & H). injection H as <-.
      simpl. f_equal. now apply IH.
    + destruct e; try discriminate. simpl. now apply IH.
Qed.

(** X11: when the row loop of [cast_dataframe] completes, what it has
    collected is exactly the rows that [cast_row] accepts, coerced, each
    once per occurrence and in table order; rows that fail validation
    leave no trace, so there are at most as many as the table had. *)
Theorem cast_rows_keeps_validated (s : schema) (rows casted_rows : list row) :
  cast_rows s rows = Ok casted_rows ->
  casted_rows = validated_rows s rows
  /\ (forall x, In x casted_rows <-> exists r, In r rows /\ cast_row s r = Ok x)
  /\ (List.length casted_rows <= List.length rows)%nat.
Proof.
  intros H. apply cast_rows_validated in H. subst casted_rows.
  split; [reflexivity|]. split.
  - intros x. unfold validated_rows. rewrite in_flat_map. split.
    + intros (r & Hr & Hx). exists r. split; [exact Hr|].
      destruct (cast_row s r); [|contradiction].
      destruct Hx as [->|[]]. reflexivity.
    + intros (r & Hr & Hx). exists r. split; [exact Hr|]. rewrite Hx. now left.
  - unfold validated_rows. induction rows as [|r rows IH]; simpl; [lia|].
    rewrite length_app. destruct (cast_row s r); simpl; lia.
Qed.

Lemma frame_cast_raise (to_cast : list (string * dtype)) (df : DataFrame) (e : exn) :
  frame_cast to_cast df = Raise e -> e = InvalidOperationError.
Proof.
  unfold frame_cast.
  assert (Hcell : forall kv e', cast_cell to_cast kv = Raise e' ->
                                e' = InvalidOperationError).
  { intros kv e'. unfold cast_cell.
    destruct (lookup_key to_cast (fst kv)); [|discriminate].
    destruct (polars_cast d (snd kv)); [discriminate|]. congruence. }
  assert (Hrow : forall r e', mapM (cast_cell to_cast) r = Raise e' ->
                              e' = InvalidOperationError).
  { induction r as [|kv r IH]; simpl; intros e' H; [discriminate|].
    destruct (cast_cell to_cast kv) eqn:E; simpl in H.
    - destruct (mapM (cast_cell to_cast) r); simpl in H; [discriminate|].
      injection H as <-. now apply IH.
    - injection H as <-. exact (Hcell _ _ E). }
  assert (Hrows : forall rows e', mapM (mapM (cast_cell to_cast)) rows = Raise e' ->
                                  e' = InvalidOperationError).
  { induction rows as [|r rows IH]; simpl; intros e' H; [discriminate|].
    destruct (mapM (cast_cell to_cast) r) eqn:E; simpl in H.
    - destruct (mapM (mapM (cast_cell to_cast)) rows); simpl in H; [discriminate|].
      injection H as <-. now apply IH.
    - injection H as <-. exact (Hrow _ _ E). }
  destruct (mapM (mapM (cast_cell to_cast)) (df_rows df)) eqn:E; simpl;
    [discriminate|].
  intros H. injection H as <-. exact (Hrows _ _ E).
Qed.

Lemma cast_dataframe_raise (self : PolarsCaster) (df : DataFrame)
  (schema_name : string) (e : exn) :
  cast_dataframe self df schema_name = Raise e ->
  (e = SchemaNotFound schema_name /\ schema_mapping self !! schema_name = None)
  \/ e = RecursionError \/ e = InvalidOperationError.
Proof.
  unfold cast_dataframe.
  destruct (schema_mapping self !! schema_name) as [s|].
  2:{ intros H. injection H as <-. now left. }
  right. destruct (is_empty df); [discriminate|].
  destruct (cast_rows s (df_rows df)) as [l|e'] eqn:E; simpl in H.
  2:{ injection H as <-. left. exact (cast_rows_raise _ _ _ E). }
  destruct l as [|x l]; [discriminate|].
  destruct (List.filter _ (_get_polars_schema s)); [discriminate|].
  right. exact (frame_cast_raise _ _ _ H).
Qed.

(** X12: [cast_dataframe] fails in three ways only: [SchemaNotFound], exactly
    when the schema name is unknown; [RecursionError], out of the date
    parser; and the failure of the polars cast.  A row that fails
    validation never makes it fail. *)
Theorem cast_dataframe_failure_kind (self : PolarsCaster) (df : DataFrame)
  (schema_name : string) :
  (schema_mapping self !! schema_name = None ->
   cast_dataframe self df schema_name = Raise (SchemaNotFound schema_name))
  /\ forall e, cast_dataframe self df schema_name = Raise e ->
               (e = SchemaNotFound schema_name
                /\ schema_mapping self !! schema_name = None)
               \/ e = RecursionError \/ e = InvalidOperationError.
Proof.
  split.
  - intros H. unfold cast_dataframe. now rewrite H.
  - apply cast_dataframe_raise.
Qed.

(** X13: a table none of whose rows passes validation, an empty table
    among them, is coerced to the empty table typed per the schema. *)
Theorem cast_dataframe_all_rows_fail (self : PolarsCaster) (df : DataFrame)
  (schema_name : string) (s : schema) :
  schema_mapping self !! schema_name = Some s ->
  (forall r, In r (df_rows df) -> exists p, cast_row s r = Raise (RowValidationFailure p)) ->
  cast_dataframe self df schema_name = Ok (empty_frame (_get_polars_schema s)).
Proof.
  intros Hs Hall. unfold cast_dataframe, is_empty. rewrite Hs.
  destruct (df_rows df) as [|r0 rows0] eqn:E; [reflexivity|]. rewrite <- E in *.
  assert (Hrows : cast_rows s (df_rows df) = Ok []).
  { clear E. induction (df_rows df) as [|r rows IH]; simpl; [reflexivity|].
    destruct (Hall r (or_introl eq_refl)) as [p ->].
    apply IH. intros x Hx. apply Hall. now right. }
  now rewrite Hrows.
Qed.

(** X14: the table that [cast_dataframe] returns has as many rows as the
    given table has rows that pass validation, never more rows than the
    given table. *)
Theorem cast_dataframe_row_count (self : PolarsCaster) (df casted : DataFrame)
  (schema_name : string) (s : schema) :
  schema_mapping self !! schema_name = Some s ->
  cast_dataframe self df schema_name = Ok casted ->
  List.length (df_rows casted) = List.length (validated_rows s (df_rows df))
  /\ (List.length (df_rows casted) <= List.length (df_rows df))%nat.
Proof.
  intros Hs H.
  assert (Hle : (List.length (validated_rows s (df_rows df))
                 <= List.length (df_rows df))%nat).
  { unfold validated_rows. induction (df_rows df) as [|r rows IH]; simpl; [lia|].
    rewrite length_app. destruct (cast_row s r); simpl; lia. }
  cut (List.length (df_rows casted) = List.length (validated_rows s (df_rows df))).
  { intros E. split; [exact E | lia]. }
  clear Hle. unfold cast_dataframe, is_empty in H. rewrite Hs in H.
  destruct (df_rows df) as [|r0 rows0] eqn:E.
  { now injection H as <-. }
  rewrite <- E in *.
  apply bind_Ok in H as (l & Hl & H).
  apply cast_rows_validated in Hl. rewrite <- Hl.
  destruct l as [|x l]; [now injection H as <-|].
  assert (Hd : List.length (df_rows (frame_of_dicts (x :: l))) = List.length (x :: l))
    by (unfold frame_of_dicts; simpl; now rewrite length_map).
  destruct (List.filter _ (_get_polars_schema s)); [now injection H as <-|].
  unfold frame_cast in H. apply bind_Ok in H as (rows & Hrows & H).
  injection H as <-. simpl. apply mapM_length in Hrows. now rewrite Hrows.
Qed.

End CastFacts.

(** ** The comparison of two coerced rows *)

Lemma same_date_sym (a b : pyvalue) : same_date a b = same_date b a.
Proof.
  unfold same_date. destruct (date_part a), (date_part b); try reflexivity.
  apply date_eqb_sym.
Qed.

Lemma field_verdict_sym (a b : pyvalue) : field_verdict a b = field_verdict b a.
Proof.
  destruct a, b; try reflexivity;
    first [ exact (py_eqb_sym _ _) | exact (same_date_sym _ _) ].
Qed.

Lemma field_verdict_refl (a : pyvalue) :
  field_verdict a a = true <-> a <> VFloat S754_nan.
Proof.
  split.
  - intros H ->. discriminate H.
  - intros H. destruct a; try exact (py_eqb_refl _ H); try reflexivity.
    unfold field_verdict, same_date. simpl. apply date_eqb_refl.
Qed.

Lemma row_unchanged_sym (pks : list string) (a b : row) :
  row_unchanged pks a b -> row_unchanged pks b a.
Proof.
  intros H key Hb Ha Hk. apply field_verdict_spec.
  rewrite field_verdict_sym. apply field_verdict_spec. now apply H.
Qed.

(** X15: the verdict of the comparison loop does not depend on which of
    the two coerced rows is taken as the new one. *)
Theorem is_identical_sym (pks : list string) (row_new row_db : row) :
  is_identical pks row_new row_db = is_identical pks row_db row_new.
Proof.
  destruct (is_identical pks row_new row_db) eqn:E1;
    destruct (is_identical pks row_db row_new) eqn:E2; try reflexivity.
  - apply is_identical_spec, row_unchanged_sym, is_identical_spec in E1. congruence.
  - apply is_identical_spec, row_unchanged_sym, is_identical_spec in E2. congruence.
Qed.

(** X16: a coerced row compares identical to itself exactly when none of
    its non-key cells is a NaN: a NaN differs from everything, itself
    included, so a row that holds one is never found unchanged. *)
Theorem is_identical_refl (pks : list string) (r : row) :
  is_identical pks r r = true <->
  forall key, has_key r key = true -> ~ In key pks -> cell r key <> VFloat S754_nan.
Proof.
  rewrite is_identical_spec. unfold row_unchanged. split.
  - intros H key Hk Hp. apply field_verdict_refl, field_verdict_spec. now apply H.
  - intros H key Hk _ Hp. apply field_verdict_spec, field_verdict_refl. now apply H.
Qed.

Lemma nan_differs (b : pyvalue) :
  field_verdict (VFloat S754_nan) b = false /\ field_verdict b (VFloat S754_nan) = false.
Proof.
  assert (H : field_verdict (VFloat S754_nan) b = false) by now destruct b.
  split; [exact H | now rewrite field_verdict_sym].
Qed.

(** X17: two coerced rows one of which holds a NaN in a non-key field that
    both rows have are never identical, whatever the other row holds
    there. *)
Theorem nan_is_always_a_difference (pks : list string) (row_new row_db : row)
  (key : string) :
  has_key row_new key = true -> has_key row_db key = true -> ~ In key pks ->
  cell row_new key = VFloat S754_nan \/ cell row_db key = VFloat S754_nan ->
  is_identical pks row_new row_db = false.
Proof.
  intros Hn Hd Hk Hnan.
  destruct (is_identical pks row_new row_db) eqn:E; [|reflexivity].
  apply is_identical_spec in E. specialize (E key Hn Hd Hk).
  apply field_verdict_spec in E.
  destruct Hnan as [Hnan|Hnan]; rewrite Hnan in E.
  - now rewrite (proj1 (nan_differs _)) in E.
  - now rewrite (proj2 (nan_differs _)) in E.
Qed.

(** ** The key checks, in order *)

Lemma check_pk_columns_app (before after : list string) (df_new df_db : DataFrame) :
  (forall pk, In pk before -> In pk (columns df_new) /\ In pk (columns df_db)) ->
  check_pk_columns (before ++ after) df_new df_db
  = check_pk_columns after df_new df_db.
Proof.
  induction before as [|pk before IH]; intros H; simpl; [reflexivity|].
  destruct (H pk (or_introl eq_refl)) as [Hn Hd].
  apply mem_In in Hn, Hd. rewrite Hn, Hd. simpl.
  apply IH. intros x Hx. apply H. now right.
Qed.

Lemma check_pk_nulls_app (before after : list string) (df_new df_db : DataFrame) :
  (forall pk, In pk before -> null_count df_new pk = 0%nat
                              /\ null_count df_db pk = 0%nat) ->
  check_pk_nulls (before ++ after) df_new df_db
  = check_pk_nulls after df_new df_db.
Proof.
  induction before as [|pk before IH]; intros H; simpl; [reflexivity|].
  destruct (H pk (or_introl eq_refl)) as [-> ->]. simpl.
  apply IH. intros x Hx. apply H. now right.
Qed.

Lemma check_pk_columns_all (pks : list string) (df_new df_db : DataFrame) :
  (forall pk, In pk pks -> In pk (columns df_new) /\ In pk (columns df_db)) ->
  check_pk_columns pks df_new df_db = Ok tt.
Proof.
  intros H. rewrite <- (app_nil_r pks). now rewrite check_pk_columns_app.
Qed.

Section CheckOrder.

Context {rt : Runtime}.

(** X18: of the key columns that a table lacks, [split] reports the first
    in the order of the key list, and for that column the new table before
    the stored one; nulls anywhere and later columns play no part. *)
Theorem split_reports_first_missing_column (self : PolarsCaster)
  (df_new df_db : DataFrame) (before after : list string) (c : string)
  (schema_name : string) (s : schema) :
  schema_mapping self !! schema_name = Some s ->
  (forall pk, In pk before -> In pk (columns df_new) /\ In pk (columns df_db)) ->
  (~ In c (columns df_new) ->
   split_dataframe self df_new df_db (before ++ c :: after) schema_name
   = Raise (MissingPrimaryKeyColumn "df_new" c))
  /\ (In c (columns df_new) -> ~ In c (columns df_db) ->
      split_dataframe self df_new df_db (before ++ c :: after) schema_name
      = Raise (MissingPrimaryKeyColumn "df_db" c)).
Proof.
  intros Hs Hbefore.
  assert (Hsplit : forall e,
             check_pk_columns (c :: after) df_new df_db = Raise e ->
             split_dataframe self df_new df_db (before ++ c :: after) schema_name
             = Raise e).
  { intros e He. unfold split_dataframe. rewrite Hs.
    assert (Hc : check_pk_columns (before ++ c :: after) df_new df_db = Raise e)
      by now rewrite check_pk_columns_app.
    destruct (before ++ c :: after)%list as [|pk0 rest] eqn:E.
    - now destruct before.
    - now rewrite Hc. }
  split.
  - intros Hn. apply Hsplit. simpl. apply mem_false in Hn. now rewrite Hn.
  - intros Hn Hd. apply Hsplit. simpl.
    apply mem_In in Hn. apply mem_false in Hd. now rewrite Hn, Hd.
Qed.

(** X19: with every key column in both tables, of the key columns that hold
    a null [split] reports the first in the order of the key list, for
    that column the new table before the stored one, and with it the
    number of nulls of that column in that table. *)
Theorem split_reports_first_null_column (self : PolarsCaster)
  (df_new df_db : DataFrame) (before after : list string) (c : string)
  (schema_name : string) (s : schema) :
  schema_mapping self !! schema_name = Some s ->
  (forall pk, In pk (before ++ c :: after) ->
              In pk (columns df_new) /\ In pk (columns df_db)) ->
  (forall pk, In pk before -> null_count df_new pk = 0%nat
                              /\ null_count df_db pk = 0%nat) ->
  ((0 < null_count df_new c)%nat ->
   split_dataframe self df_new df_db (before ++ c :: after) schema_name
   = Raise (NullPrimaryKeyValue "df_new" c (null_count df_new c)))
  /\ (null_count df_new c = 0%nat -> (0 < null_count df_db c)%nat ->
      split_dataframe self df_new df_db (before ++ c :: after) schema_name
      = Raise (NullPrimaryKeyValue "df_db" c (null_count df_db c))).
Proof.
  intros Hs Hcols Hbefore.
  assert (Hsplit : forall e,
             check_pk_nulls (c :: after) df_new df_db = Raise e ->
             split_dataframe self df_new df_db (before ++ c :: after) schema_name
             = Raise e).
  { intros e He. unfold split_dataframe. rewrite Hs.
    pose proof (check_pk_columns_all _ _ _ Hcols) as Hc.
    assert (Hn : check_pk_nulls (before ++ c :: after) df_new df_db = Raise e)
      by now rewrite check_pk_nulls_app.
    destruct (before ++ c :: after)%list as [|pk0 rest] eqn:E.
    - now destruct before.
    - now rewrite Hc, Hn. }
  split.
  - intros Hn. apply Hsplit. simpl. apply Nat.ltb_lt in Hn. now rewrite Hn.
  - intros Hn Hd. apply Hsplit. simpl. rewrite Hn. simpl.
    apply Nat.ltb_lt in Hd. now rewrite Hd.
Qed.

End CheckOrder.

(** ** Equality of values is an equivalence on well-formed values *)

Lemma digits2_bounds (p : positive) :
  2 ^ (Zpos (digits2_pos p) - 1) <= Zpos p < 2 ^ Zpos (digits2_pos p).
Proof.
  induction p as [p IH|p IH|]; simpl digits2_pos.
  - rewrite Pos2Z.inj_succ.
    replace (Z.succ (Zpos (digits2_pos p)) - 1) with (Zpos (digits2_pos p)) by lia.
    rewrite Z.pow_succ_r by lia.
    assert (2 ^ Zpos (digits2_pos p) = 2 * 2 ^ (Zpos (digits2_pos p) - 1)).
    { rewrite <- Z.pow_succ_r by lia. f_equal. lia. }
    lia.
  - rewrite Pos2Z.inj_succ.
    replace (Z.succ (Zpos (digits2_pos p)) - 1) with (Zpos (digits2_pos p)) by lia.
    rewrite Z.pow_succ_r by lia.
    assert (2 ^ Zpos (digits2_pos p) = 2 * 2 ^ (Zpos (digits2_pos p) - 1)).
    { rewrite <- Z.pow_succ_r by lia. f_equal. lia. }
    lia.
  - simpl. lia.
Qed.

(** The mantissa and the exponent of a canonical binary64 number. *)
Lemma valid_finite_shape (s : bool) (m : positive) (e : Z) :
  valid_binary PyFloat.prec PyFloat.emax (S754_finite s m e) = true ->
  Zpos m < 2 ^ 53 /\ -1074 <= e /\ (-1074 < e -> 2 ^ 52 <= Zpos m).
Proof.
  unfold valid_binary, bounded, canonical_mantissa, fexp, emin,
    PyFloat.prec, PyFloat.emax.
  intros H. apply andb_prop in H as [H _]. apply Z.eqb_eq in H.
  pose proof (digits2_bounds m) as [Hlo Hhi].
  assert (Hd : Zpos (digits2_pos m) <= 53) by lia.
  split; [|split].
  - eapply Z.lt_le_trans; [exact Hhi|]. apply Z.pow_le_mono_r; lia.
  - lia.
  - intros He. assert (Zpos (digits2_pos m) = 53) as E by lia.
    rewrite E in Hlo. exact Hlo.
Qed.

Lemma magnitude_scaled (m m' : positive) (e e' A : Z) :
  e < e' -> magnitude m e A -> magnitude m' e' A ->
  Zpos m = Zpos m' * 2 ^ (e' - e).
Proof.
  unfold magnitude. intros Hlt.
  destruct (Z.leb_spec 0 e) as [He|He]; destruct (Z.leb_spec 0 e') as [He'|He'];
    intros H1 H2; try lia.
  - replace e' with ((e' - e) + e) in H2 at 1 by lia.
    rewrite Z.pow_add_r in H2 by lia.
    assert (0 < 2 ^ e) by (apply Z.pow_pos_nonneg; lia). nia.
  - replace (e' - e) with (e' + - e) by lia.
    rewrite Z.pow_add_r by lia. subst A. lia.
  - replace (- e) with (- e' + (e' - e)) in H1 by lia.
    rewrite Z.pow_add_r in H1 by lia. rewrite H1, H2. lia.
Qed.

(** Two canonical binary64 numbers of the same magnitude have the same
    mantissa and exponent. *)
Lemma canonical_unique (s s' : bool) (m m' : positive) (e e' A : Z) :
  valid_binary PyFloat.prec PyFloat.emax (S754_finite s m e) = true ->
  valid_binary PyFloat.prec PyFloat.emax (S754_finite s' m' e') = true ->
  magnitude m e A -> magnitude m' e' A -> m = m' /\ e = e'.
Proof.
  intros V V' M M'.
  apply valid_finite_shape in V as (Hm & He & Hn).
  apply valid_finite_shape in V' as (Hm' & He' & Hn').
  assert (Hpow : forall k, 1 <= k -> 2 <= 2 ^ k).
  { intros k Hk. replace k with (Z.succ (k - 1)) by lia.
    rewrite Z.pow_succ_r by lia.
    assert (0 < 2 ^ (k - 1)) by (apply Z.pow_pos_nonneg; lia). lia. }
  change (2 ^ 53) with 9007199254740992 in *.
  change (2 ^ 52) with 4503599627370496 in *.
  destruct (Z.lt_trichotomy e e') as [Hlt|[Heq|Hgt]].
  - exfalso. pose proof (magnitude_scaled _ _ _ _ _ Hlt M M') as E.
    specialize (Hpow (e' - e) ltac:(lia)). specialize (Hn' ltac:(lia)). nia.
  - subst e'. split; [|reflexivity]. unfold magnitude in M, M'.
    destruct (Z.leb_spec 0 e).
    + assert (0 < 2 ^ e) by (apply Z.pow_pos_nonneg; lia).
      assert (Zpos m = Zpos m') by nia. congruence.
    + assert (Zpos m = Zpos m') by congruence. congruence.
  - exfalso. pose proof (magnitude_scaled _ _ _ _ _ Hgt M' M) as E.
    specialize (Hpow (e - e') ltac:(lia)). specialize (Hn ltac:(lia)). nia.
Qed.

Lemma eqb_int_finite (s : bool) (m : positive) (e n : Z) :
  PyFloat.eqb_int (S754_finite s m e) n = true ->
  magnitude m e (Z.abs n) /\ (s = true <-> n < 0).
Proof.
  unfold PyFloat.eqb_int. intros H. apply andb_prop in H as [Hi Ht].
  destruct (PyFloat.to_int (S754_finite s m e)) as [k|] eqn:Ek; [|discriminate].
  apply Z.eqb_eq in Ht. subst k.
  assert (Hf : float_is_integer (S754_finite s m e) n)
    by (apply float_is_integer_spec; auto).
  unfold float_is_integer in Hf. unfold magnitude.
  destruct (Z.leb_spec 0 e) as [He|He].
  - assert (0 < 2 ^ e) by (apply Z.pow_pos_nonneg; lia).
    destruct s; simpl in Hf; split; try lia; split; intros; try lia; try discriminate.
  - assert (0 < 2 ^ (- e)) by (apply Z.pow_pos_nonneg; lia).
    destruct s; simpl in Hf; split; try nia; split; intros; try nia; try discriminate.
Qed.

Lemma eqb_int_inj (x : spec_float) (n k : Z) :
  PyFloat.eqb_int x n = true -> PyFloat.eqb_int x k = true -> n = k.
Proof.
  destruct x as [s|s| |s m e]; simpl; try discriminate.
  - intros H1 H2. apply Z.eqb_eq in H1, H2. congruence.
  - intros H1 H2. apply andb_prop in H1 as [_ H1], H2 as [_ H2].
    destruct (if 0 <=? e then _ else _); simpl in *.
    all: apply Z.eqb_eq in H1, H2; congruence.
Qed.

Lemma eqb_int_unique (x y : spec_float) (n : Z) :
  valid_binary PyFloat.prec PyFloat.emax x = true ->
  valid_binary PyFloat.prec PyFloat.emax y = true ->
  PyFloat.eqb_int x n = true -> PyFloat.eqb_int y n = true ->
  PyFloat.eqb x y = true.
Proof.
  intros Vx Vy Hx Hy.
  destruct x as [s|s| |s m e]; try discriminate Hx;
    destruct y as [s'|s'| |s' m' e']; try discriminate Hy.
  - reflexivity.
  - exfalso. simpl in Hx. apply Z.eqb_eq in Hx. subst n.
    apply eqb_int_finite in Hy as [M _]. unfold magnitude in M. simpl in M.
    destruct (Z.leb_spec 0 e').
    + assert (0 < 2 ^ e') by (apply Z.pow_pos_nonneg; lia). lia.
    + lia.
  - exfalso. simpl in Hy. apply Z.eqb_eq in Hy. subst n.
    apply eqb_int_finite in Hx as [M _]. unfold magnitude in M. simpl in M.
    destruct (Z.leb_spec 0 e).
    + assert (0 < 2 ^ e) by (apply Z.pow_pos_nonneg; lia). lia.
    + lia.
  - apply eqb_int_finite in Hx as [M S], Hy as [M' S'].
    destruct (canonical_unique _ _ _ _ _ _ _ Vx Vy M M') as [-> ->].
    simpl. rewrite Pos.eqb_refl, Z.eqb_refl, !andb_true_r.
    destruct s, s'; try reflexivity; exfalso.
    + assert (n < 0) by now apply S. assert (false = true) by (apply S'; lia).
      discriminate.
    + assert (n < 0) by now apply S'. assert (false = true) by (apply S; lia).
      discriminate.
Qed.

Lemma float_eqb_eq_int (x y : spec_float) (n : Z) :
  PyFloat.eqb x y = true -> PyFloat.eqb_int y n = true ->
  PyFloat.eqb_int x n = true.
Proof.
  destruct x as [s|s| |s m e], y as [s'|s'| |s' m' e']; try discriminate; auto.
  intros H. simpl in H. apply andb_prop in H as [H He]. apply andb_prop in H as [Hs Hm].
  apply Bool.eqb_prop in Hs. apply Pos.eqb_eq in Hm. apply Z.eqb_eq in He.
  now subst.
Qed.

Lemma float_eqb_trans (x y z : spec_float) :
  PyFloat.eqb x y = true -> PyFloat.eqb y z = true -> PyFloat.eqb x z = true.
Proof.
  destruct x as [s|s| |s m e], y as [s'|s'| |s' m' e'], z as [t|t| |t k d];
    try discriminate; auto.
  - simpl. intros H1 H2. apply Bool.eqb_prop in H1, H2. subst. apply bool_eqb_refl.
  - intros H. simpl in H. apply andb_prop in H as [H He]. apply andb_prop in H as [Hs Hm].
    apply Bool.eqb_prop in Hs. apply Pos.eqb_eq in Hm. apply Z.eqb_eq in He.
    now subst.
Qed.

Lemma py_eqb_unbool (a b : pyvalue) : py_eqb a b = py_eqb (unbool a) (unbool b).
Proof.
  destruct a as [ |x| | | | | | ], b as [ |y| | | | | | ]; try reflexivity.
  - now destruct x, y.
  - apply Z.eqb_sym.
Qed.

Lemma datetime_eqb_trans (t u w : datetime) :
  datetime_eqb t u = true -> datetime_eqb u w = true -> datetime_eqb t w = true.
Proof.
  unfold datetime_eqb, date_eqb.
  destruct (tzoffset t), (tzoffset u), (tzoffset w); try discriminate; lia.
Qed.

Lemma py_eqb_trans_unbool (a b c : pyvalue) :
  float_ok a -> float_ok c ->
  (forall x, a <> VBool x) -> (forall x, b <> VBool x) -> (forall x, c <> VBool x) ->
  py_eqb a b = true -> py_eqb b c = true -> py_eqb a c = true.
Proof.
  intros Va Vc Na Nb Nc.
  destruct a; try (exfalso; eapply Na; reflexivity);
    destruct b; try (exfalso; eapply Nb; reflexivity); try discriminate;
    destruct c; try (exfalso; eapply Nc; reflexivity); try discriminate;
    simpl; intros H1 H2; auto;
    first
      [ lia
      | apply Z.eqb_eq in H1; subst; assumption
      | apply Z.eqb_eq in H2; subst; assumption
      | apply Z.eqb_eq; exact (eqb_int_inj _ _ _ H1 H2)
      | exact (eqb_int_unique _ _ _ Va Vc H1 H2)
      | exact (float_eqb_eq_int _ _ _ H1 H2)
      | rewrite float_eqb_sym in H2; exact (float_eqb_eq_int _ _ _ H2 H1)
      | exact (float_eqb_trans _ _ _ H1 H2)
      | apply String.eqb_eq in H1, H2; subst; apply String.eqb_refl
      | unfold date_eqb in *; lia
      | exact (datetime_eqb_trans _ _ _ H1 H2)
      | apply bool_decide_eq_true in H1, H2; subst; now apply bool_decide_eq_true ].
Qed.

(** Equality of values is transitive when the two outer values are
    well-formed. *)
Lemma py_eqb_trans (a b c : pyvalue) :
  float_ok a -> float_ok c ->
  py_eqb a b = true -> py_eqb b c = true -> py_eqb a c = true.
Proof.
  intros Va Vc. rewrite (py_eqb_unbool a b), (py_eqb_unbool b c), (py_eqb_unbool a c).
  apply py_eqb_trans_unbool.
  - now destruct a.
  - now destruct c.
  - intros x. now destruct a.
  - intros x. now destruct b.
  - intros x. now destruct c.
Qed.

Lemma polars_eqb_py (a b : pyvalue) :
  polars_eqb a b = true -> py_eqb a b = true /\ a <> VNone /\ b <> VNone.
Proof.
  destruct a, b; simpl; try discriminate; intros H; repeat split; auto; discriminate.
Qed.

Lemma polars_eqb_trans (a b c : pyvalue) :
  float_ok a -> float_ok c ->
  polars_eqb a b = true -> polars_eqb b c = true -> polars_eqb a c = true.
Proof.
  intros Va Vc H1 H2.
  apply polars_eqb_py in H1 as (H1 & Na & _), H2 as (H2 & _ & Nc).
  pose proof (py_eqb_trans a b c Va Vc H1 H2) as H.
  destruct a; try congruence; destruct c; try congruence; exact H.
Qed.

(** ** The three outputs of [split_dataframe] *)

Lemma filter_length_le {A : Type} (p : A -> bool) (l : list A) :
  (List.length (List.filter p l) <= List.length l)%nat.
Proof.
  induction l as [|a l IH]; simpl; [lia|]. destruct (p a); simpl; lia.
Qed.

Lemma filter_all {A : Type} (l : list A) : List.filter (fun _ => true) l = l.
Proof. induction l as [|a l IH]; simpl; [reflexivity | now f_equal]. Qed.

Lemma filter_three_exclusive {A : Type} (p q r : A -> bool) (l : list A) :
  (forall x, In x l -> ~ (p x = true /\ q x = true)
                       /\ ~ (p x = true /\ r x = true)
                       /\ ~ (q x = true /\ r x = true)) ->
  (List.length (List.filter p l) + List.length (List.filter q l)
   + List.length (List.filter r l) <= List.length l)%nat.
Proof.
  induction l as [|a l IH]; intros H; simpl; [lia|].
  assert (IH' := IH (fun x Hx => H x (or_intror Hx))).
  destruct (H a (or_introl eq_refl)) as (H1 & H2 & H3).
  destruct (p a), (q a), (r a); simpl; try lia; exfalso; tauto.
Qed.

Lemma key_column_In (df : DataFrame) (pk : string) (r : row) :
  In r (df_rows df) -> In (cell r pk) (key_column df pk).
Proof. intros H. unfold key_column. apply in_map_iff. eauto. Qed.

Lemma keys_ok_column (df : DataFrame) (pk : string) (i : pyvalue) :
  keys_ok df pk -> In i (key_column df pk) -> float_ok i.
Proof.
  intros Hok Hi. unfold key_column in Hi. apply in_map_iff in Hi as (r & <- & Hr).
  now apply Hok.
Qed.

(** Two keys that match one and the same value select the same rows. *)
Lemma first_row_same (df : DataFrame) (pk : string) (id_val id_val' : pyvalue) :
  keys_ok df pk -> float_ok id_val -> float_ok id_val' ->
  polars_eqb id_val id_val' = true ->
  first_row df pk id_val = first_row df pk id_val'.
Proof.
  intros Hok V V' Hm. unfold first_row.
  replace (List.filter (fun r => polars_eqb (cell r pk) id_val') (df_rows df))
    with (List.filter (fun r => polars_eqb (cell r pk) id_val) (df_rows df));
    [reflexivity|].
  apply filter_ext_in. intros x Hx.
  destruct (polars_eqb (cell x pk) id_val) eqn:E1;
    destruct (polars_eqb (cell x pk) id_val') eqn:E2; try reflexivity.
  - rewrite (polars_eqb_trans _ _ _ (Hok x Hx) V' E1 Hm) in E2. discriminate.
  - rewrite polars_eqb_sym in Hm.
    rewrite (polars_eqb_trans _ _ _ (Hok x Hx) V E2 Hm) in E1. discriminate.
Qed.

Section SplitFacts.

Context {rt : Runtime}.

(** What it means for a key value to be matched by one of the two lists
    that the loop over [ids_in_both] builds. *)
Lemma classified_key (pks : list string) (pk0 : string)
  (casted_new casted_db : DataFrame) (equals_ids update_ids : list pyvalue)
  (k : pyvalue) :
  classify pks pk0 casted_new casted_db
    (key_column (frame_filter
                   (fun r => is_in (cell r pk0) (key_column casted_db pk0))
                   casted_new) pk0)
  = Ok (equals_ids, update_ids) ->
  forall verdict : bool,
    is_in k (if verdict then equals_ids else update_ids) = true <->
    exists id_val row_new row_db,
      In id_val (key_column casted_new pk0)
      /\ is_in id_val (key_column casted_db pk0) = true
      /\ polars_eqb k id_val = true
      /\ first_row casted_new pk0 id_val = Ok row_new
      /\ first_row casted_db pk0 id_val = Ok row_db
      /\ is_identical pks row_new row_db = verdict.
Proof.
  intros Hcl verdict.
  pose proof (classify_spec _ _ _ _ _ _ _ Hcl) as Hspec.
  rewrite is_in_spec. split.
  - intros (i & Hi & Hm). destruct (Hspec i) as (_ & He & Hu).
    destruct verdict.
    + apply He in Hi as [Hi (rn & rd & H1 & H2 & H3)].
      apply in_ids_in_both in Hi as [Hi1 Hi2]. exists i, rn, rd. auto 8.
    + apply Hu in Hi as [Hi (rn & rd & H1 & H2 & H3)].
      apply in_ids_in_both in Hi as [Hi1 Hi2]. exists i, rn, rd. auto 8.
  - intros (i & rn & rd & Hi1 & Hi2 & Hm & H1 & H2 & H3).
    exists i. split; [|exact Hm]. destruct (Hspec i) as (_ & He & Hu).
    destruct verdict.
    + apply He. split; [apply in_ids_in_both; auto|]. exists rn, rd. auto.
    + apply Hu. split; [apply in_ids_in_both; auto|]. exists rn, rd. auto.
Qed.

(** A key that matches a key of each coerced table is in one of the two
    lists. *)
Lemma shared_key_is_classified (pks : list string) (pk0 : string)
  (casted_new casted_db : DataFrame) (equals_ids update_ids : list pyvalue)
  (k : pyvalue) :
  keys_ok casted_new pk0 -> keys_ok casted_db pk0 ->
  classify pks pk0 casted_new casted_db
    (key_column (frame_filter
                   (fun r => is_in (cell r pk0) (key_column casted_db pk0))
                   casted_new) pk0)
  = Ok (equals_ids, update_ids) ->
  is_in k (key_column casted_new pk0) = true ->
  is_in k (key_column casted_db pk0) = true ->
  is_in k equals_ids = true \/ is_in k update_ids = true.
Proof.
  intros Hn Hd Hcl Hkn Hkd.
  apply is_in_spec in Hkn as (i & Hi & Hki), Hkd as (j & Hj & Hkj).
  assert (Hij : polars_eqb i j = true).
  { rewrite polars_eqb_sym in Hki.
    exact (polars_eqb_trans _ _ _ (keys_ok_column _ _ _ Hn Hi)
             (keys_ok_column _ _ _ Hd Hj) Hki Hkj). }
  assert (Hin : is_in i (key_column casted_db pk0) = true)
    by (apply is_in_spec; eauto).
  pose proof (classify_spec _ _ _ _ _ _ _ Hcl i) as (H0 & _ & _).
  destruct H0 as (rn & rd & H1 & H2); [apply in_ids_in_both; auto|].
  destruct (is_identical pks rn rd) eqn:E.
  - left. apply (classified_key _ _ _ _ _ _ k Hcl true). exists i, rn, rd. auto 8.
  - right. apply (classified_key _ _ _ _ _ _ k Hcl false). exists i, rn, rd. auto 8.
Qed.

(** A key cannot be matched by both lists. *)
Lemma classified_once (pks : list string) (pk0 : string)
  (casted_new casted_db : DataFrame) (equals_ids update_ids : list pyvalue)
  (k : pyvalue) :
  keys_ok casted_new pk0 -> keys_ok casted_db pk0 ->
  classify pks pk0 casted_new casted_db
    (key_column (frame_filter
                   (fun r => is_in (cell r pk0) (key_column casted_db pk0))
                   casted_new) pk0)
  = Ok (equals_ids, update_ids) ->
  ~ (is_in k equals_ids = true /\ is_in k update_ids = true).
Proof.
  intros Hn Hd Hcl [He Hu].
  apply (classified_key _ _ _ _ _ _ k Hcl true) in He
    as (i & rn & rd & Hi & _ & Hki & H1 & H2 & H3).
  apply (classified_key _ _ _ _ _ _ k Hcl false) in Hu
    as (i' & rn' & rd' & Hi' & _ & Hki' & H1' & H2' & H3').
  assert (Vi := keys_ok_column _ _ _ Hn Hi).
  assert (Vi' := keys_ok_column _ _ _ Hn Hi').
  assert (Hii : polars_eqb i i' = true).
  { rewrite polars_eqb_sym in Hki. exact (polars_eqb_trans _ _ _ Vi Vi' Hki Hki'). }
  rewrite (first_row_same _ _ _ _ Hn Vi Vi' Hii) in H1.
  rewrite (first_row_same _ _ _ _ Hd Vi Vi' Hii) in H2.
  congruence.
Qed.

(** A key matched by one of the lists is among the keys of the coerced
    stored table. *)
Lemma classified_is_stored (pks : list string) (pk0 : string)
  (casted_new casted_db : DataFrame) (equals_ids update_ids : list pyvalue)
  (k : pyvalue) (verdict : bool) :
  float_ok k -> keys_ok casted_db pk0 ->
  classify pks pk0 casted_new casted_db
    (key_column (frame_filter
                   (fun r => is_in (cell r pk0) (key_column casted_db pk0))
                   casted_new) pk0)
  = Ok (equals_ids, update_ids) ->
  is_in k (if verdict then equals_ids else update_ids) = true ->
  is_in k (key_column casted_db pk0) = true
  /\ is_in k (key_column casted_new pk0) = true.
Proof.
  intros Vk Hd Hcl H.
  apply (classified_key _ _ _ _ _ _ k Hcl verdict) in H
    as (i & rn & rd & Hi & Hin & Hki & _).
  split; [|apply is_in_spec; eauto].
  apply is_in_spec in Hin as (j & Hj & Hij).
  apply is_in_spec. exists j. split; [exact Hj|].
  exact (polars_eqb_trans _ _ _ Vk (keys_ok_column _ _ _ Hd Hj) Hki Hij).
Qed.

(** X20: with well-formed key cells, no row of the new table is in two of
    the three outputs, so together the outputs hold at most as many rows
    as the new table. *)
Theorem split_outputs_disjoint (self : PolarsCaster) (df_new df_db : DataFrame)
  (pks : list string) (schema_name : string) (pk0 : string)
  (ins eq upd : DataFrame) :
  hd_error pks = Some pk0 ->
  keys_ok df_new pk0 ->
  (forall c, cast_dataframe self df_new schema_name = Ok c -> keys_ok c pk0) ->
  (forall c, cast_dataframe self df_db schema_name = Ok c -> keys_ok c pk0) ->
  split_dataframe self df_new df_db pks schema_name = Ok (ins, eq, upd) ->
  (forall r, ~ (In r (df_rows ins) /\ In r (df_rows eq))
             /\ ~ (In r (df_rows ins) /\ In r (df_rows upd))
             /\ ~ (In r (df_rows eq) /\ In r (df_rows upd)))
  /\ (List.length (df_rows ins) + List.length (df_rows eq)
      + List.length (df_rows upd) <= List.length (df_rows df_new))%nat.
Proof.
  intros Hpk Vnew Vcn Vcd H.
  apply split_dataframe_inv in H as (pk0' & rest & -> & _ & _ & H).
  injection Hpk as ->.
  destruct H as [s Hs E | E1 E2 | cn cd eqs upds _ _ Hcn Hcd Hcl].
  - simpl. split; [intros r; tauto | lia].
  - simpl. split; [intros r; tauto | lia].
  - specialize (Vcn _ Hcn). specialize (Vcd _ Hcd).
    assert (Hex : forall r, In r (df_rows df_new) ->
               ~ (negb (is_in (cell r pk0) (key_column cd pk0)) = true
                  /\ is_in (cell r pk0) eqs = true)
               /\ ~ (negb (is_in (cell r pk0) (key_column cd pk0)) = true
                     /\ is_in (cell r pk0) upds = true)
               /\ ~ (is_in (cell r pk0) eqs = true
                     /\ is_in (cell r pk0) upds = true)).
    { intros r Hr. split; [|split].
      - intros [Hi He]. apply negb_true_iff in Hi.
        destruct (classified_is_stored _ _ _ _ _ _ _ true (Vnew r Hr) Vcd Hcl He).
        congruence.
      - intros [Hi Hu]. apply negb_true_iff in Hi.
        destruct (classified_is_stored _ _ _ _ _ _ _ false (Vnew r Hr) Vcd Hcl Hu).
        congruence.
      - exact (classified_once _ _ _ _ _ _ _ Vcn Vcd Hcl). }
    split.
    + intros r. rewrite !in_frame_filter.
      split; [|split]; intros [[Hr H1] [_ H2]];
        destruct (Hex r Hr) as (X1 & X2 & X3); tauto.
    + unfold frame_filter. simpl. now apply filter_three_exclusive.
Qed.

(** X21: with well-formed key cells and rows in both tables, the rows of
    the new table that are in none of the three outputs are exactly those
    whose first-key value is among the keys of the coerced stored table
    and not among the keys of the coerced new table; every other row is
    in an output. *)
Theorem split_drops_exactly_unmatched_rows (self : PolarsCaster)
  (df_new df_db : DataFrame) (pks : list string) (schema_name : string)
  (pk0 : string) (casted_new casted_db ins eq upd : DataFrame) :
  hd_error pks = Some pk0 ->
  df_rows df_new <> [] -> df_rows df_db <> [] ->
  keys_ok df_new pk0 -> keys_ok casted_new pk0 -> keys_ok casted_db pk0 ->
  cast_dataframe self df_new schema_name = Ok casted_new ->
  cast_dataframe self df_db schema_name = Ok casted_db ->
  split_dataframe self df_new df_db pks schema_name = Ok (ins, eq, upd) ->
  forall r, In r (df_rows df_new) ->
    (~ In r (df_rows ins) /\ ~ In r (df_rows eq) /\ ~ In r (df_rows upd))
    <-> (is_in (cell r pk0) (key_column casted_db pk0) = true
         /\ is_in (cell r pk0) (key_column casted_new pk0) = false).
Proof.
  intros Hpk En Ed Vnew Vcn Vcd Hcn Hcd H r Hr.
  apply split_dataframe_inv in H as (pk0' & rest & -> & _ & _ & H).
  injection Hpk as ->.
  destruct H as [s Hs E | E1 E2 | cn cd eqs upds _ _ Hcn' Hcd' Hcl];
    try contradiction.
  assert (cn = casted_new) as -> by congruence.
  assert (cd = casted_db) as -> by congruence.
  rewrite !in_frame_filter.
  destruct (is_in (cell r pk0) (key_column casted_db pk0)) eqn:Hdb; simpl.
  - destruct (is_in (cell r pk0) (key_column casted_new pk0)) eqn:Hnew.
    + split; [|intros [_ F]; discriminate].
      intros (_ & He & Hu). exfalso.
      destruct (shared_key_is_classified _ _ _ _ _ _ _ Vcn Vcd Hcl Hnew Hdb); tauto.
    + split; [auto|]. intros _.
      split; [intros [_ F]; discriminate|].
      split; intros [_ F].
      * destruct (classified_is_stored _ _ _ _ _ _ _ true (Vnew r Hr) Vcd Hcl F).
        congruence.
      * destruct (classified_is_stored _ _ _ _ _ _ _ false (Vnew r Hr) Vcd Hcl F).
        congruence.
  - split; [|intros [F _]; discriminate]. intros (Hi & _). tauto.
Qed.

(** X22: when a table is reconciled against itself and no cell of its
    coerced form is a NaN, nothing is reported for update. *)
Theorem split_against_itself (self : PolarsCaster) (df : DataFrame)
  (pks : list string) (schema_name : string) (ins eq upd : DataFrame) :
  (forall casted r key, cast_dataframe self df schema_name = Ok casted ->
                        In r (df_rows casted) -> cell r key <> VFloat S754_nan) ->
  split_dataframe self df df pks schema_name = Ok (ins, eq, upd) ->
  df_rows upd = [].
Proof.
  intros Hnan H.
  apply split_dataframe_inv in H as (pk0 & rest & -> & _ & _ & H).
  destruct H as [s Hs E | E1 E2 | cn cd eqs upds _ _ Hcn Hcd Hcl];
    try reflexivity.
  assert (cd = cn) as -> by congruence.
  simpl. apply filter_none. intros r Hr.
  destruct (is_in (cell r pk0) upds) eqn:E; [|reflexivity]. exfalso.
  apply (classified_key _ _ _ _ _ _ _ Hcl false) in E
    as (i & rn & rd & _ & _ & _ & H1 & H2 & H3).
  assert (rd = rn) as -> by congruence.
  apply first_row_spec in H1 as (l1 & l2 & Hrows & _).
  assert (Hin : In rn (df_rows cn)) by (rewrite Hrows; apply in_elt).
  assert (is_identical (pk0 :: rest) rn rn = true).
  { apply is_identical_spec. intros key _ _ _.
    apply field_verdict_spec, field_verdict_refl. exact (Hnan cn rn key Hcn Hin). }
  congruence.
Qed.

(** X23: [split] fails in these ways only: [SchemaNotFound], the three key
    checks, [RecursionError] out of the date parser, the failure of the
    polars cast, and the refusal by polars of a key list that names a
    column the coerced tables lack or names a column twice.  The lookups
    [to_dicts()[0]] of its loop always find a row, and a row that fails
    validation never makes it fail.  The filters and [is_in] of polars are
    taken as comparisons that return, as [polars_eqb] has them. *)
Theorem split_failure_kind (self : PolarsCaster) (df_new df_db : DataFrame)
  (pks : list string) (schema_name : string) (e : exn) :
  split_dataframe self df_new df_db pks schema_name = Raise e ->
  e <> IndexError /\ e <> UnboundLocalError
  /\ (forall p, e <> RowValidationFailure p)
  /\ (e = SchemaNotFound schema_name
      \/ e = EmptyPrimaryKeyList
      \/ (exists table c, e = MissingPrimaryKeyColumn table c /\ In c pks)
      \/ (exists table c n, e = NullPrimaryKeyValue table c n /\ In c pks)
      \/ e = RecursionError \/ e = InvalidOperationError
      \/ (exists c, e = ColumnNotFoundError c /\ In c pks)
      \/ e = DuplicateError).
Proof.
  intros H.
  cut (e = SchemaNotFound schema_name
       \/ e = EmptyPrimaryKeyList
       \/ (exists table c, e = MissingPrimaryKeyColumn table c /\ In c pks)
       \/ (exists table c n, e = NullPrimaryKeyValue table c n /\ In c pks)
       \/ e = RecursionError \/ e = InvalidOperationError
       \/ (exists c, e = ColumnNotFoundError c /\ In c pks)
       \/ e = DuplicateError).
  { intros K. repeat split; try exact K.
    - intros ->. decompose [or ex and] K; discriminate.
    - intros ->. decompose [or ex and] K; discriminate.
    - intros p ->. decompose [or ex and] K; discriminate. }
  unfold split_dataframe in H.
  destruct (schema_mapping self !! schema_name) as [s|] eqn:Hs.
  2:{ injection H as <-. now left. }
  destruct pks as [|pk0 rest] eqn:Epks.
  { injection H as <-. right. now left. }
  rewrite <- Epks in *.
  destruct (check_pk_columns_spec pks df_new df_db)
    as [[Hc _] | (t & c & Hc & Hin & _)]; rewrite Hc in H; simpl in H.
  2:{ injection H as <-. right. right. left. eauto. }
  destruct (check_pk_nulls_spec pks df_new df_db)
    as [[Hn _] | (t & c & n & Hn & Hin & _)]; rewrite Hn in H; simpl in H.
  2:{ injection H as <-. right. right. right. left. eauto. }
  destruct (is_empty df_new); [discriminate|].
  destruct (is_empty df_db); [discriminate|].
  assert (Hcast : forall df e', cast_dataframe self df schema_name = Raise e' ->
                                e' = RecursionError \/ e' = InvalidOperationError).
  { intros df e' He. apply cast_dataframe_raise in He as [[_ F]|He]; [congruence|exact He]. }
  assert (Hsel : forall df c e', select_column df pks c = Raise e' ->
                                 (exists x, e' = ColumnNotFoundError x /\ In x pks)
                                 \/ e' = DuplicateError).
  { intros df c e'. unfold select_column.
    destruct (List.find _ pks) as [x|] eqn:F.
    - intros He. injection He as <-. left. exists x. split; [reflexivity|].
      now apply find_some in F.
    - destruct (nodupb pks); [discriminate|]. intros He. injection He as <-. now right. }
  destruct (cast_dataframe self df_new schema_name) as [cn|e1] eqn:Hcn; simpl in H.
  2:{ injection H as <-. destruct (Hcast _ _ Hcn) as [-> | ->]; tauto. }
  destruct (cast_dataframe self df_db schema_name) as [cd|e2] eqn:Hcd; simpl in H.
  2:{ injection H as <-. destruct (Hcast _ _ Hcd) as [-> | ->]; tauto. }
  destruct (select_column cd pks pk0) as [ids_db|e3] eqn:Hdb; simpl in H.
  2:{ injection H as <-. destruct (Hsel _ _ _ Hdb) as [X | ->]; tauto. }
  apply select_column_Ok in Hdb. subst ids_db.
  destruct (select_column
              (frame_filter (fun r => is_in (cell r pk0) (key_column cd pk0)) cn)
              pks pk0) as [ids_both|e4] eqn:Hboth; simpl in H.
  2:{ injection H as <-. destruct (Hsel _ _ _ Hboth) as [X | ->]; tauto. }
  apply select_column_Ok in Hboth. subst ids_both.
  exfalso.
  destruct (classify_returns pks pk0 cn cd
              (key_column (frame_filter
                             (fun r => is_in (cell r pk0) (key_column cd pk0)) cn) pk0))
    as (eqs & upds & Hcl).
  - intros i Hi. now apply in_ids_in_both.
  - rewrite Hcl in H. discriminate H.
Qed.

(** X24: each of the three outputs is the new table filtered: it has the
    schema of the new table and rows of the new table, in the order of the
    new table, whenever the new table has rows. *)
Theorem split_outputs_are_filters (self : PolarsCaster) (df_new df_db : DataFrame)
  (pks : list string) (schema_name : string) (ins eq upd : DataFrame) :
  df_rows df_new <> [] ->
  split_dataframe self df_new df_db pks schema_name = Ok (ins, eq, upd) ->
  (exists keep, ins = frame_filter keep df_new)
  /\ (exists keep, eq = frame_filter keep df_new)
  /\ (exists keep, upd = frame_filter keep df_new).
Proof.
  intros En H.
  apply split_dataframe_inv in H as (pk0 & rest & -> & _ & _ & H).
  destruct H as [s Hs E | E1 E2 | cn cd eqs upds _ _ Hcn Hcd Hcl];
    try contradiction.
  - assert (Hall : df_new = frame_filter (fun _ => true) df_new).
    { unfold frame_filter. rewrite filter_all. now destruct df_new. }
    assert (Hnone : empty_frame (df_schema df_new)
                    = frame_filter (fun _ => false) df_new).
    { unfold frame_filter, empty_frame. f_equal. symmetry. now apply filter_none. }
    split; [|split].
    + exists (fun _ => true). exact Hall.
    + exists (fun _ => false). exact Hnone.
    + exists (fun _ => false). exact Hnone.
  - split; [|split]; eexists; reflexivity.
Qed.

End SplitFacts.

(** ** The column types of a coerced table *)

Lemma lookup_key_filter {A : Type} (q : string -> bool)
  (l : list (string * A)) (c : string) :
  q c = true ->
  lookup_key (List.filter (fun '(col, _) => q col) l) c = lookup_key l c.
Proof.
  intros Hq. induction l as [|[k v] l IH]; simpl; [reflexivity|].
  destruct (q k) eqn:Hk; simpl.
  - now rewrite IH.
  - destruct (String.eqb_spec k c) as [->|_]; [congruence | exact IH].
Qed.

Section CastSchemaFacts.

Context {rt : Runtime}.

(** X25: a coerced table without rows has the columns and types that
    [_get_polars_schema] derives from the model; in a coerced table with
    rows, every column that the model names has the type that
    [_get_polars_schema] gives it, and the other columns keep the type
    polars inferred. *)
Theorem cast_dataframe_column_types (self : PolarsCaster) (df casted : DataFrame)
  (schema_name : string) (s : schema) :
  schema_mapping self !! schema_name = Some s ->
  cast_dataframe self df schema_name = Ok casted ->
  (df_rows casted = [] -> df_schema casted = _get_polars_schema s)
  /\ (df_rows casted <> [] ->
      forall c t t', In (c, t) (df_schema casted) ->
                     lookup_key (_get_polars_schema s) c = Some t' -> t = t').
Proof.
  intros Hs H. unfold cast_dataframe, is_empty in H. rewrite Hs in H.
  destruct (df_rows df) as [|r0 rows0] eqn:E.
  { injection H as <-. split; [reflexivity | intros F; now elim F]. }
  rewrite <- E in *.
  apply bind_Ok in H as (l & Hl & H).
  destruct l as [|x l].
  { injection H as <-. split; [reflexivity | intros F; now elim F]. }
  set (result_df := frame_of_dicts (x :: l)) in *.
  assert (Hrows : df_rows result_df <> []) by (unfold result_df; discriminate).
  destruct (List.filter _ (_get_polars_schema s)) as [|kv to_cast] eqn:Ef.
  - injection H as <-. split; [intros F; contradiction|]. intros _ c t t' Hin Hl'.
    exfalso.
    assert (Hc : mem c (columns result_df) = true).
    { apply mem_In. unfold columns. apply in_map_iff. now exists (c, t). }
    pose proof (lookup_key_filter (fun col => mem col (columns result_df))
                  (_get_polars_schema s) c Hc) as Hk.
    cbv beta in Hk. rewrite Ef, Hl' in Hk. discriminate.
  - rewrite <- Ef in H. unfold frame_cast in H.
    apply bind_Ok in H as (rows & Hm & H). injection H as <-. simpl.
    split.
    + intros ->. apply mapM_length in Hm. destruct (df_rows result_df); [congruence|].
      discriminate.
    + intros _ c t t' Hin Hl'.
      apply in_map_iff in Hin as ([c0 t0] & Heq & Hin0).
      injection Heq as -> <-.
      assert (Hc : mem c (columns result_df) = true).
      { apply mem_In. unfold columns. apply in_map_iff. now exists (c, t0). }
      pose proof (lookup_key_filter (fun col => mem col (columns result_df))
                    (_get_polars_schema s) c Hc) as Hk.
      cbv beta in Hk. rewrite Hk, Hl'. reflexivity.
Qed.

End CastSchemaFacts.

(** ** The further properties at closed inputs *)

Lemma attempt_cast_result_type_witness :
  VInt 12 = VNone \/ isinstance (VInt 12) TInt = true.
Proof.
  apply (@attempt_cast_result_type Sample.plain (VStr "12") TInt (VInt 12)).
  vm_compute; reflexivity.
Defined.

Lemma attempt_cast_stable_witness :
  @attempt_cast Sample.plain (VInt 12) TInt = Ok (VInt 12).
Proof.
  apply (@attempt_cast_stable Sample.plain (VStr "12") TInt (VInt 12)).
  vm_compute; reflexivity.
Defined.

Lemma attempt_cast_failure_kind_witness :
  (exists d, VNone = VDate d)
  \/ (VNone = VNone
      /\ @parse_date Sample.plain (VStr "2021/1/4294967296")
         = Raise OverflowError).
Proof.
  apply (proj1 (proj2 (@attempt_cast_failure_kind Sample.plain))
           "2021/1/4294967296").
  vm_compute; reflexivity.
Defined.

Lemma attempt_cast_unparsable_date_text_witness :
  @attempt_cast Sample.plain (VStr "abc") TDate = Raise RecursionError
  /\ @attempt_cast Sample.plain (VStr "abc") TDatetime = Raise RecursionError.
Proof.
  apply (@attempt_cast_unparsable_date_text Sample.plain "abc");
    vm_compute; reflexivity.
Defined.

Lemma manual_fallback_valid_date_witness :
  valid_date (mkdate 2024 1 15)
  /\ 1 <= year (mkdate 2024 1 15) <= 9999
  /\ 1 <= month (mkdate 2024 1 15) <= 12
  /\ 1 <= day (mkdate 2024 1 15)
     <= days_in_month (year (mkdate 2024 1 15)) (month (mkdate 2024 1 15)).
Proof.
  apply (manual_fallback_valid_date "2024/01/15").
  vm_compute; reflexivity.
Defined.

Lemma fix_tz_inserts_colon_witness :
  fix_tz "2024-01-15T10:00:00+0500" = Some "2024-01-15T10:00:00+05:00".
Proof.
  exact (fix_tz_inserts_colon "2024-01-15T10:00:00" "+" "0" "5" "0" "0"
           (or_introl eq_refl) eq_refl).
Defined.

Lemma untyped_field_is_left_alone_witness :
  resolve (Sample.json_field TInt true)
  = (None, fi_format (Sample.json_field TInt true))
  /\ cast_target (Sample.json_field TInt true) = None
  /\ polars_type (Sample.json_field TInt true) = Utf8.
Proof.
  apply untyped_field_is_left_alone. reflexivity.
Defined.

Lemma cast_fields_keeps_row_shape_witness :
  map fst [("id", VInt 1); ("x", VInt 5); ("note", VStr "q")]
  = map fst [("id", VStr "1"); ("x", VInt 5); ("note", VStr "q")]
  /\ forall key, ~ In key (map fst (properties Sample.item)) ->
       lookup_key [("id", VInt 1); ("x", VInt 5); ("note", VStr "q")] key
       = lookup_key [("id", VStr "1"); ("x", VInt 5); ("note", VStr "q")] key.
Proof.
  apply (@cast_fields_keeps_row_shape Sample.plain).
  vm_compute; reflexivity.
Defined.

Lemma cast_fields_casts_each_field_witness :
  exists v, @attempt_cast Sample.plain (VStr "1") TInt = Ok v
            /\ lookup_key [("id", VInt 1); ("x", VInt 5)] "id" = Some v.
Proof.
  apply (@cast_fields_casts_each_field Sample.plain (properties Sample.item)
           [("id", VStr "1"); ("x", VInt 5)] [("id", VInt 1); ("x", VInt 5)]
           ltac:(repeat constructor; simpl; intros H;
                 repeat (destruct H as [H|H]; [discriminate H|]); exact H)
           ltac:(vm_compute; reflexivity)
           "id" (Sample.json_field TInt false) (VStr "1")).
  - now left.
  - reflexivity.
Defined.

Lemma cast_rows_keeps_validated_witness :
  df_rows Sample.lone_casted
  = @validated_rows Sample.plain Sample.item (df_rows Sample.lone_new)
  /\ (forall x, In x (df_rows Sample.lone_casted) <->
                exists r, In r (df_rows Sample.lone_new)
                          /\ @cast_row Sample.plain Sample.item r = Ok x)
  /\ (List.length (df_rows Sample.lone_casted)
      <= List.length (df_rows Sample.lone_new))%nat.
Proof.
  apply (@cast_rows_keeps_validated Sample.plain).
  vm_compute; reflexivity.
Defined.

Lemma cast_dataframe_failure_kind_witness :
  @cast_dataframe Sample.plain Sample.caster Sample.items_new "order"
  = Raise (SchemaNotFound "order").
Proof.
  apply (proj1 (@cast_dataframe_failure_kind Sample.plain Sample.caster
                  Sample.items_new "order")).
  vm_compute; reflexivity.
Defined.

Lemma cast_dataframe_all_rows_fail_witness :
  @cast_dataframe Sample.plain Sample.caster
    (mkframe [("id", Int64); ("x", Utf8)] [Sample.bad_row]) "item"
  = Ok (empty_frame (_get_polars_schema Sample.item)).
Proof.
  apply cast_dataframe_all_rows_fail.
  - vm_compute; reflexivity.
  - intros r [<-|[]]. exists Sample.bad_row_processed. vm_compute; reflexivity.
Defined.

Lemma cast_dataframe_row_count_witness :
  List.length (df_rows Sample.lone_casted)
  = List.length (@validated_rows Sample.plain Sample.item (df_rows Sample.lone_new))
  /\ (List.length (df_rows Sample.lone_casted)
      <= List.length (df_rows Sample.lone_new))%nat.
Proof.
  apply (@cast_dataframe_row_count Sample.plain Sample.caster Sample.lone_new
           Sample.lone_casted "item" Sample.item);
    vm_compute; reflexivity.
Defined.

Lemma is_identical_refl_witness :
  cell [("id", VInt 1); ("x", VFloat (S754_finite false 1 0))] "x"
  <> VFloat S754_nan.
Proof.
  apply (proj1 (is_identical_refl ["id"]
                  [("id", VInt 1); ("x", VFloat (S754_finite false 1 0))])).
  - vm_compute; reflexivity.
  - reflexivity.
  - intros [H|[]]; discriminate H.
Defined.

Lemma nan_is_always_a_difference_witness :
  is_identical ["id"] [("id", VInt 1); ("x", VFloat S754_nan)]
                      [("id", VInt 1); ("x", VFloat S754_nan)] = false.
Proof.
  apply (nan_is_always_a_difference ["id"] _ _ "x").
  - reflexivity.
  - reflexivity.
  - intros [H|[]]; discriminate H.
  - now left.
Defined.

Lemma split_reports_first_missing_column_witness :
  @split_dataframe Sample.plain Sample.caster Sample.items_new Sample.items_db
    ["id"; "sku"] "item"
  = Raise (MissingPrimaryKeyColumn "df_new" "sku").
Proof.
  refine (proj1 (@split_reports_first_missing_column Sample.plain Sample.caster
                   Sample.items_new Sample.items_db ["id"] [] "sku" "item"
                   Sample.item _ _) _).
  - vm_compute; reflexivity.
  - intros pk [<-|[]]. split; now left.
  - intros H. vm_compute in H.
    repeat (destruct H as [H|H]; [discriminate H|]). exact H.
Defined.

Lemma split_reports_first_null_column_witness :
  @split_dataframe Sample.plain Sample.caster Sample.items_db Sample.nulls_db
    ["id"] "item"
  = Raise (NullPrimaryKeyValue "df_db" "id" 1).
Proof.
  refine (proj2 (@split_reports_first_null_column Sample.plain Sample.caster
                   Sample.items_db Sample.nulls_db [] [] "id" "item"
                   Sample.item _ _ _) _ _).
  - vm_compute; reflexivity.
  - intros pk [<-|[]]. split; now left.
  - intros pk [].
  - reflexivity.
  - vm_compute. lia.
Defined.

Lemma split_outputs_disjoint_witness :
  (forall r, ~ (In r (df_rows Sample.personas_insert)
                /\ In r (df_rows Sample.personas_equal))
             /\ ~ (In r (df_rows Sample.personas_insert)
                   /\ In r (df_rows Sample.personas_update))
             /\ ~ (In r (df_rows Sample.personas_equal)
                   /\ In r (df_rows Sample.personas_update)))
  /\ (List.length (df_rows Sample.personas_insert)
      + List.length (df_rows Sample.personas_equal)
      + List.length (df_rows Sample.personas_update)
      <= List.length (df_rows Sample.personas_new))%nat.
Proof.
  apply (@split_outputs_disjoint Sample.plain Sample.caster Sample.personas_new
           Sample.personas_db ["id"] "persona" "id").
  - reflexivity.
  - intros r Hr. vm_compute in Hr.
    repeat (destruct Hr as [<-|Hr]; [exact I|]). destruct Hr.
  - intros c Hc r Hr. vm_compute in Hc. injection Hc as <-. vm_compute in Hr.
    repeat (destruct Hr as [<-|Hr]; [exact I|]). destruct Hr.
  - intros c Hc r Hr. vm_compute in Hc. injection Hc as <-. vm_compute in Hr.
    repeat (destruct Hr as [<-|Hr]; [exact I|]). destruct Hr.
  - vm_compute; reflexivity.
Defined.

Lemma split_drops_exactly_unmatched_rows_witness :
  (~ In Sample.bad_row (df_rows Sample.lone_insert)
   /\ ~ In Sample.bad_row (df_rows Sample.lone_empty)
   /\ ~ In Sample.bad_row (df_rows Sample.lone_empty))
  <-> (is_in (cell Sample.bad_row "id") (key_column Sample.items_db_casted "id")
       = true
       /\ is_in (cell Sample.bad_row "id") (key_column Sample.lone_casted "id")
          = false).
Proof.
  apply (@split_drops_exactly_unmatched_rows Sample.plain Sample.caster
           Sample.lone_new Sample.items_db ["id"] "item" "id"
           Sample.lone_casted Sample.items_db_casted).
  - reflexivity.
  - discriminate.
  - discriminate.
  - intros r Hr. vm_compute in Hr.
    repeat (destruct Hr as [<-|Hr]; [exact I|]). destruct Hr.
  - intros r Hr. vm_compute in Hr.
    repeat (destruct Hr as [<-|Hr]; [exact I|]). destruct Hr.
  - intros r Hr. vm_compute in Hr.
    repeat (destruct Hr as [<-|Hr]; [exact I|]). destruct Hr.
  - vm_compute; reflexivity.
  - vm_compute; reflexivity.
  - vm_compute; reflexivity.
  - now left.
Defined.

Lemma split_against_itself_witness :
  df_rows Sample.personas_update = [].
Proof.
  apply (@split_against_itself Sample.plain Sample.caster Sample.personas_db
           ["id"] "persona" Sample.personas_update Sample.personas_db
           Sample.personas_update).
  - intros casted r key Hc Hr. vm_compute in Hc. injection Hc as <-.
    unfold cell. vm_compute in Hr.
    repeat (destruct Hr as [<-|Hr];
            [cbn [lookup_key]; repeat (destruct (String.eqb _ key)); discriminate|]).
    destruct Hr.
  - vm_compute; reflexivity.
Defined.

Lemma split_failure_kind_witness :
  DuplicateError <> IndexError /\ DuplicateError <> UnboundLocalError
  /\ (forall p, DuplicateError <> RowValidationFailure p)
  /\ (DuplicateError = SchemaNotFound "item"
      \/ DuplicateError = EmptyPrimaryKeyList
      \/ (exists table c, DuplicateError = MissingPrimaryKeyColumn table c
                          /\ In c ["id"; "id"])
      \/ (exists table c n, DuplicateError = NullPrimaryKeyValue table c n
                            /\ In c ["id"; "id"])
      \/ DuplicateError = RecursionError
      \/ DuplicateError = InvalidOperationError
      \/ (exists c, DuplicateError = ColumnNotFoundError c /\ In c ["id"; "id"])
      \/ DuplicateError = DuplicateError).
Proof.
  apply (@split_failure_kind Sample.plain Sample.caster Sample.items_new
           Sample.items_db ["id"; "id"] "item").
  vm_compute; reflexivity.
Defined.

Lemma split_outputs_are_filters_witness :
  (exists keep, Sample.personas_insert = frame_filter keep Sample.personas_new)
  /\ (exists keep, Sample.personas_equal = frame_filter keep Sample.personas_new)
  /\ (exists keep, Sample.personas_update = frame_filter keep Sample.personas_new).
Proof.
  apply (@split_outputs_are_filters Sample.plain Sample.caster
           Sample.personas_new Sample.personas_db ["id"] "persona").
  - discriminate.
  - vm_compute; reflexivity.
Defined.

Lemma cast_dataframe_column_types_witness :
  (df_rows Sample.lone_casted = [] ->
   df_schema Sample.lone_casted = _get_polars_schema Sample.item)
  /\ (df_rows Sample.lone_casted <> [] ->
      forall c t t', In (c, t) (df_schema Sample.lone_casted) ->
                     lookup_key (_get_polars_schema Sample.item) c = Some t' ->
                     t = t').
Proof.
  apply (@cast_dataframe_column_types Sample.plain Sample.caster Sample.lone_new
           Sample.lone_casted "item" Sample.item);
    vm_compute; reflexivity.
Defined.
